(** * Decision fusion of the pit-wall advisory engine

    A shallow embedding of the orchestration layer of the repository:
    - [adaptive/priority_cascade.py]: the Safety > Energy > Performance cascade;
    - [inference/inference_engine.py]: the budgeted scheduler and the cycle
      entry point [run_real_time_inference];
    - [utils/data_validators.py]: [validate_telemetry];
    - [adaptive/context_manager.py]: [determine_race_phase] and the other
      methods of the context manager;
    - the decision logic of [models/fatigue_detector.py],
      [models/energy_predictor.py] and [models/anomaly_detection.py] around
      their estimators, and two helpers of [api_server.py].

    The Python code is dynamically typed: predictor results are dictionaries
    of arbitrary values, [dict.get] fails on a non-dictionary, an ordering
    comparison fails on [None].  The embedding keeps that: values are a
    universal type [pyval], and every function that can raise returns in the
    error monad [res].

    Conventions.  Numbers are exact: an [int] is a [Z], a [float] is the
    rational it denotes (or an infinity, or NaN), and clock readings and
    durations are rationals in seconds.  The two float operations of the
    engine are rounded to the nearest double: the budget
    [timeout_ms / 1000.0] and the stamp [(time.time() - start_time) * 1000].
    The difference of two clock readings is taken exactly: the readings of
    one cycle are doubles within a factor two of each other, and the
    difference of two such doubles is a double.

    The wall clock is a value threaded through the scheduler.  It advances
    by the time each predictor call takes and by the time the engine's own
    code takes between two readings of [time.time()], which is a parameter
    of the cycle ([overhead]).  The [print] calls are left out.  The
    numerical predictors are opaque: a model is what its [predict_*]
    function answers on the telemetry. *)

From Stdlib Require Import ZArith QArith Qabs Lqa String DecimalString List Bool Lia.
Import ListNotations.

Open Scope string_scope.
Open Scope list_scope.
#[local] Set Warnings "-register-all".

(** ** Python values *)

Module Py.

(** A double is embedded by its exact rational value; the two infinities and
    NaN are kept apart because ordering and truthiness treat them
    differently. *)
Inductive pyfloat : Type :=
| FFin (q : Q)
| FInf (negative : bool)
| FNan.

Inductive pyval : Type :=
| VNone
| VBool (b : bool)
| VInt (n : Z)
| VFloat (x : pyfloat)
| VStr (s : string)
| VList (l : list pyval)
| VDict (d : list (string * pyval)).

(** A [dict] with string keys, in insertion order (the order
    [list(d.keys())] returns). *)
Definition pydict : Type := list (string * pyval).

Inductive pyexn : Type :=
| TypeError
| AttributeError
| IndexError
| KeyError
| OtherException (name : string).

Inductive res (A : Type) : Type :=
| Ok (a : A)
| Raise (e : pyexn).
Arguments Ok {A} a.
Arguments Raise {A} e.

Definition bind {A B : Type} (m : res A) (k : A -> res B) : res B :=
  match m with
  | Ok a => k a
  | Raise e => Raise e
  end.

(** *** Dictionaries *)

Fixpoint dict_lookup (d : pydict) (k : string) : option pyval :=
  match d with
  | [] => None
  | (k', v) :: d' => if String.eqb k k' then Some v else dict_lookup d' k
  end.

(** [d.get(k, dflt)] on a value known to be a dictionary. *)
Definition dict_get (d : pydict) (k : string) (dflt : pyval) : pyval :=
  match dict_lookup d k with
  | Some v => v
  | None => dflt
  end.

(** [d[k] = v]: an existing key keeps its position. *)
Fixpoint dict_set (d : pydict) (k : string) (v : pyval) : pydict :=
  match d with
  | [] => [(k, v)]
  | (k', v') :: d' =>
      if String.eqb k k' then (k, v) :: d' else (k', v') :: dict_set d' k v
  end.

Definition dict_keys (d : pydict) : list string := map fst d.

(** [o.get(k, dflt)] on an arbitrary value: only dictionaries have [get]. *)
Definition py_get (o : pyval) (k : string) (dflt : pyval) : res pyval :=
  match o with
  | VDict d => Ok (dict_get d k dflt)
  | _ => Raise AttributeError
  end.

(** [o[0]]. *)
Definition py_item0 (o : pyval) : res pyval :=
  match o with
  | VList (x :: _) => Ok x
  | VList [] => Raise IndexError
  | VStr (String c _) => Ok (VStr (String c EmptyString))
  | VStr EmptyString => Raise IndexError
  | VDict _ => Raise KeyError
  | _ => Raise TypeError
  end.

(** *** Truthiness, equality with a constant, ordering with a constant *)

Definition float_truthy (x : pyfloat) : bool :=
  match x with
  | FFin q => negb (Qeq_bool q 0)
  | _ => true
  end.

Definition truthy (v : pyval) : bool :=
  match v with
  | VNone => false
  | VBool b => b
  | VInt n => negb (Z.eqb n 0)
  | VFloat x => float_truthy x
  | VStr s => negb (String.eqb s "")
  | VList l => match l with [] => false | _ :: _ => true end
  | VDict d => match d with [] => false | _ :: _ => true end
  end.

(** The numeric reading of a value ([bool] is a subtype of [int]). *)
Definition py_num (v : pyval) : option pyfloat :=
  match v with
  | VBool b => Some (FFin (if b then 1 else 0))
  | VInt n => Some (FFin (inject_Z n))
  | VFloat x => Some x
  | _ => None
  end.

Definition Qlt_bool (a b : Q) : bool := negb (Qle_bool b a).

(** [v == s] for a string constant [s]. *)
Definition py_eq_str (v : pyval) (s : string) : bool :=
  match v with
  | VStr s' => String.eqb s' s
  | _ => false
  end.

(** [v == c] for a finite numeric constant [c] ([False] is [0]). *)
Definition py_eq_num (v : pyval) (c : Q) : bool :=
  match py_num v with
  | Some (FFin q) => Qeq_bool q c
  | _ => false
  end.

(** [v in [s1, ..., sn]] for string constants. *)
Definition py_in_strs (v : pyval) (l : list string) : bool :=
  existsb (py_eq_str v) l.

(** [v < c] for a finite numeric constant [c]: a [TypeError] unless [v] is a
    number. *)
Definition py_lt (v : pyval) (c : Q) : res bool :=
  match py_num v with
  | Some (FFin q) => Ok (Qlt_bool q c)
  | Some (FInf negative) => Ok negative
  | Some FNan => Ok false
  | None => Raise TypeError
  end.

(** [v > c]. *)
Definition py_gt (v : pyval) (c : Q) : res bool :=
  match py_num v with
  | Some (FFin q) => Ok (Qlt_bool c q)
  | Some (FInf negative) => Ok (negb negative)
  | Some FNan => Ok false
  | None => Raise TypeError
  end.

(** [x == y] on floats: NaN equals nothing, itself included. *)
Definition float_eq (x y : pyfloat) : bool :=
  match x, y with
  | FFin a, FFin b => Qeq_bool a b
  | FInf s, FInf t => Bool.eqb s t
  | _, _ => false
  end.

(** [a == b] in general: numbers compare by value across [bool], [int] and
    [float]; lists element by element; dictionaries as mappings. *)
Fixpoint py_eq (a b : pyval) : bool :=
  match a, b with
  | VNone, VNone => true
  | VStr s, VStr t => String.eqb s t
  | VList l, VList m =>
      (fix all2 (l : list pyval) (m : list pyval) : bool :=
         match l, m with
         | [], [] => true
         | x :: l', y :: m' => py_eq x y && all2 l' m'
         | _, _ => false
         end) l m
  | VDict d, VDict e =>
      Nat.eqb (length d) (length e) &&
      (fix each (d : list (string * pyval)) : bool :=
         match d with
         | [] => true
         | (k, v) :: d' =>
             match dict_lookup e k with
             | Some w => py_eq v w
             | None => false
             end && each d'
         end) d
  | _, _ =>
      match py_num a, py_num b with
      | Some x, Some y => float_eq x y
      | _, _ => false
      end
  end.

End Py.
Import Py.

Notation "x <- e ;; k" := (bind e (fun x => k))
  (at level 61, e at next level, right associativity).

(** *** String formatting

    The cascade builds two messages with f-strings.  What [str()] prints for
    an arbitrary value and what the [.1f] format prints for a number is the
    interpreter's business; both are total on the values they are applied to
    here and are taken as an interface. *)
Class PyFormat : Type := {
  py_str : pyval -> string;        (* [f"{v}"] *)
  py_fmt_1f : pyfloat -> string    (* [f"{x:.1f}"] on a number *)
}.

(** [f"{v:.1f}"]: numbers only. *)
Definition py_format_1f `{PyFormat} (v : pyval) : res string :=
  match py_num v with
  | Some x => Ok (py_fmt_1f x)
  | None => Raise TypeError
  end.

(** ** adaptive/priority_cascade.py *)

Section PriorityCascade.
Context `{PyFormat}.

(** The tail of [_check_safety_constraints]: the [fatigue_level == 3] test
    reached when no medical alert was returned. *)
Definition high_fatigue_check (fatigue : pyval) : res pyval :=
  level <- py_get fatigue "fatigue_level" VNone ;;
  if py_eq_num level 3 then
    pct <- py_get fatigue "fatigue_pct" VNone ;;
    Ok (VDict [("action", VStr "HIGH_FATIGUE");
               ("severity", VStr "HIGH");
               ("fatigue_pct", pct);
               ("recommendation",
                VStr "Recommend driver rest, pit for evaluation, or abort race");
               ("reason", VStr "Driver fatigue at critical level")])
  else Ok VNone.

(** [alerts[0].get(k)]. *)
Definition first_alert_get (alerts : pyval) (k : string) : res pyval :=
  a0 <- py_item0 alerts ;;
  py_get a0 k VNone.

Definition _check_safety_constraints (model_results race_context : pydict)
  : res pyval :=
  let anomaly := dict_get model_results "anomaly" (VDict []) in
  detected <- py_get anomaly "anomaly_detected" VNone ;;
  if truthy detected then
    ty <- py_get anomaly "anomaly_type" VNone ;;
    sev <- py_get anomaly "severity" VNone ;;
    recommend <- py_get anomaly "action_recommend" VNone ;;
    ty' <- py_get anomaly "anomaly_type" VNone ;;
    Ok (VDict [("action", VStr "ANOMALY_DETECTED");
               ("type", ty);
               ("severity",
                VStr (if py_eq_str sev "CRITICAL" then "CRITICAL" else "HIGH"));
               ("recommendation", recommend);
               ("reason", VStr (String.append "Anomaly: " (py_str ty')))])
  else
    let fatigue := dict_get model_results "fatigue" (VDict []) in
    present <- py_get fatigue "medical_alerts" VNone ;;
    if truthy present then
      alerts <- py_get fatigue "medical_alerts" (VList []) ;;
      if truthy alerts then
        sev <- first_alert_get alerts "severity" ;;
        recommend <- first_alert_get alerts "action" ;;
        reason <- first_alert_get alerts "alert" ;;
        Ok (VDict [("action", VStr "MEDICAL_ALERT");
                   ("severity",
                    VStr (if py_eq_str sev "CRITICAL" then "CRITICAL" else "HIGH"));
                   ("recommendation", recommend);
                   ("reason", reason)])
      else high_fatigue_check fatigue
    else high_fatigue_check fatigue.

Definition _check_energy_constraints (model_results race_context : pydict)
  : res pyval :=
  let energy := dict_get model_results "energy" (VDict []) in
  will_finish <- py_get energy "will_finish" VNone ;;
  if py_eq_num will_finish 0 then
    soc <- py_get energy "predicted_final_soc" VNone ;;
    margin <- py_get energy "margin" VNone ;;
    Ok (VDict [("action", VStr "DNF_RISK");
               ("severity", VStr "CRITICAL");
               ("predicted_final_soc", soc);
               ("margin", margin);
               ("recommendation",
                VStr "Reduce speed 20%, maximize coasting, pit for energy strategy review");
               ("reason", VStr "Vehicle will not finish race at current pace")])
  else
    margin <- py_get energy "margin" VNone ;;
    low <- py_lt margin 10 ;;
    if low then
      soc <- py_get energy "predicted_final_soc" VNone ;;
      margin' <- py_get energy "margin" VNone ;;
      margin'' <- py_get energy "margin" VNone ;;
      shown <- py_format_1f margin'' ;;
      Ok (VDict [("action", VStr "LOW_ENERGY_MARGIN");
                 ("severity", VStr "HIGH");
                 ("predicted_final_soc", soc);
                 ("margin", margin');
                 ("recommendation",
                  VStr "Reduce speed 10%, increase coast ratio +15%, plan pit strategy");
                 ("reason",
                  VStr (String.append "Energy margin only "
                          (String.append shown "%, risk of DNF")))])
    else Ok VNone.

(** The literal [0.7] is the double nearest to seven tenths; Python compares
    a number with it exactly. *)
Definition float_0_7 : Q := 3152519739159347 # 4503599627370496.

Definition _recommend_performance_optimization
  (model_results race_context : pydict) (safety_action energy_action : pyval)
  : res pyval :=
  if truthy safety_action || truthy energy_action then Ok VNone
  else
    let race_phase := dict_get race_context "race_phase" (VStr "UNKNOWN") in
    let actions0 : list pyval := [] in
    let racing_line := dict_get model_results "racing_line" (VDict []) in
    conf <- py_get racing_line "confidence" (VInt 0) ;;
    confident <- py_gt conf float_0_7 ;;
    actions1 <-
      (if confident then
         r <- py_get racing_line "recommendation" VNone ;;
         c <- py_get racing_line "confidence" VNone ;;
         Ok (actions0 ++ [VDict [("type", VStr "RACING_LINE");
                                 ("recommendation", r);
                                 ("confidence", c)]])
       else Ok actions0) ;;
    let efficiency := dict_get model_results "efficiency" (VDict []) in
    gain <- py_get efficiency "efficiency_gain" (VInt 0) ;;
    gainful <- py_gt gain 2 ;;
    actions2 <-
      (if gainful then
         r <- py_get efficiency "recommendation" VNone ;;
         g <- py_get efficiency "efficiency_gain" VNone ;;
         Ok (actions1 ++ [VDict [("type", VStr "THROTTLE_OPTIMIZATION");
                                 ("recommendation", r);
                                 ("efficiency_gain", g)]])
       else Ok actions1) ;;
    let slip_coast := dict_get model_results "slip_coast" (VDict []) in
    slip <- py_get slip_coast "slip_detected" VNone ;;
    actions3 <-
      (if truthy slip then
         r <- py_get slip_coast "recommendation" VNone ;;
         sv <- py_get slip_coast "slip_severity" VNone ;;
         Ok (actions2 ++ [VDict [("type", VStr "TRACTION_CONTROL");
                                 ("recommendation", r);
                                 ("severity", sv)]])
       else
         ratio <- py_get slip_coast "optimal_coast_ratio" (VInt 0) ;;
         coasting <- py_gt ratio 50 ;;
         if coasting then
           r <- py_get slip_coast "recommendation" VNone ;;
           cr <- py_get slip_coast "optimal_coast_ratio" VNone ;;
           Ok (actions2 ++ [VDict [("type", VStr "COASTING_OPTIMIZATION");
                                   ("recommendation", r);
                                   ("coast_ratio", cr)]])
         else Ok actions2) ;;
    match actions3 with
    | [] => Ok VNone
    | _ :: _ =>
        Ok (VDict [("action", VStr "PERFORMANCE_OPTIMIZATION");
                   ("severity", VStr "NORMAL");
                   ("phase_specific_recommendations", VList actions3);
                   ("race_phase", race_phase)])
    end.

(** [a.get("severity") in ["CRITICAL", "HIGH", "WARNING"]], the filter of the
    alert count. *)
Definition is_alert (a : pyval) : res bool :=
  sev <- py_get a "severity" VNone ;;
  Ok (py_in_strs sev ["CRITICAL"; "HIGH"; "WARNING"]).

(** [len([a for a in actions if ...])]. *)
Fixpoint count_alerts (actions : list pyval) : res Z :=
  match actions with
  | [] => Ok 0%Z
  | a :: rest =>
      b <- is_alert a ;;
      n <- count_alerts rest ;;
      Ok (if b then (1 + n)%Z else n)
  end.

(** Phases 2 and 3 and the consolidation: the part of
    [apply_priority_cascade] after the safety block, entered with the
    [actions] and [severity_level] that block left. *)
Definition cascade_after_safety (model_results race_context : pydict)
  (safety_action : pyval) (actions1 : list pyval) (severity1 : pyval)
  : res pyval :=
  (* Phase 2: ENERGY checks *)
  energy_action <- _check_energy_constraints model_results race_context ;;
  phase2 <-
    (if truthy energy_action then
       sev <- py_get energy_action "severity" VNone ;;
       Ok (actions1 ++ [energy_action],
           if py_in_strs sev ["CRITICAL"; "HIGH"] then VStr "WARNING"
           else severity1)
     else Ok (actions1, severity1)) ;;
  let '(actions2, severity2) := phase2 in
  (* Phase 3: PERFORMANCE optimization *)
  performance_action <-
    _recommend_performance_optimization model_results race_context
      safety_action energy_action ;;
  let actions3 :=
    if truthy performance_action then actions2 ++ [performance_action]
    else actions2 in
  let primary_action :=
    match actions3 with
    | a :: _ => a
    | [] => VDict [("action", VStr "NORMAL_OPERATION")]
    end in
  n <- count_alerts actions3 ;;
  Ok (VDict [("primary_action", primary_action);
             ("cascade_actions", VList actions3);
             ("severity", severity2);
             ("race_context", VDict race_context);
             ("count_alerts", VInt n)]).

Definition apply_priority_cascade (model_results race_context : pydict)
  : res pyval :=
  let actions0 : list pyval := [] in
  let severity0 := VStr "NORMAL" in
  (* Phase 1: SAFETY checks *)
  safety_action <- _check_safety_constraints model_results race_context ;;
  if truthy safety_action then
    let actions1 := actions0 ++ [safety_action] in
    severity1 <- py_get safety_action "severity" (VStr "WARNING") ;;
    if py_in_strs severity1 ["CRITICAL"; "EMERGENCY"] then
      Ok (VDict [("primary_action", safety_action);
                 ("actions", VList [safety_action]);
                 ("reason", VStr "SAFETY OVERRIDE");
                 ("severity", severity1)])
    else
      cascade_after_safety model_results race_context safety_action
        actions1 severity1
  else
    cascade_after_safety model_results race_context safety_action
      actions0 severity0.

End PriorityCascade.

(** ** utils/data_validators.py *)

(** What [validate_telemetry] reads of a [pandas.DataFrame]: per column, its
    name, whether its dtype is numeric, and the null mask of its cells. *)
Record column : Type := {
  col_name : string;
  col_numeric : bool;
  col_isnull : list bool
}.

Inductive telemetry : Type :=
| TDict (d : pydict)
| TFrame (columns : list column)
| TOther (v : pyval).

Definition required_keys : list string :=
  ["soc_current"; "speed_avg"; "motor_temp"].

(** [k in d]. *)
Definition dict_has (d : pydict) (k : string) : bool :=
  match dict_lookup d k with
  | Some _ => true
  | None => false
  end.

Definition validate_telemetry (t : telemetry) : bool :=
  match t with
  | TDict d => forallb (dict_has d) required_keys
  | TFrame columns =>
      (* telemetry.isnull().all().any() *)
      if existsb (fun c => forallb (fun b => b) (col_isnull c)) columns
      then false
      else
        let numeric_cols := filter col_numeric columns in
        if Nat.eqb (length numeric_cols) 0 then false else true
  | TOther _ => false
  end.

(** ** Rounding to a double

    Where the engine divides or multiplies floats, the result is the double
    nearest to the exact value, ties going to the even significand. *)

(** The integer nearest to [q], ties to the even one. *)
Definition round_half_even (q : Q) : Z :=
  let n := Qnum q in
  let d := Zpos (Qden q) in
  let fl := (n / d)%Z in
  let r := (n mod d)%Z in
  if (2 * r <? d)%Z then fl
  else if (d <? 2 * r)%Z then (fl + 1)%Z
  else if Z.even fl then fl else (fl + 1)%Z.

(** [2 ** k] for an integer [k] of either sign. *)
Definition pow2 (k : Z) : Q :=
  if (0 <=? k)%Z then inject_Z (2 ^ k) else 1 / inject_Z (2 ^ (- k)).

(** The exponent of a positive rational [a]: [2 ** e <= a < 2 ** (e + 1)]. *)
Definition binade (a : Q) : Z :=
  let e := (Z.log2 (Qnum a) - Z.log2 (Zpos (Qden a)))%Z in
  if Qle_bool (pow2 e) a then e else (e - 1)%Z.

(** The double nearest to [q]: a multiple of the unit in the last place of
    [q]'s binade, which leaves 53 bits to the significand, or a multiple of
    [2 ** -1074] for a subnormal.  The upper end of the range is left to
    [exceeds_double]. *)
Definition round_to_double (q : Q) : Q :=
  if Qeq_bool q 0 then 0
  else
    let a := Qabs q in
    let ulp := pow2 (Z.max (binade a - 52) (-1074)) in
    let r := inject_Z (round_half_even (a / ulp)) * ulp in
    if Qlt_bool q 0 then - r else r.

(** Whether a rounded value is beyond the largest double. *)
Definition exceeds_double (x : Q) : bool := Qle_bool (pow2 1024) (Qabs x).

(** The float a product of two floats gives, from its exact value: the
    nearest double, or an infinity. *)
Definition float_of_Q (q : Q) : pyfloat :=
  let x := round_to_double q in
  if exceeds_double x then FInf (Qlt_bool q 0) else FFin x.

(** ** inference/inference_engine.py *)

(** One call of a predictor: what it returns or raises, and the wall-clock
    time the call takes as the loop sees it, from the reading of
    [model_start] to the moment the result is back in the loop and, when it
    is kept, stored.  Time is in seconds, as an exact rational. *)
Record prediction : Type := {
  pred_result : res pyval;
  pred_seconds : Q
}.

(** A loaded model, seen through its [predict_*] function applied to the
    telemetry of the cycle and to the arguments the wrapper takes from it. *)
Definition predictor : Type := telemetry -> prediction.

Record InferenceEngine : Type := {
  models : string -> option predictor;      (* [self.models.get] *)
  inference_times : pydict
}.

Definition priority_order : list string :=
  ["anomaly";      (* 1. Safety first *)
   "fatigue";      (* 2. Driver health *)
   "energy";       (* 3. DNF prevention *)
   "h2_purge";     (* 4. Vehicle health (if H2) *)
   "racing_line";  (* 5. Performance optimization *)
   "slip_coast";   (* 6. Traction control *)
   "efficiency";   (* 7. Efficiency *)
   "rank"].        (* 8. Strategizing *)

(** The body shared by the eight [_run_*_inference] methods: look the model
    up, return [None] when it is not loaded, call it, and turn any exception
    into [None].  The result comes with the time the call took. *)
Definition run_guarded (name : string) (self : InferenceEngine)
  (t : telemetry) : pyval * Q :=
  match models self name with
  | None => (VNone, 0)
  | Some predict =>
      let p := predict t in
      (match pred_result p with
       | Ok result => result
       | Raise _ => VNone
       end, pred_seconds p)
  end.

(** The same for a wrapper that first takes an argument from the telemetry:
    when that expression raises, the [except] clause answers [None] and the
    predictor is not called.  A wrapper that does not reach its predictor is
    given no duration of its own: the loop does not read the clock after a
    [None], so the time it took is part of the overhead before the next
    reading. *)
Definition run_guarded_with (evaluates : telemetry -> bool) (name : string)
  (self : InferenceEngine) (t : telemetry) : pyval * Q :=
  match models self name with
  | None => (VNone, 0)
  | Some _ => if evaluates t then run_guarded name self t else (VNone, 0)
  end.

(** [telemetry.get(k, None)]: a dictionary and a frame have the method. *)
Definition get_evaluates (t : telemetry) : bool :=
  match t with
  | TDict _ | TFrame _ => true
  | TOther _ => false
  end.

(** [telemetry[k].iloc[0]] on a frame: there must be a column [k], and it
    must have a first row. *)
Definition first_cell (columns : list column) (k : string) : bool :=
  match find (fun c => String.eqb (col_name c) k) columns with
  | Some c => negb (Nat.eqb (length (col_isnull c)) 0)
  | None => false
  end.

(** [telemetry.get("LEL_sensor_pct", 0) if isinstance(telemetry, dict)
     else telemetry["LEL_sensor_pct"].iloc[0]]. *)
Definition lel_evaluates (t : telemetry) : bool :=
  match t with
  | TDict _ => true
  | TFrame columns => first_cell columns "LEL_sensor_pct"
  | TOther _ => false
  end.

(** [current_pos]: the telemetry itself when it is a dictionary; otherwise,
    for each of four columns, [telemetry[k].iloc[0] if k in
    telemetry.columns else 0]. *)
Definition position_evaluates (t : telemetry) : bool :=
  match t with
  | TDict _ => true
  | TFrame columns =>
      forallb
        (fun k =>
           if existsb (fun c => String.eqb (col_name c) k) columns
           then first_cell columns k else true)
        ["gps_lat"; "gps_lon"; "speed"; "heading"]
  | TOther _ => false
  end.

Definition _run_anomaly_inference := run_guarded "anomaly".
Definition _run_fatigue_inference := run_guarded_with get_evaluates "fatigue".
Definition _run_energy_inference := run_guarded "energy".
Definition _run_h2_purge_inference :=
  run_guarded_with lel_evaluates "h2_purge".
Definition _run_racing_line_inference :=
  run_guarded_with position_evaluates "racing_line".
Definition _run_slip_coast_inference := run_guarded "slip_coast".
Definition _run_efficiency_inference := run_guarded "efficiency".
Definition _run_rank_inference := run_guarded "rank".

(** The [if model_name == ... elif ...] chain of the loop body. *)
Definition dispatch (self : InferenceEngine) (model_name : string)
  (t : telemetry) : pyval * Q :=
  if String.eqb model_name "anomaly" then _run_anomaly_inference self t
  else if String.eqb model_name "fatigue" then _run_fatigue_inference self t
  else if String.eqb model_name "energy" then _run_energy_inference self t
  else if String.eqb model_name "h2_purge" then _run_h2_purge_inference self t
  else if String.eqb model_name "racing_line" then
    _run_racing_line_inference self t
  else if String.eqb model_name "slip_coast" then
    _run_slip_coast_inference self t
  else if String.eqb model_name "efficiency" then
    _run_efficiency_inference self t
  else if String.eqb model_name "rank" then _run_rank_inference self t
  else (VNone, 0).

(** The time the engine's own code takes between two readings of the clock.
    A cycle reads [time.time()] at its start, at the budget check of each
    turn of the loop, again for [model_start], after a result that is kept,
    and for the stamp.
    - [before_check n]: from the previous reading (or from the end of the
      previous call, when its result was not kept) to the reading of the
      budget check of [n]; for the first name this is the time of
      [validate_telemetry] and of the two assignments after it;
    - [before_start n]: from that reading to the reading of [model_start];
    - [before_stamp]: from the last reading of the loop to the reading of
      the stamp, the time of [apply_priority_cascade]. *)
Record overhead : Type := {
  before_check : string -> Q;
  before_start : string -> Q;
  before_stamp : Q
}.

(** [inference_budget = timeout_ms / 1000.0]: the [int] is converted to the
    nearest double, which raises [OverflowError] beyond the range of the
    doubles, and the quotient is rounded. *)
Definition float_overflows (timeout_ms : Z) : bool :=
  exceeds_double (round_to_double (inject_Z timeout_ms)).

Definition budget (timeout_ms : Z) : Q :=
  round_to_double (round_to_double (inject_Z timeout_ms) / 1000).

(** The state the scheduling loop threads: the clock, the [results]
    dictionary, [self.inference_times], and (for the proofs only) the names
    of the predictors invoked so far, in order. *)
Record sched : Type := {
  now : Q;
  results : pydict;
  times : pydict;
  attempted : list string
}.

(** [for model_name in order: ...], with [break] on an exhausted budget. *)
Fixpoint run_models (self : InferenceEngine) (oh : overhead) (t : telemetry)
  (start_time inference_budget : Q) (order : list string) (st : sched)
  : sched :=
  match order with
  | [] => st
  | model_name :: rest =>
      let checked := now st + before_check oh model_name in
      if Qlt_bool inference_budget (checked - start_time) then
        {| now := checked;
           results := results st;
           times := times st;
           attempted := attempted st |}
      else
        let model_start := checked + before_start oh model_name in
        let '(result, seconds) := dispatch self model_name t in
        let now' := model_start + seconds in
        let st' :=
          if truthy result then
            {| now := now';
               results := dict_set (results st) model_name result;
               times := dict_set (times st) model_name
                          (VFloat (FFin (now' - model_start)));
               attempted := attempted st ++ [model_name] |}
          else
            {| now := now';
               results := results st;
               times := times st;
               attempted := attempted st ++ [model_name] |} in
        run_models self oh t start_time inference_budget rest st'
  end.

Definition _generate_fallback_response (reason : string) : pyval :=
  VDict [("status", VStr "FALLBACK");
         ("reason", VStr reason);
         ("recommendations",
          VList [VStr "Monitor systems manually";
                 VStr "Reduce speed to safe level";
                 VStr "Pit for inspection if needed"]);
         ("models_executed", VList [])].

(** [d[k] = v] on a value. *)
Definition py_setitem (o : pyval) (k : string) (v : pyval) : res pyval :=
  match o with
  | VDict d => Ok (VDict (dict_set d k v))
  | _ => Raise TypeError
  end.

(** What one cycle leaves behind: the value returned or the exception
    raised, the engine with its updated [inference_times], and the
    predictors that were invoked. *)
Record cycle : Type := {
  returned : res pyval;
  engine_after : InferenceEngine;
  invoked : list string
}.

(** The scheduling part of [run_real_time_inference], for a timeout that
    has a budget: the loop over [self.priority_order], started with empty
    [results].  [clock] is the reading taken for [start_time]. *)
Definition schedule (self : InferenceEngine) (oh : overhead) (clock : Q)
  (t : telemetry) (timeout_ms : Z) : sched :=
  let start_time := clock in
  let inference_budget := budget timeout_ms in
  run_models self oh t start_time inference_budget priority_order
    {| now := clock; results := [];
       times := inference_times self; attempted := [] |}.

Section Engine.
Context `{PyFormat}.

Definition run_real_time_inference (self : InferenceEngine) (oh : overhead)
  (clock : Q) (t : telemetry) (race_context : pydict) (timeout_ms : Z)
  : cycle :=
  let start_time := clock in
  let is_valid := validate_telemetry t in
  if negb is_valid then
    {| returned := Ok (_generate_fallback_response "Invalid telemetry");
       engine_after := self;
       invoked := [] |}
  else if float_overflows timeout_ms then
    {| returned := Raise (OtherException "OverflowError");
       engine_after := self;
       invoked := [] |}
  else
    let st := schedule self oh clock t timeout_ms in
    let stamp_time := now st + before_stamp oh in
    {| returned :=
         final_decision <- apply_priority_cascade (results st) race_context ;;
         final_decision <-
           py_setitem final_decision "total_inference_ms"
             (VFloat (float_of_Q ((stamp_time - start_time) * 1000))) ;;
         py_setitem final_decision "models_executed"
           (VList (map VStr (dict_keys (results st))));
       engine_after := {| models := models self; inference_times := times st |};
       invoked := attempted st |}.

End Engine.

(** ** adaptive/context_manager.py *)

(** The fields of the [RaceContext] dataclass with their defaults, as
    [asdict] lists them. *)
Definition RaceContext_default : pydict :=
  [("race_phase", VStr "UNKNOWN");
   ("current_lap", VInt 0);
   ("laps_remaining", VInt 0);
   ("current_soc", VFloat (FFin 100));
   ("soc_target", VFloat (FFin 5));
   ("track_condition", VStr "UNKNOWN");
   ("weather_factor", VFloat (FFin 1));
   ("current_rank", VInt 0);
   ("ranking_confidence", VFloat (FFin 0));
   ("vehicle_status", VStr "NORMAL");
   ("driver_status", VStr "NORMAL");
   ("pit_stop_planned", VBool false);
   ("pit_stop_eta", VInt 0);
   ("timestamp", VFloat (FFin 0))].

Record ContextManager : Type := {
  context : pydict;              (* [asdict(self.context)] *)
  history : list pyval;
  state_changes : list pyval
}.

Definition ContextManager_init : ContextManager :=
  {| context := RaceContext_default; history := []; state_changes := [] |}.

(** [for key in old_state: if old_state[key] != new_state[key]: ...]. *)
Fixpoint changed_fields (old_state new_state : pydict) (keys : list string)
  : pydict :=
  match keys with
  | [] => []
  | key :: rest =>
      let o := dict_get old_state key VNone in
      let n := dict_get new_state key VNone in
      if negb (py_eq o n) then
        (key, VDict [("old", o); ("new", n)])
          :: changed_fields old_state new_state rest
      else changed_fields old_state new_state rest
  end.

Definition _record_state_change (self : ContextManager) (clock : Q)
  (old_state new_state : pydict) : ContextManager :=
  let changes := changed_fields old_state new_state (dict_keys old_state) in
  match changes with
  | [] => self
  | _ :: _ =>
      {| context := context self;
         history := history self;
         state_changes :=
           state_changes self ++
             [VDict [("timestamp", VFloat (FFin clock));
                     ("changes", VDict changes)]] |}
  end.

(** [for key, value in kwargs.items(): if hasattr(...): setattr(...)].  The
    context is seen through its dataclass fields: a keyword that names a
    field sets it, a keyword that names no attribute is ignored.  [hasattr]
    also holds of the methods and special attributes of the object
    ([to_dict], [__class__] and the like), which [setattr] would replace or
    refuse; keywords with such names are outside this model. *)
Fixpoint set_fields (ctx : pydict) (kwargs : pydict) : pydict :=
  match kwargs with
  | [] => ctx
  | (key, value) :: rest =>
      set_fields (if dict_has ctx key then dict_set ctx key value else ctx)
        rest
  end.

(** [clock1] and [clock2] are the two readings of [time.time()], the second
    one taken in [_record_state_change]. *)
Definition update_context (self : ContextManager) (clock1 clock2 : Q)
  (kwargs : pydict) : ContextManager :=
  let old_context := context self in
  let ctx := set_fields (context self) kwargs in
  let ctx := dict_set ctx "timestamp" (VFloat (FFin clock1)) in
  _record_state_change
    {| context := ctx; history := history self;
       state_changes := state_changes self |}
    clock2 old_context ctx.

Definition determine_race_phase (self : ContextManager) (clock1 clock2 : Q)
  (current_lap total_laps : Z) : string * ContextManager :=
  let phase :=
    if Z.eqb current_lap 0 then "PRACTICE"
    else if Z.leb current_lap 2 then "EARLY"
    else if Z.eqb current_lap 3 then "MID"
    else if Z.eqb current_lap total_laps then "LATE"
    else if Z.ltb total_laps current_lap then "FINISH"
    else "UNKNOWN" in
  (phase, update_context self clock1 clock2 [("race_phase", VStr phase)]).

(** ** Reading a decision

    The cascade returns a dictionary.  The early safety return files its
    action list under ["actions"], the ordinary return under
    ["cascade_actions"]; [all_actions] reads whichever is there. *)

Definition all_actions (decision : pyval) : list pyval :=
  match decision with
  | VDict d =>
      match dict_lookup d "cascade_actions" with
      | Some (VList l) => l
      | _ =>
          match dict_lookup d "actions" with
          | Some (VList l) => l
          | _ => []
          end
      end
  | _ => []
  end.

Definition field (k : string) (o : pyval) : option pyval :=
  match o with
  | VDict d => dict_lookup d k
  | _ => None
  end.

(** The ["action"] tag of a cascade action. *)
Definition action_kind (a : pyval) : option pyval := field "action" a.

Definition has_kind (kind : string) (a : pyval) : bool :=
  match action_kind a with
  | Some v => py_eq_str v kind
  | None => false
  end.

(** The rank of a severity label, for comparing severities. *)
Definition severity_rank (v : pyval) : Z :=
  if py_eq_str v "EMERGENCY" then 4
  else if py_eq_str v "CRITICAL" then 3
  else if py_eq_str v "HIGH" then 2
  else if py_eq_str v "WARNING" then 1
  else 0.

(** ** Reading the phases

    Vocabulary for the statements: the actions each phase can return and the
    two decisions the cascade builds. *)

Definition safety_kinds : list string :=
  ["ANOMALY_DETECTED"; "MEDICAL_ALERT"; "HIGH_FATIGUE"].

(** An action dictionary with a tag among [kinds] and a severity label among
    [sevs]. *)
Definition action_of (kinds sevs : list string) (v : pyval) : Prop :=
  exists d kind sev,
    v = VDict d /\ truthy v = true /\
    dict_lookup d "action" = Some (VStr kind) /\ In kind kinds /\
    dict_lookup d "severity" = Some (VStr sev) /\ In sev sevs.

(** The decision of the ordinary return, from the actions produced and the
    overall severity. *)
Definition consolidated (actions : list pyval) (severity : pyval)
  (race_context : pydict) (n : Z) : pyval :=
  VDict [("primary_action",
          match actions with
          | a :: _ => a
          | [] => VDict [("action", VStr "NORMAL_OPERATION")]
          end);
         ("cascade_actions", VList actions);
         ("severity", severity);
         ("race_context", VDict race_context);
         ("count_alerts", VInt n)].

(** The decision of the early safety return. *)
Definition safety_override (safety_action severity : pyval) : pyval :=
  VDict [("primary_action", safety_action);
         ("actions", VList [safety_action]);
         ("reason", VStr "SAFETY OVERRIDE");
         ("severity", severity)].

(** The action [_check_safety_constraints] builds for a detected anomaly. *)
Definition anomaly_action `{PyFormat} (a : pydict) : pyval :=
  VDict [("action", VStr "ANOMALY_DETECTED");
         ("type", dict_get a "anomaly_type" VNone);
         ("severity",
          VStr (if py_eq_str (dict_get a "severity" VNone) "CRITICAL"
                then "CRITICAL" else "HIGH"));
         ("recommendation", dict_get a "action_recommend" VNone);
         ("reason",
          VStr (String.append "Anomaly: "
                  (py_str (dict_get a "anomaly_type" VNone))))].

(** The action built from the first medical alert. *)
Definition medical_alert_action (alert : pydict) : pyval :=
  VDict [("action", VStr "MEDICAL_ALERT");
         ("severity",
          VStr (if py_eq_str (dict_get alert "severity" VNone) "CRITICAL"
                then "CRITICAL" else "HIGH"));
         ("recommendation", dict_get alert "action" VNone);
         ("reason", dict_get alert "alert" VNone)].

(** No anomaly is detected: the anomaly entry, or the empty default that
    stands for a missing one, has a falsy [anomaly_detected]. *)
Definition no_anomaly (model_results : pydict) : Prop :=
  exists detected,
    py_get (dict_get model_results "anomaly" (VDict []))
      "anomaly_detected" VNone = Ok detected /\
    truthy detected = false.

(** [severity in {CRITICAL, HIGH, WARNING}], read off an action. *)
Definition alerting (a : pyval) : bool :=
  match field "severity" a with
  | Some sev => py_in_strs sev ["CRITICAL"; "HIGH"; "WARNING"]
  | None => false
  end.

(** The entry under [k], or the empty dictionary that stands for a missing
    one, is a dictionary. *)
Definition entry (model_results : pydict) (k : string) (d : pydict) : Prop :=
  dict_get model_results k (VDict []) = VDict d.

Definition is_number (v : pyval) : Prop := exists x, py_num v = Some x.

(** Result sets on which every read of the cascade succeeds: each entry is
    a dictionary, the medical alerts (if any) are a list headed by a
    dictionary, and every field that gets compared with a number is one. *)
Definition well_formed_results (model_results : pydict) : Prop :=
  (exists a, entry model_results "anomaly" a) /\
  (exists f, entry model_results "fatigue" f /\
     (truthy (dict_get f "medical_alerts" VNone) = true ->
      exists alert later,
        dict_get f "medical_alerts" VNone = VList (VDict alert :: later))) /\
  (exists e, entry model_results "energy" e /\
     (py_eq_num (dict_get e "will_finish" VNone) 0 = true \/
      is_number (dict_get e "margin" VNone))) /\
  (exists r, entry model_results "racing_line" r /\
     is_number (dict_get r "confidence" (VInt 0))) /\
  (exists g, entry model_results "efficiency" g /\
     is_number (dict_get g "efficiency_gain" (VInt 0))) /\
  (exists c, entry model_results "slip_coast" c /\
     (truthy (dict_get c "slip_detected" VNone) = true \/
      is_number (dict_get c "optimal_coast_ratio" (VInt 0)))).

(** ** Reading the scheduler *)

(** The time one predictor's guarded call takes in this cycle. *)
Definition latency (self : InferenceEngine) (t : telemetry) (name : string)
  : Q := snd (dispatch self name t).

Definition total (latencies : list Q) : Q := fold_right Qplus 0 latencies.

(** One turn of the loop, as the clock sees it: the time up to the reading
    of the budget check, from there to [model_start], and the call. *)
Record turn : Type := {
  wait : Q;
  lag : Q;
  call : Q
}.

Definition turn_of (self : InferenceEngine) (oh : overhead) (t : telemetry)
  (name : string) : turn :=
  {| wait := before_check oh name;
     lag := before_start oh name;
     call := latency self t name |}.

Definition turns (self : InferenceEngine) (oh : overhead) (t : telemetry)
  : list turn := map (turn_of self oh t) priority_order.

Definition turn_seconds (w : turn) : Q := wait w + lag w + call w.

Definition nonneg_turn (w : turn) : Prop :=
  0 <= wait w /\ 0 <= lag w /\ 0 <= call w.

(** A turn that takes no time: the default where a list has no turn. *)
Definition idle_turn : turn := {| wait := 0; lag := 0; call := 0 |}.

(** The time elapsed, from the reading of [start_time], at the budget
    check of the last of some turns. *)
Definition at_last_check (ws : list turn) : Q :=
  total (map turn_seconds (removelast ws)) + wait (last ws idle_turn).

(** How many predictors get started: one more as long as the time elapsed
    at the budget check of its turn does not exceed the budget. *)
Fixpoint started (ws : list turn) (clock start_time inference_budget : Q)
  : nat :=
  match ws with
  | [] => 0
  | w :: rest =>
      let checked := clock + wait w in
      if Qlt_bool inference_budget (checked - start_time) then 0
      else S (started rest (checked + lag w + call w) start_time
                inference_budget)
  end.

(** ** Reading the telemetry *)




(** ** Reading the race phase *)

(** The phase as a function of the lap counts alone. *)
Definition phase_of (current_lap total_laps : Z) : string :=
  if Z.eqb current_lap 0 then "PRACTICE"
  else if Z.leb current_lap 2 then "EARLY"
  else if Z.eqb current_lap 3 then "MID"
  else if Z.eqb current_lap total_laps then "LATE"
  else if Z.ltb total_laps current_lap then "FINISH"
  else "UNKNOWN".

(** The five branches the phase table lists. *)
Definition listed_branch (current_lap total_laps : Z) (phase : string) : Prop :=
  (current_lap = 0 /\ phase = "PRACTICE")%Z \/
  (1 <= current_lap <= 2 /\ phase = "EARLY")%Z \/
  (current_lap = 3 /\ phase = "MID")%Z \/
  (current_lap = total_laps /\ phase = "LATE")%Z \/
  (current_lap > total_laps /\ phase = "FINISH")%Z.

(** ** Three statements as the specification words them

    Each is compared below with what the code does. *)



(** Exhaustive phase table: every pair of lap counts falls under one of the
    five listed branches. *)
Definition phase_table_exhaustive : Prop :=
  forall (self : ContextManager) (clock1 clock2 : Q)
         (current_lap total_laps : Z),
    listed_branch current_lap total_laps
      (fst (determine_race_phase self clock1 clock2 current_lap total_laps)).

(** ** A formatter to run the model

    The theorems below hold for every [PyFormat].  To evaluate the model on
    concrete inputs one instance is needed: this one prints [None],
    booleans, integers and strings as [str()] does and the [.1f] format of a
    number exactly ([round_half_even] on the exact value); the [repr] of a
    float or of a container is not reproduced and is left as a mark. *)

Definition string_of_Z (z : Z) : string := NilZero.string_of_int (Z.to_int z).

Definition plain_fmt_1f (x : pyfloat) : string :=
  match x with
  | FFin q =>
      let tenths := round_half_even (Qabs q * 10) in
      String.append (if Qlt_bool q 0 then "-" else "")
        (String.append (string_of_Z (tenths / 10))
           (String.append "." (string_of_Z (tenths mod 10))))
  | FInf negative => if negative then "-inf" else "inf"
  | FNan => "nan"
  end.

Definition plain_str (v : pyval) : string :=
  match v with
  | VNone => "None"
  | VBool b => if b then "True" else "False"
  | VInt n => string_of_Z n
  | VStr s => s
  | VFloat _ => "<float>"
  | VList _ => "<list>"
  | VDict _ => "<dict>"
  end.

#[export] Instance plain_format : PyFormat :=
  {| py_str := plain_str; py_fmt_1f := plain_fmt_1f |}.

(** ** Engines, telemetry and result sets to run the model on *)

(** An engine with the safety predictors loaded and healthy and no energy
    model: each loaded predictor answers in 5 ms. *)
Definition engine_without_energy : InferenceEngine :=
  {| models := fun name =>
       if String.eqb name "anomaly" then
         Some (fun _ =>
                 {| pred_result :=
                      Ok (VDict [("anomaly_detected", VBool false);
                                 ("confidence", VFloat (FFin (88 # 100)))]);
                    pred_seconds := 5 # 1000 |})
       else if String.eqb name "fatigue" then
         Some (fun _ =>
                 {| pred_result :=
                      Ok (VDict [("fatigue_level", VInt 1);
                                 ("medical_alerts", VList [])]);
                    pred_seconds := 5 # 1000 |})
       else None;
     inference_times := [] |}.

Definition minimal_telemetry : telemetry :=
  TDict [("soc_current", VFloat (FFin 85));
         ("speed_avg", VFloat (FFin 35));
         ("motor_temp", VFloat (FFin 45))].

(** An engine whose eight predictors all answer, each after 10 ms, with a
    result that raises no alarm. *)
Definition steady_engine : InferenceEngine :=
  {| models := fun _ =>
       Some (fun _ =>
               {| pred_result :=
                    Ok (VDict [("confidence", VFloat (FFin 1));
                               ("will_finish", VBool true);
                               ("margin", VFloat (FFin 35))]);
                  pred_seconds := 10 # 1000 |});
     inference_times := [] |}.

(** An engine whose predictors all raise, each after 10 ms. *)
Definition failing_engine : InferenceEngine :=
  {| models := fun _ =>
       Some (fun _ =>
               {| pred_result := Raise (OtherException "ValueError");
                  pred_seconds := 10 # 1000 |});
     inference_times := [] |}.


(** The same frame without the hydrogen sensor column. *)
Definition frame_without_sensor : telemetry :=
  TFrame [{| col_name := "speed_avg"; col_numeric := true;
             col_isnull := [false] |};
          {| col_name := "motor_temp"; col_numeric := true;
             col_isnull := [false] |}].

(** An engine whose anomaly predictor answers after the double nearest to
    one tenth of a second, which is above one tenth, and the other
    predictors after 10 ms. *)
Definition tenth_engine : InferenceEngine :=
  {| models := fun name =>
       Some (fun _ =>
               {| pred_result :=
                    Ok (VDict [("confidence", VFloat (FFin 1));
                               ("will_finish", VBool true);
                               ("margin", VFloat (FFin 35))]);
                  pred_seconds :=
                    if String.eqb name "anomaly"
                    then 3602879701896397 # 36028797018963968
                    else 10 # 1000 |});
     inference_times := [] |}.

(** An engine whose own code is too fast for the clock to see. *)
Definition unseen_overhead : overhead :=
  {| before_check := fun _ => 0;
     before_start := fun _ => 0;
     before_stamp := 0 |}.

(** An engine whose own code takes 10 microseconds up to each budget check
    (the validation included), 1 microsecond from there to [model_start],
    and 100 microseconds for the cascade. *)
Definition light_overhead : overhead :=
  {| before_check := fun _ => 1 # 100000;
     before_start := fun _ => 1 # 1000000;
     before_stamp := 1 # 10000 |}.

(** A HIGH (not CRITICAL) anomaly together with an energy entry that says
    the vehicle will not finish. *)
Definition high_anomaly_and_dnf : pydict :=
  [("anomaly", VDict [("anomaly_detected", VBool true);
                      ("anomaly_type", VStr "VIBRATION_PATTERN");
                      ("severity", VStr "HIGH")]);
   ("energy", VDict [("will_finish", VBool false)])].

Definition critical_anomaly_only : pydict :=
  [("anomaly", VDict [("anomaly_detected", VBool true);
                      ("anomaly_type", VStr "OVERHEATING");
                      ("severity", VStr "CRITICAL")])].

(** ** Further vocabulary for the scheduler *)

(** What the guarded call of a predictor answers in this cycle. *)
Definition answer (self : InferenceEngine) (t : telemetry) (name : string)
  : pyval := fst (dispatch self name t).

(** Whether a predictor gave a result the loop keeps. *)
Definition answered (self : InferenceEngine) (t : telemetry) (name : string)
  : bool := truthy (answer self t name).

(** The entries of the result set the cascade reads. *)
Definition cascade_inputs : list string :=
  ["anomaly"; "fatigue"; "energy"; "racing_line"; "efficiency"; "slip_coast"].

(** ** adaptive/priority_cascade.py: the aggressiveness matrix *)

(** The float literals of the matrices, by their exact values. *)
Definition float_1_3 : Q := 5854679515581645 # 4503599627370496.
Definition float_1_8 : Q := 8106479329266893 # 4503599627370496.
Definition float_0_8 : Q := 3602879701896397 # 4503599627370496.
Definition float_0_85 : Q := 7656119366529843 # 9007199254740992.

(** One row of the matrix: aggressiveness, safety margin, confidence
    threshold. *)
Definition matrix_row : Type := (string * Q * Q)%type.

(** The [if race_phase ... elif ... else] chain of
    [get_aggressiveness_level]. *)
Definition aggressiveness_row (race_phase soc : pyval) : res matrix_row :=
  if py_in_strs race_phase ["EARLY"; "PRACTICE"] then
    Ok ("MODERATE", 3 # 2, float_0_7)
  else if py_eq_str race_phase "MID" then
    above25 <- py_gt soc 25 ;;
    if above25 then Ok ("MODERATE", 3 # 2, float_0_7)
    else
      above15 <- py_gt soc 15 ;;
      if above15 then Ok ("BALANCED", float_1_3, 3 # 4)
      else Ok ("CONSERVATIVE", float_1_8, float_0_8)
  else if py_eq_str race_phase "LATE" then
    above15 <- py_gt soc 15 ;;
    if above15 then Ok ("MODERATE", float_1_3, float_0_7)
    else
      above8 <- py_gt soc 8 ;;
      if above8 then Ok ("CONSERVATIVE", 2, float_0_8)
      else Ok ("SURVIVAL", 3, float_0_85)
  else Ok ("MODERATE", 3 # 2, float_0_7).

Definition get_aggressiveness_level (race_context : pydict) : res pyval :=
  let race_phase := dict_get race_context "race_phase" (VStr "UNKNOWN") in
  let soc := dict_get race_context "current_soc" (VInt 50) in
  let laps_remaining := dict_get race_context "laps_remaining" (VInt 4) in
  let current_rank := dict_get race_context "current_rank" (VInt 5) in
  row <- aggressiveness_row race_phase soc ;;
  let '(aggressiveness, safety_margin, confidence_threshold) := row in
  pit_recommended <-
    (if py_in_strs (VStr aggressiveness) ["CONSERVATIVE"; "SURVIVAL"] then
       py_lt soc 20
     else Ok false) ;;
  Ok (VDict [("aggressiveness", VStr aggressiveness);
             ("safety_margin", VFloat (FFin safety_margin));
             ("confidence_threshold", VFloat (FFin confidence_threshold));
             ("optimization_allowed",
              VBool (negb (String.eqb aggressiveness "SURVIVAL")));
             ("pit_recommended", VBool pit_recommended)]).

(** ** adaptive/context_manager.py: the other methods *)

(** [d[k]]. *)
Definition dict_item (d : pydict) (k : string) : res pyval :=
  match dict_lookup d k with
  | Some v => Ok v
  | None => Raise KeyError
  end.

Definition get_current_context (self : ContextManager) : pydict :=
  context self.

Definition get_context_history (self : ContextManager) : list pyval :=
  state_changes self.

Definition get_adaptive_parameters (self : ContextManager) : res pyval :=
  let context := context self in
  phase <- dict_item context "race_phase" ;;
  soc <- dict_item context "current_soc" ;;
  row <-
    (if py_in_strs phase ["PRACTICE"; "EARLY"] then Ok ("MODERATE", 3 # 2)
     else if py_eq_str phase "MID" then
       above25 <- py_gt soc 25 ;;
       if above25 then Ok ("MODERATE", 3 # 2)
       else
         above15 <- py_gt soc 15 ;;
         if above15 then Ok ("BALANCED", float_1_3)
         else Ok ("CONSERVATIVE", float_1_8)
     else
       above15 <- py_gt soc 15 ;;
       if above15 then Ok ("MODERATE", float_1_3)
       else
         above8 <- py_gt soc 8 ;;
         if above8 then Ok ("CONSERVATIVE", 2)
         else Ok ("SURVIVAL", 3)) ;;
  let '(aggressiveness, safety_margin) := row in
  track_condition <- dict_item context "track_condition" ;;
  weather_factor <- dict_item context "weather_factor" ;;
  Ok (VDict [("aggressiveness", VStr aggressiveness);
             ("safety_margin", VFloat (FFin safety_margin));
             ("phase", phase);
             ("soc", soc);
             ("track_condition", track_condition);
             ("weather_factor", weather_factor)]).

(** ** adaptive/context_manager.py: weather, ranking and pit stops *)

Definition float_0_2 : Q := 3602879701896397 # 18014398509481984.
Definition float_0_9 : Q := 8106479329266893 # 9007199254740992.
Definition float_0_92 : Q := 8286623314361713 # 9007199254740992.

(** The context is [asdict] of a [RaceContext]: it has the fields of the
    dataclass, in their order. *)
Definition is_race_context (ctx : pydict) : Prop :=
  dict_keys ctx = dict_keys RaceContext_default.

(** [track_grip] is accepted and not used. *)
Definition assess_track_condition (self : ContextManager) (clock1 clock2 : Q)
  (wind_speed rain_intensity track_grip : pyval)
  : res (string * ContextManager) :=
  heavy <- py_gt rain_intensity (1 # 2) ;;
  row <-
    (if heavy then Ok ("RAIN", float_0_85)
     else
       light <- py_gt rain_intensity float_0_2 ;;
       if light then Ok ("WET", float_0_9)
       else
         windy <- py_gt wind_speed 8 ;;
         if windy then Ok ("STRONG_WIND", float_0_92)
         else Ok ("DRY", 1)) ;;
  let '(condition, weather_factor) := row in
  Ok (condition,
      update_context self clock1 clock2
        [("track_condition", VStr condition);
         ("weather_factor", VFloat (FFin weather_factor))]).

(** [x < y] on numbers. *)
Definition float_lt (x y : pyfloat) : bool :=
  match x, y with
  | FNan, _ => false
  | _, FNan => false
  | FFin a, FFin b => Qlt_bool a b
  | FFin _, FInf negative => negb negative
  | FInf negative, FFin _ => negative
  | FInf s, FInf t => s && negb t
  end.

(** [sum(1 for eff in competitor_efficiencies if eff < our_efficiency)]. *)
Definition better_count (our_efficiency : pyfloat)
  (competitor_efficiencies : list pyfloat) : Z :=
  Z.of_nat
    (length
       (filter (fun eff => float_lt eff our_efficiency)
          competitor_efficiencies)).

(** The efficiencies are numbers, as annotated; a number is given by its
    value. *)
Definition estimate_final_rank (self : ContextManager) (clock1 clock2 : Q)
  (our_efficiency : pyfloat) (competitor_efficiencies : list pyfloat)
  (confidence : pyval) : pyval * ContextManager :=
  let predicted_rank :=
    (better_count our_efficiency competitor_efficiencies + 1)%Z in
  let self' :=
    update_context self clock1 clock2
      [("current_rank", VInt predicted_rank);
       ("ranking_confidence", confidence)] in
  (VDict [("predicted_rank", VInt predicted_rank);
          ("podium_chance", VBool (Z.leb predicted_rank 3));
          ("confidence", confidence)],
   self').

Definition pit_actions : pydict :=
  [("TIRE_PRESSURE",
    VList [VStr "Check tire pressure on all wheels";
           VStr "Adjust pressure to optimal Â±0.1 bar";
           VStr "Test handling after adjustment"]);
   ("ENERGY_STRATEGY",
    VList [VStr "Analyze efficiency trends";
           VStr "Adjust driver throttle strategy";
           VStr "Brief driver on track sections"]);
   ("MECHANICAL",
    VList [VStr "Inspect motor connections";
           VStr "Check battery parameters";
           VStr "Verify all sensors";
           VStr "Tighten any loose components"]);
   ("DRIVER_REST",
    VList [VStr "Driver takes 5-minute rest";
           VStr "Rehydration and cooling";
           VStr "Fatigue assessment";
           VStr "Driver change if needed"]);
   ("EVALUATION",
    VList [VStr "Full system diagnostic";
           VStr "Review telemetry data";
           VStr "Plan strategy adjustment";
           VStr "Check weather forecast"])].

Definition _get_pit_actions (reason : string) : pyval :=
  dict_get pit_actions reason (VList [VStr "General pit stop"]).

Definition plan_pit_stop (self : ContextManager) (clock1 clock2 : Q)
  (reason : string) (estimated_eta_seconds : pyval)
  : pyval * ContextManager :=
  let self' :=
    update_context self clock1 clock2
      [("pit_stop_planned", VBool true);
       ("pit_stop_eta", estimated_eta_seconds)] in
  (VDict [("pit_planned", VBool true);
          ("reason", VStr reason);
          ("eta_seconds", estimated_eta_seconds);
          ("planned_actions", _get_pit_actions reason)],
   self').

(** [clock3] is the reading of [time.time()] for the summary. *)
Definition execute_pit_stop (self : ContextManager) (clock1 clock2 clock3 : Q)
  (actions_completed : pyval) : pyval * ContextManager :=
  let self' :=
    update_context self clock1 clock2
      [("pit_stop_planned", VBool false); ("pit_stop_eta", VInt 0)] in
  (VDict [("pit_completed", VBool true);
          ("actions_completed", actions_completed);
          ("timestamp", VFloat (FFin clock3))],
   self').

(** ** utils/data_validators.py: [flatten_nested_dict] *)

(** [isinstance(v, dict)]. *)
Definition is_dict (v : pyval) : bool :=
  match v with
  | VDict _ => true
  | _ => false
  end.

(** [dict(items)]: a repeated key keeps its first position and takes its
    last value. *)
Definition dict_of_items (items : list (string * pyval)) : pydict :=
  fold_left (fun d kv => dict_set d (fst kv) (snd kv)) items [].

(** [f"{parent_key}{sep}{k}" if parent_key else k]. *)
Definition new_key (parent_key sep k : string) : string :=
  if negb (String.eqb parent_key "") then
    String.append parent_key (String.append sep k)
  else k.

(** The recursion runs over the nested value; only a dictionary has items
    to walk. *)
Fixpoint flatten_value (v : pyval) (parent_key sep : string) : pydict :=
  match v with
  | VDict d =>
      dict_of_items
        ((fix items (d : list (string * pyval)) : list (string * pyval) :=
            match d with
            | [] => []
            | (k, w) :: d' =>
                (match w with
                 | VDict _ => flatten_value w (new_key parent_key sep k) sep
                 | _ => [(new_key parent_key sep k, w)]
                 end) ++ items d'
            end) d)
  | _ => []
  end.

Definition flatten_nested_dict (d : pydict) (parent_key sep : string)
  : pydict :=
  flatten_value (VDict d) parent_key sep.

(** The list [items] of one call, before [dict(items)]. *)
Definition flatten_items (parent_key sep : string) (d : pydict)
  : list (string * pyval) :=
  flat_map
    (fun kv =>
       match snd kv with
       | VDict _ => flatten_value (snd kv) (new_key parent_key sep (fst kv)) sep
       | w => [(new_key parent_key sep (fst kv), w)]
       end) d.

(** No value of the dictionary is itself a dictionary. *)
Definition flat (d : pydict) : Prop :=
  forall k v, dict_lookup d k = Some v -> is_dict v = false.

(** Induction on a value through the dictionaries nested in it. *)
Section NestedDictionaries.
Variable P : pyval -> Prop.
Hypothesis P_other : forall v, is_dict v = false -> P v.
Hypothesis P_dict :
  forall d, Forall (fun kv => P (snd kv)) d -> P (VDict d).

Fixpoint nested_dict_ind (v : pyval) : P v :=
  match v as v0 return P v0 with
  | VDict d =>
      P_dict d
        ((fix each (d : list (string * pyval))
            : Forall (fun kv => P (snd kv)) d :=
            match d with
            | [] => Forall_nil _
            | kv :: d' =>
                Forall_cons kv
                  (match kv as kv0 return P (snd kv0) with
                   | (_, w) => nested_dict_ind w
                   end)
                  (each d')
            end) d)
  | VNone => P_other VNone eq_refl
  | VBool b => P_other (VBool b) eq_refl
  | VInt n => P_other (VInt n) eq_refl
  | VFloat x => P_other (VFloat x) eq_refl
  | VStr s => P_other (VStr s) eq_refl
  | VList l => P_other (VList l) eq_refl
  end.
End NestedDictionaries.

(** ** models/fatigue_detector.py and models/energy_predictor.py

    The trained estimators stay opaque; what is embedded is the decision
    logic around them, as a function of what the estimator answered. *)

(** [v is None]. *)
Definition py_is_none (v : pyval) : bool :=
  match v with
  | VNone => true
  | _ => false
  end.

(** [v is not None and v < c]. *)
Definition known_below (v : pyval) (c : Q) : res bool :=
  if py_is_none v then Ok false else py_lt v c.

(** [v is not None and v > c]. *)
Definition known_above (v : pyval) (c : Q) : res bool :=
  if py_is_none v then Ok false else py_gt v c.

Definition hypoxia_alert (spo2_pct : pyval) : pyval :=
  VDict [("severity", VStr "CRITICAL");
         ("alert", VStr "HYPOXIA_RISK");
         ("value", spo2_pct);
         ("action", VStr "IMMEDIATE_ALERT: Check oxygen, open ventilation")].

Definition high_hr_alert (heart_rate : pyval) : pyval :=
  VDict [("severity", VStr "HIGH");
         ("alert", VStr "HIGH_HR");
         ("value", heart_rate);
         ("action",
          VStr "MEDICAL_CONCERN: Elevated heart rate, monitor closely")].

Definition class_to_pct : list (Z * Q) :=
  [(0%Z, 25 # 2); (1%Z, 75 # 2); (2%Z, 125 # 2); (3%Z, 175 # 2)].

Definition fatigue_actions : list (Z * string) :=
  [(0%Z, "✓ Normal operation - monitor routine");
   (1%Z, "⚠ Low fatigue - monitor closely, suggest rest after lap");
   (2%Z,
    "⚠ Medium fatigue - warning alert, recommend pit stop for evaluation");
   (3%Z, "🚨 High fatigue - recommend race abort or driver change")].

Definition level_names : list string := ["None"; "Low"; "Medium"; "High"].

(** [table[key]] on a dictionary with integer keys. *)
Fixpoint int_item {A : Type} (table : list (Z * A)) (key : Z) : res A :=
  match table with
  | [] => Raise KeyError
  | (k, a) :: rest => if Z.eqb key k then Ok a else int_item rest key
  end.

(** [names[i]] on a list, negative indices counting from the end. *)
Definition list_item {A : Type} (l : list A) (i : Z) : res A :=
  let j := if Z.ltb i 0 then (i + Z.of_nat (length l))%Z else i in
  if Z.ltb j 0 then Raise IndexError
  else
    match nth_error l (Z.to_nat j) with
    | Some a => Ok a
    | None => Raise IndexError
    end.

(** [np.clip(x, lo, hi)]. *)
Definition clip (x lo hi : Q) : Q :=
  let y := if Qlt_bool x lo then lo else x in
  if Qlt_bool hi y then hi else y.

(** [predict_fatigue], with [prediction] for [model.predict(X_test)[0]] and
    [confidence] for [float(prediction_proba.max())]. *)
Definition predict_fatigue (prediction : Z) (confidence : Q)
  (heart_rate spo2_pct : pyval) : res pyval :=
  low <- known_below spo2_pct 90 ;;
  let medical_alerts := if low then [hypoxia_alert spo2_pct] else [] in
  fast <- known_above heart_rate 180 ;;
  let medical_alerts :=
    medical_alerts ++ (if fast then [high_hr_alert heart_rate] else []) in
  pct <- int_item class_to_pct prediction ;;
  let uncertainty := (1 - confidence) * 25 in
  let fatigue_pct := pct + uncertainty in
  outcome <-
    (if truthy (VList medical_alerts) then
       first <- py_item0 (VList medical_alerts) ;;
       advice <-
         match first with
         | VDict a => dict_item a "action"
         | _ => Raise TypeError
         end ;;
       action <-
         match advice with
         | VStr text => Ok (String.append "🚨 MEDICAL ALERT - " text)
         | _ => Raise TypeError
         end ;;
       low' <- known_below spo2_pct 90 ;;
       if low' then Ok (action, 3%Z, inject_Z 100)
       else Ok (action, prediction, fatigue_pct)
     else
       action <- int_item fatigue_actions prediction ;;
       Ok (action, prediction, fatigue_pct)) ;;
  let '(action, prediction, fatigue_pct) := outcome in
  name <- list_item level_names prediction ;;
  Ok (VDict [("fatigue_level", VInt prediction);
             ("fatigue_pct", VFloat (FFin (clip fatigue_pct 0 100)));
             ("action", VStr action);
             ("confidence", VFloat (FFin confidence));
             ("medical_alerts", VList medical_alerts);
             ("level_names", VStr name)]).

(** [x - c] on numbers. *)
Definition float_minus (x : pyfloat) (c : Q) : pyfloat :=
  match x with
  | FFin a => FFin (a - c)
  | _ => x
  end.

(** [predict_energy], with [raw_prediction] for the regressor's output on
    the one sample and [confidence] for what [_calculate_confidence]
    returns. *)
Definition predict_energy (raw_prediction confidence : pyfloat) : pyval :=
  let will_finish := float_lt (FFin 5) raw_prediction in
  let margin := float_minus raw_prediction 5 in
  VDict [("predicted_final_soc", VFloat raw_prediction);
         ("confidence", VFloat confidence);
         ("will_finish", VBool will_finish);
         ("margin", VFloat margin);
         ("raw_prediction", VFloat raw_prediction)].

(** ** models/anomaly_detection.py

    The two estimators of the ensemble and the z-score helper stay opaque:
    [svm_pred], [iso_pred] and [iso_score] are what the estimators answer on
    the sample, [z_score_anomalies] what [_check_z_score_anomalies] returns.
    The threshold detector and the choice of the recommendation are
    embedded. *)

(** What a helper detector returns when it found something: the dictionary
    with the entries ["type"], ["severity"], ["confidence"] and ["evidence"]
    (its constant entry ["detected"] is not read). *)
Record finding : Type := {
  f_type : string;
  f_severity : string;
  f_confidence : Q;
  f_evidence : list string
}.

Definition recommendations : pydict :=
  [("BEARING_UNBALANCE",
    VDict [("CRITICAL",
            VStr "🛑 STOP: Bearing failure imminent. Limp into pits.");
           ("HIGH",
            VStr "⚠ Slow to 20 km/h, reduce cornering. Inspect front bearing in pits.");
           ("MEDIUM",
            VStr "⚠ Reduce speed 10%, monitor bearing temp closely.")]);
   ("MOTOR_OVERHEAT",
    VDict [("CRITICAL",
            VStr "🛑 EMERGENCY: Motor shutdown risk. Reduce power to 50%, pit immediately.");
           ("HIGH",
            VStr "⚠ Reduce throttle to 75%, increase coast ratio, pit stop if continues.");
           ("MEDIUM", VStr "⚠ Monitor motor temp, avoid full throttle.")]);
   ("BATTERY_OVERHEAT",
    VDict [("CRITICAL",
            VStr "🛑 Battery at risk. Reduce power 50%, pit immediately for cooling.");
           ("HIGH",
            VStr "⚠ Increase coast ratio +10%, reduce speed, monitor cell temp.");
           ("MEDIUM",
            VStr "⚠ Maintain current speed, increase ventilation.")]);
   ("CURRENT_SURGE",
    VDict [("CRITICAL",
            VStr "🛑 Electrical failure risk. Check motor connection, pit immediately.");
           ("HIGH", VStr "⚠ Unplug non-essential load, monitor power draw.");
           ("MEDIUM", VStr "⚠ Monitor current, reduce speed if continues.")]);
   ("WHEEL_SLIP_LOCK",
    VDict [("CRITICAL",
            VStr "🛑 Loss of traction. Slow down, pit for tire inspection.");
           ("HIGH",
            VStr "⚠ Adjust tire pressure, reduce speed, increase coast.");
           ("MEDIUM", VStr "⚠ Check tire pressure, ready for adjustment.")]);
   ("MULTI_DIMENSIONAL",
    VDict [("CRITICAL",
            VStr "🛑 Multiple anomalies detected. Pit immediately for diagnosis.");
           ("HIGH",
            VStr "⚠ Multiple parameters abnormal. pit stop recommended.");
           ("MEDIUM",
            VStr "⚠ Several metrics outside normal range. Monitor closely.")])].

Definition default_actions : pydict :=
  [("CRITICAL",
    VStr "🛑 Anomaly confidence high. Pit immediately for inspection.");
   ("HIGH", VStr "⚠ Stop and pit for troubleshooting recommended.");
   ("MEDIUM", VStr "📊 Monitor continuously, pit if condition worsens.")].

(** The default handed to [.get] is [default_actions[severity]]: it is
    evaluated before the call, whether or not the key is found. *)
Definition _generate_anomaly_action (anomaly_type severity : string)
  (evidence : list string) : res pyval :=
  match dict_lookup recommendations anomaly_type with
  | Some by_severity =>
      dflt <- dict_item default_actions severity ;;
      py_get by_severity severity dflt
  | None =>
      Ok (dict_get default_actions severity
            (VStr "⚠ Anomaly detected. Monitor system."))
  end.

(** [max(a, b)]: the first argument unless the second is larger. *)
Definition py_max (a b : Q) : Q := if Qlt_bool a b then b else a.

(** [max(first :: rest, key=key)]: the first element of largest key. *)
Fixpoint max_by {A : Type} (key : A -> Z) (best : A) (rest : list A) : A :=
  match rest with
  | [] => best
  | x :: rest' =>
      max_by key (if Z.ltb (key best) (key x) then x else best) rest'
  end.

(** [{"CRITICAL": 3, "HIGH": 2, "MEDIUM": 1}.get(x["severity"], 0)]. *)
Definition finding_rank (d : finding) : Z :=
  if String.eqb (f_severity d) "CRITICAL" then 3
  else if String.eqb (f_severity d) "HIGH" then 2
  else if String.eqb (f_severity d) "MEDIUM" then 1
  else 0.

Section SpecificPatterns.
Context `{PyFormat}.

(** One block of [_detect_specific_patterns]:
    [if col in X_test.columns: v = X_test[col].iloc[0]; if v > threshold:
    detections.append(...)].  The sample is given by its first row, a
    dictionary from the column names to the cells. *)
Definition pattern_check (row : pydict) (col : string) (threshold : Q)
  (build : pyval -> res finding) : res (list finding) :=
  match dict_lookup row col with
  | None => Ok []
  | Some value =>
      above <- py_gt value threshold ;;
      if above then
        d <- build value ;;
        Ok [d]
      else Ok []
  end.

Definition _detect_specific_patterns (row : pydict) : res (option finding) :=
  bearing <-
    pattern_check row "vibration_fft_50hz" 100
      (fun fft_50hz =>
         shown <- py_format_1f fft_50hz ;;
         Ok {| f_type := "BEARING_UNBALANCE";
               f_severity := "HIGH";
               f_confidence := float_0_85;
               f_evidence := [String.append "FFT 50Hz spike: " shown] |}) ;;
  motor <-
    pattern_check row "motor_temp" 90
      (fun motor_temp =>
         critical <- py_gt motor_temp 100 ;;
         shown <- py_format_1f motor_temp ;;
         Ok {| f_type := "MOTOR_OVERHEAT";
               f_severity := if critical then "CRITICAL" else "HIGH";
               f_confidence := float_0_9;
               f_evidence :=
                 [String.append "Motor temp: " (String.append shown "°C")] |}) ;;
  battery <-
    pattern_check row "battery_cell_temp_max" 60
      (fun batt_temp =>
         shown <- py_format_1f batt_temp ;;
         Ok {| f_type := "BATTERY_OVERHEAT";
               f_severity := "HIGH";
               f_confidence := float_0_85;
               f_evidence :=
                 [String.append "Battery cell temp: "
                    (String.append shown "°C")] |}) ;;
  wheel <-
    pattern_check row "wheel_speed_variance" 50
      (fun wheel_var =>
         shown <- py_format_1f wheel_var ;;
         Ok {| f_type := "WHEEL_SLIP_LOCK";
               f_severity := "MEDIUM";
               f_confidence := 3 # 4;
               f_evidence := [String.append "Wheel variance: " shown] |}) ;;
  current <-
    pattern_check row "current_draw" 200
      (fun current =>
         shown <- py_format_1f current ;;
         Ok {| f_type := "CURRENT_SURGE";
               f_severity := "HIGH";
               f_confidence := float_0_8;
               f_evidence :=
                 [String.append "Current draw: " (String.append shown "A")] |}) ;;
  match bearing ++ motor ++ battery ++ wheel ++ current with
  | [] => Ok None
  | first :: rest => Ok (Some (max_by finding_rank first rest))
  end.

(** The running state of [predict_anomaly]: [anomaly_detected],
    [anomaly_type], [severity], [confidence], [evidence]. *)
Definition anomaly_state : Type :=
  (bool * string * string * Q * list string)%type.

(** A helper's finding overrides the type and the severity. *)
Definition take_finding (st : anomaly_state) (found : option finding)
  : anomaly_state :=
  match found with
  | None => st
  | Some f =>
      let '(_, _, _, confidence, evidence) := st in
      (true, f_type f, f_severity f, py_max confidence (f_confidence f),
       evidence ++ f_evidence f)
  end.

Definition predict_anomaly (svm_pred iso_pred : Z) (iso_score : Q)
  (z_score_anomalies : option finding) (row : pydict) : res pyval :=
  let st : anomaly_state := (false, "NONE", "LOW", 0, []) in
  (* 1. One-Class SVM *)
  let st : anomaly_state :=
    if Z.eqb svm_pred (-1) then
      let '(_, _, _, confidence, evidence) := st in
      (true, "VIBRATION_PATTERN", "MEDIUM", py_max confidence float_0_7,
       evidence ++ ["SVM detected vibration anomaly"])
    else st in
  (* 2. Isolation Forest *)
  let st : anomaly_state :=
    if Z.eqb iso_pred (-1) then
      let '(_, anomaly_type, severity, confidence, evidence) := st in
      (true,
       if String.eqb anomaly_type "" || String.eqb anomaly_type "NONE"
       then "MULTI_DIMENSIONAL" else anomaly_type,
       severity,
       py_max confidence (Qabs iso_score / 10),
       evidence ++ ["Isolation Forest detected multi-dimensional anomaly"])
    else st in
  (* 3. Statistical thresholding *)
  let st := take_finding st z_score_anomalies in
  (* 4. Specific pattern detection *)
  specific_anomalies <- _detect_specific_patterns row ;;
  let st := take_finding st specific_anomalies in
  let '(anomaly_detected, anomaly_type, severity, confidence, evidence) :=
    st in
  action_recommend <-
    _generate_anomaly_action anomaly_type severity evidence ;;
  Ok (VDict [("anomaly_detected", VBool anomaly_detected);
             ("anomaly_type", VStr anomaly_type);
             ("severity", VStr severity);
             ("confidence", VFloat (FFin (clip confidence 0 1)));
             ("action_recommend", action_recommend);
             ("evidence", VList (map VStr evidence));
             ("lead_time_estimate_seconds",
              VInt (if anomaly_detected then 60 else 0))]).

End SpecificPatterns.

(** The anomaly types with a recommendation table of their own. *)
Definition known_type (anomaly_type : string) : bool :=
  dict_has recommendations anomaly_type.

(** What [_check_z_score_anomalies] returns when it found something: a
    type [f"STATISTICAL_{...}"] and the severity HIGH or MEDIUM. *)
Definition z_score_finding (f : finding) : Prop :=
  String.prefix "STATISTICAL_" (f_type f) = true /\
  In (f_severity f) ["HIGH"; "MEDIUM"].

(** The type and the severity [predict_anomaly] ends with: the last detector
    that found something decides. *)
Definition final_type (svm_pred iso_pred : Z)
  (z_score_anomalies specific_anomalies : option finding) : string :=
  match specific_anomalies, z_score_anomalies with
  | Some f, _ => f_type f
  | None, Some f => f_type f
  | None, None =>
      if Z.eqb svm_pred (-1) then "VIBRATION_PATTERN"
      else if Z.eqb iso_pred (-1) then "MULTI_DIMENSIONAL"
      else "NONE"
  end.

Definition final_severity (svm_pred : Z)
  (z_score_anomalies specific_anomalies : option finding) : string :=
  match specific_anomalies, z_score_anomalies with
  | Some f, _ => f_severity f
  | None, Some f => f_severity f
  | None, None => if Z.eqb svm_pred (-1) then "MEDIUM" else "LOW"
  end.

Definition final_detected (svm_pred iso_pred : Z)
  (z_score_anomalies specific_anomalies : option finding) : bool :=
  match specific_anomalies, z_score_anomalies with
  | None, None => Z.eqb svm_pred (-1) || Z.eqb iso_pred (-1)
  | _, _ => true
  end.

(** The isolation forest is the only detector that found something. *)
Definition isolation_forest_alone (svm_pred iso_pred : Z)
  (z_score_anomalies specific_anomalies : option finding) : Prop :=
  iso_pred = (-1)%Z /\ svm_pred <> (-1)%Z /\
  z_score_anomalies = None /\ specific_anomalies = None.

(** The motor temperature of the sample is above 100. *)
Definition motor_above_100 (row : pydict) : Prop :=
  exists motor_temp,
    dict_lookup row "motor_temp" = Some motor_temp /\
    py_gt motor_temp 100 = Ok true.

(** A detection of the threshold detector: a type with a recommendation
    table, one of the three severities, and CRITICAL only for a motor above
    100. *)
Definition threshold_detection (row : pydict) (d : finding) : Prop :=
  known_type (f_type d) = true /\
  In (f_severity d) ["CRITICAL"; "HIGH"; "MEDIUM"] /\
  (f_severity d = "CRITICAL" ->
   f_type d = "MOTOR_OVERHEAT" /\ motor_above_100 row).

(** ** api_server.py: what the dashboard gets *)

(** [a or b]. *)
Definition py_or (a b : pyval) : pyval := if truthy a then a else b.

(** [o[k]] for a string key: only a dictionary can be indexed by it. *)
Definition py_item (o : pyval) (k : string) : res pyval :=
  match o with
  | VDict d => dict_item d k
  | _ => Raise TypeError
  end.

(** [o[k1][k2]...]. *)
Fixpoint py_path (o : pyval) (keys : list string) : res pyval :=
  match keys with
  | [] => Ok o
  | k :: rest =>
      v <- py_item o k ;;
      py_path v rest
  end.

Definition _engine_to_dashboard_payload (engine_result fallback : pyval)
  : res pyval :=
  given <- py_get engine_result "primary_action" VNone ;;
  let primary := py_or given (VDict []) in
  ph2_energy <- py_path fallback ["insights"; "ph2"; "energy"] ;;
  ucbe_energy <- py_path fallback ["insights"; "ucbe"; "energy"] ;;
  why <- py_get primary "reason" VNone ;;
  reason <-
    (if truthy why then Ok why
     else
       what <- py_get primary "action" VNone ;;
       Ok (py_or what (VStr "No critical events"))) ;;
  advice <- py_get primary "recommendation" VNone ;;
  let recommendation :=
    py_or advice (VStr "Line stable, continue current trajectory") in
  executed <- py_get engine_result "models_executed" VNone ;;
  models_executed <-
    (if truthy executed then Ok executed
     else py_path fallback ["models_executed"]) ;;
  severity <- py_get engine_result "severity" (VStr "NORMAL") ;;
  total_inference_ms <- py_get engine_result "total_inference_ms" (VInt 0) ;;
  fatigue <- py_path fallback ["insights"; "ucbe"; "fatigue"] ;;
  Ok (VDict
        [("source", VStr "kerangka_ml_engine");
         ("models_executed", models_executed);
         ("engine",
          VDict [("severity", severity);
                 ("primary_action", primary);
                 ("total_inference_ms", total_inference_ms)]);
         ("insights",
          VDict
            [("ph2",
              VDict [("energy", ph2_energy);
                     ("purge",
                      VStr "Purge recommendation computed from H2 scheduler");
                     ("anomaly", reason)]);
             ("ucbe",
              VDict [("energy", ucbe_energy);
                     ("efficiency",
                      VStr "Efficiency map optimized from current telemetry");
                     ("fatigue", fatigue)]);
             ("racingLine", recommendation)])]).

Definition training_default : pydict :=
  [("energy", VBool true);
   ("racing_line", VBool true);
   ("h2_purge", VBool true);
   ("fatigue", VBool true);
   ("anomaly", VBool true);
   ("efficiency", VBool true);
   ("slip_coast", VBool true);
   ("rank", VBool true)].

(** [for key in default.keys(): if key in model_flags:
    default[key] = bool(model_flags[key])]. *)
Definition override_flags (model_flags : pydict) (keys : list string)
  (default : pydict) : pydict :=
  fold_left
    (fun default key =>
       if dict_has model_flags key then
         dict_set default key (VBool (truthy (dict_get model_flags key VNone)))
       else default)
    keys default.

Definition _normalize_training_models (model_flags : pydict) : pydict :=
  let default := training_default in
  if negb (truthy (VDict model_flags)) then default
  else override_flags model_flags (dict_keys default) default.

(** The eight model names, in the order of the training defaults. *)
Definition training_model_names : list string := dict_keys training_default.

(** A frame whose one column is entirely null: the validator rejects it. *)
Definition frame_without_null_free_column : telemetry :=
  TFrame [{| col_name := "motor_temp"; col_numeric := true;
             col_isnull := [true] |}].

(** What [_heuristic_insights] hands over, as far as the payload reads it. *)
Definition heuristic_sample : pyval :=
  VDict [("source", VStr "heuristic_fallback");
         ("models_executed", VList [VStr "energy"; VStr "anomaly"]);
         ("insights",
          VDict [("ph2", VDict [("energy", VStr "42.0 km remaining fuel")]);
                 ("ucbe",
                  VDict [("energy", VStr "36.4 km remaining charge");
                         ("fatigue", VStr "Driver alert level: LOW")])])].

(** ** adaptive/priority_cascade.py: [prioritize_model_outputs] *)

(** [x + y] and [x * c] on numbers. *)
Definition float_add (x y : pyfloat) : pyfloat :=
  match x, y with
  | FNan, _ => FNan
  | _, FNan => FNan
  | FFin a, FFin b => FFin (a + b)
  | FFin _, FInf t => FInf t
  | FInf s, FFin _ => FInf s
  | FInf s, FInf t => if Bool.eqb s t then FInf s else FNan
  end.

Definition float_times (x : pyfloat) (c : Q) : pyfloat :=
  match x with
  | FFin a => FFin (a * c)
  | FInf s => if Qlt_bool 0 c then FInf s
              else if Qlt_bool c 0 then FInf (negb s) else FNan
  | FNan => FNan
  end.

(** [name == wanted and test(result.get(k))]: the result is read only under
    its own name. *)
Definition flag_test (model_name wanted : string) (result : pyval)
  (k : string) (test : pyval -> bool) : res bool :=
  if String.eqb model_name wanted then
    v <- py_get result k VNone ;;
    Ok (test v)
  else Ok false.

(** The score of one result. *)
Definition priority_score (model_name : string) (result : pyval)
  : res pyfloat :=
  anomaly <- flag_test model_name "anomaly" result "anomaly_detected" truthy ;;
  bonus <-
    (if anomaly then Ok 100
     else
       fatigue <-
         flag_test model_name "fatigue" result "medical_alerts" truthy ;;
       if fatigue then Ok 90
       else
         energy <-
           flag_test model_name "energy" result "will_finish"
             (fun v => negb (truthy v)) ;;
         if energy then Ok 80 else Ok 0) ;;
  confidence <- py_get result "confidence" (VInt 0) ;;
  weighted <-
    match py_num confidence with
    | Some x => Ok (float_times x 10)
    | None => Raise TypeError
    end ;;
  let score := float_add (FFin bonus) weighted in
  recommendation <- py_get result "recommendation" VNone ;;
  Ok (if truthy recommendation then float_add score (FFin 5) else score).

(** An entry of [scored_results]: model, score, result. *)
Definition scored : Type := (string * pyfloat * pyval)%type.

Definition score_of (item : scored) : pyfloat := snd (fst item).
Definition result_of (item : scored) : pyval := snd item.

Fixpoint score_results (items : pydict) : res (list scored) :=
  match items with
  | [] => Ok []
  | (model_name, result) :: rest =>
      if negb (truthy result) then score_results rest
      else
        score <- priority_score model_name result ;;
        others <- score_results rest ;;
        Ok ((model_name, score, result) :: others)
  end.

(** [sort(key=score, reverse=True)]: stable, largest score first.  An item
    goes behind the items whose score is not smaller. *)
Fixpoint insert_descending (x : scored) (l : list scored) : list scored :=
  match l with
  | [] => [x]
  | y :: l' =>
      if float_lt (score_of y) (score_of x) then x :: y :: l'
      else y :: insert_descending x l'
  end.

Definition sort_descending (l : list scored) : list scored :=
  fold_left (fun sorted x => insert_descending x sorted) l [].

(** [l[:n]]. *)
Definition slice_to {A : Type} (l : list A) (n : Z) : list A :=
  if Z.ltb n 0 then firstn (Z.to_nat (Z.of_nat (length l) + n)) l
  else firstn (Z.to_nat n) l.

Definition prioritize_model_outputs (model_results : pydict)
  (max_recommendations : Z) : res (list pyval) :=
  scored_results <- score_results model_results ;;
  Ok (map result_of
        (slice_to (sort_descending scored_results) max_recommendations)).

(** The result carries one of the three safety flags the score rewards. *)
Definition flagged (model_name : string) (result : pyval) : bool :=
  match result with
  | VDict d =>
      (String.eqb model_name "anomaly" &&
       truthy (dict_get d "anomaly_detected" VNone)) ||
      (String.eqb model_name "fatigue" &&
       truthy (dict_get d "medical_alerts" VNone)) ||
      (String.eqb model_name "energy" &&
       negb (truthy (dict_get d "will_finish" VNone)))
  | _ => false
  end.

(** The confidence of the result is absent or a number between 0 and 1. *)
Definition unit_confidence (result : pyval) : Prop :=
  exists d q,
    result = VDict d /\
    py_num (dict_get d "confidence" (VInt 0)) = Some (FFin q) /\
    0 <= q <= 1.

(** The finite score of an item, for comparing. *)
Definition finite_score (item : scored) (q : Q) : Prop :=
  score_of item = FFin q.

(** No item behind the first has a larger score. *)
Definition head_is_largest (l : list scored) : Prop :=
  match l with
  | [] => True
  | h :: t =>
      forall z qz qh, In z t -> finite_score z qz -> finite_score h qh ->
                      qz <= qh
  end.

(** ** Basic facts *)

Lemma dict_get_found (d : pydict) (k : string) (v dflt : pyval) :
  dict_lookup d k = Some v -> dict_get d k dflt = v.
Proof. unfold dict_get. intros ->. reflexivity. Qed.

Lemma dict_get_missing (d : pydict) (k : string) (dflt : pyval) :
  dict_lookup d k = None -> dict_get d k dflt = dflt.
Proof. unfold dict_get. intros ->. reflexivity. Qed.

Lemma dict_lookup_set_same (d : pydict) (k : string) (v : pyval) :
  dict_lookup (dict_set d k v) k = Some v.
Proof.
  induction d as [|[k' v'] d IH]; cbn.
  - now rewrite String.eqb_refl.
  - destruct (String.eqb k k') eqn:E; cbn.
    + now rewrite String.eqb_refl.
    + now rewrite E.
Qed.

Lemma dict_lookup_set_other (d : pydict) (k k' : string) (v : pyval) :
  k <> k' -> dict_lookup (dict_set d k' v) k = dict_lookup d k.
Proof.
  intros Hne. induction d as [|[k0 v0] d IH]; cbn.
  - destruct (String.eqb_spec k k'); [contradiction|reflexivity].
  - destruct (String.eqb_spec k' k0) as [->|Hne0]; cbn.
    + destruct (String.eqb_spec k k0); [contradiction|reflexivity].
    + destruct (String.eqb_spec k k0); [reflexivity|exact IH].
Qed.

Lemma Qlt_bool_iff (a b : Q) : Qlt_bool a b = true <-> (a < b)%Q.
Proof.
  unfold Qlt_bool. rewrite negb_true_iff. split.
  - intros Hf. apply Qnot_le_lt. intros Hle.
    apply Qle_bool_iff in Hle. congruence.
  - intros Hlt. destruct (Qle_bool b a) eqn:E; [|reflexivity].
    apply Qle_bool_iff in E. exfalso. exact (Qlt_not_le _ _ Hlt E).
Qed.

Lemma bind_Ok {A B : Type} (m : res A) (k : A -> res B) (b : B) :
  bind m k = Ok b -> exists a, m = Ok a /\ k a = Ok b.
Proof. destruct m as [a|e]; cbn; [eauto | discriminate]. Qed.

(** Peel the first [bind] of a computation known to return. *)
Ltac peel H :=
  let a := fresh "v" in
  let E := fresh "E" in
  apply bind_Ok in H; destruct H as (a & E & H).

Ltac peel_all H := repeat peel H.

Ltac action_of_now :=
  do 3 eexists;
  split; [reflexivity|]; split; [reflexivity|];
  split; [reflexivity|]; split; [cbn; tauto|];
  split; [reflexivity|]; cbn; tauto.

(** ** The shape of what each phase returns *)

(** ** Phase 1: the safety short-circuit *)

Section CascadeFacts.
Context `{PyFormat}.

Lemma safety_anomaly (model_results race_context a : pydict) :
  dict_lookup model_results "anomaly" = Some (VDict a) ->
  truthy (dict_get a "anomaly_detected" VNone) = true ->
  _check_safety_constraints model_results race_context
  = Ok (anomaly_action a).
Proof.
  intros Hres Hdet. unfold _check_safety_constraints.
  rewrite (dict_get_found _ _ _ _ Hres). cbn [py_get bind].
  rewrite Hdet. reflexivity.
Qed.

(** C1. A result set whose anomaly entry reports a detected anomaly of
    severity CRITICAL makes the cascade return, for every race context and
    whatever the other entries hold, the early safety decision: its action
    list is exactly the one ANOMALY_DETECTED action, which is also the
    primary action, its severity is CRITICAL, and no energy or performance
    action is in it. *)
Theorem critical_anomaly_short_circuit
  (model_results race_context a : pydict) :
  dict_lookup model_results "anomaly" = Some (VDict a) ->
  truthy (dict_get a "anomaly_detected" VNone) = true ->
  dict_get a "severity" VNone = VStr "CRITICAL" ->
  exists decision,
    apply_priority_cascade model_results race_context = Ok decision /\
    all_actions decision = [anomaly_action a] /\
    length (all_actions decision) = 1%nat /\
    action_kind (anomaly_action a) = Some (VStr "ANOMALY_DETECTED") /\
    field "primary_action" decision = Some (anomaly_action a) /\
    field "severity" decision = Some (VStr "CRITICAL") /\
    (forall act, In act (all_actions decision) ->
       has_kind "DNF_RISK" act = false /\
       has_kind "LOW_ENERGY_MARGIN" act = false /\
       has_kind "PERFORMANCE_OPTIMIZATION" act = false).
Proof.
  intros Hres Hdet Hsev.
  unfold apply_priority_cascade.
  rewrite (safety_anomaly _ _ _ Hres Hdet).
  unfold anomaly_action at 1 2 3. rewrite Hsev.
  cbn.
  eexists. split; [reflexivity|].
  cbn. unfold anomaly_action. rewrite Hsev. cbn.
  repeat split; try reflexivity.
  all: match goal with
       | Hin : _ = _ \/ False |- _ => destruct Hin as [<-|[]]; reflexivity
       end.
Qed.

Lemma high_fatigue_shape (fatigue v : pyval) :
  high_fatigue_check fatigue = Ok v ->
  v = VNone \/ action_of ["HIGH_FATIGUE"] ["HIGH"] v.
Proof.
  unfold high_fatigue_check. intros Hv. peel Hv.
  destruct (py_eq_num v0 3).
  - peel Hv. injection Hv as <-. right. action_of_now.
  - injection Hv as <-. now left.
Qed.

Lemma safety_shape (model_results race_context : pydict) (v : pyval) :
  _check_safety_constraints model_results race_context = Ok v ->
  v = VNone \/ action_of safety_kinds ["CRITICAL"; "HIGH"] v.
Proof.
  unfold _check_safety_constraints. intros Hv. peel Hv.
  destruct (truthy v0).
  - peel_all Hv. injection Hv as <-. right.
    destruct (py_eq_str v2 "CRITICAL"); action_of_now.
  - peel Hv. destruct (truthy v1).
    + peel Hv. destruct (truthy v2).
      * peel_all Hv. injection Hv as <-. right.
        destruct (py_eq_str v3 "CRITICAL"); action_of_now.
      * apply high_fatigue_shape in Hv as [->|Ha]; [now left|right].
        destruct Ha as (d & kind & sev & -> & Ht & Hk & [<-|[]] & Hs & [<-|[]]).
        exists d, "HIGH_FATIGUE", "HIGH". cbn. tauto.
    + apply high_fatigue_shape in Hv as [->|Ha]; [now left|right].
      destruct Ha as (d & kind & sev & -> & Ht & Hk & [<-|[]] & Hs & [<-|[]]).
      exists d, "HIGH_FATIGUE", "HIGH". cbn. tauto.
Qed.

Lemma energy_shape (model_results race_context : pydict) (v : pyval) :
  _check_energy_constraints model_results race_context = Ok v ->
  v = VNone \/ action_of ["DNF_RISK"] ["CRITICAL"] v
  \/ action_of ["LOW_ENERGY_MARGIN"] ["HIGH"] v.
Proof.
  unfold _check_energy_constraints. intros Hv. peel Hv.
  destruct (py_eq_num v0 0).
  - peel_all Hv. injection Hv as <-. right. left. action_of_now.
  - peel Hv. peel Hv. destruct v2.
    + peel_all Hv. injection Hv as <-. right. right. action_of_now.
    + injection Hv as <-. now left.
Qed.

Lemma performance_shape (model_results race_context : pydict)
  (safety_action energy_action v : pyval) :
  _recommend_performance_optimization model_results race_context
    safety_action energy_action = Ok v ->
  v = VNone \/
  (action_of ["PERFORMANCE_OPTIMIZATION"] ["NORMAL"] v /\
   truthy safety_action = false /\ truthy energy_action = false).
Proof.
  unfold _recommend_performance_optimization. intros Hv.
  destruct (truthy safety_action || truthy energy_action) eqn:Hgate.
  - injection Hv as <-. now left.
  - apply orb_false_elim in Hgate as [Hs He].
    peel_all Hv.
    match type of Hv with
    | match ?l with [] => _ | _ :: _ => _ end = _ => destruct l
    end.
    + injection Hv as <-. now left.
    + injection Hv as <-. right. split; [action_of_now | tauto].
Qed.

Lemma after_safety_inv (model_results race_context : pydict)
  (safety_action : pyval) (actions1 : list pyval)
  (severity1 decision : pyval) :
  cascade_after_safety model_results race_context safety_action
    actions1 severity1 = Ok decision ->
  exists energy_action performance_action n,
    _check_energy_constraints model_results race_context = Ok energy_action /\
    _recommend_performance_optimization model_results race_context
      safety_action energy_action = Ok performance_action /\
    count_alerts
      (actions1 ++ filter truthy [energy_action; performance_action]) = Ok n /\
    decision =
      consolidated
        (actions1 ++ filter truthy [energy_action; performance_action])
        (if truthy energy_action then VStr "WARNING" else severity1)
        race_context n.
Proof.
  unfold cascade_after_safety. intros Hd.
  apply bind_Ok in Hd as (ea & Hea & Hd).
  apply bind_Ok in Hd as ([actions2 severity2] & Hph2 & Hd).
  apply bind_Ok in Hd as (pa & Hpa & Hd).
  apply bind_Ok in Hd as (n & Hn & Hd).
  exists ea, pa, n. split; [exact Hea|]. split; [exact Hpa|].
  assert (Hacts : actions2 = actions1 ++ filter truthy [ea]
                  /\ severity2 = if truthy ea then VStr "WARNING" else severity1).
  { destruct (energy_shape _ _ _ Hea) as [->|Hact].
    - cbn in Hph2. injection Hph2 as <- <-. cbn. now rewrite app_nil_r.
    - assert (Hin : exists d sev, ea = VDict d /\ truthy ea = true /\
                dict_lookup d "severity" = Some (VStr sev) /\
                py_in_strs (VStr sev) ["CRITICAL"; "HIGH"] = true).
      { destruct Hact as [Hact|Hact];
          destruct Hact as (d & kind & sev & -> & Ht & _ & _ & Hs & [<-|[]]);
          exists d; eexists; repeat split; eauto. }
      destruct Hin as (d & sev & -> & Ht & Hs & Hin).
      rewrite Ht in Hph2. cbn [py_get bind] in Hph2.
      rewrite (dict_get_found _ _ _ _ Hs), Hin in Hph2.
      injection Hph2 as <- <-. cbn [filter]. rewrite Ht. tauto. }
  destruct Hacts as [-> ->].
  assert (Hall : (if truthy pa then (actions1 ++ filter truthy [ea]) ++ [pa]
                  else actions1 ++ filter truthy [ea])
                 = actions1 ++ filter truthy [ea; pa]).
  { cbn [filter]. destruct (truthy ea), (truthy pa); cbn;
      rewrite <- ?app_assoc, ?app_nil_r; reflexivity. }
  rewrite Hall in Hn, Hd. split; [exact Hn|].
  injection Hd as <-. reflexivity.
Qed.

(** Every decision the cascade returns is either the early safety return,
    for a safety action of severity CRITICAL, or the consolidation of the
    actions the three phases produced, in that order. *)
Lemma cascade_inv (model_results race_context : pydict) (decision : pyval) :
  apply_priority_cascade model_results race_context = Ok decision ->
  exists safety_action,
    _check_safety_constraints model_results race_context = Ok safety_action /\
    ((action_of safety_kinds ["CRITICAL"] safety_action /\
      decision = safety_override safety_action (VStr "CRITICAL"))
     \/
     ((safety_action = VNone \/ action_of safety_kinds ["HIGH"] safety_action) /\
      exists energy_action performance_action n,
        _check_energy_constraints model_results race_context
          = Ok energy_action /\
        _recommend_performance_optimization model_results race_context
          safety_action energy_action = Ok performance_action /\
        count_alerts
          (filter truthy [safety_action; energy_action; performance_action])
          = Ok n /\
        decision =
          consolidated
            (filter truthy [safety_action; energy_action; performance_action])
            (if truthy energy_action then VStr "WARNING"
             else if truthy safety_action then VStr "HIGH"
             else VStr "NORMAL")
            race_context n)).
Proof.
  unfold apply_priority_cascade. intros Hd.
  apply bind_Ok in Hd as (sa & Hsa & Hd).
  exists sa. split; [exact Hsa|].
  destruct (safety_shape _ _ _ Hsa) as [->|Hact].
  - right. split; [now left|]. cbn [truthy] in Hd.
    apply after_safety_inv in Hd as (ea & pa & n & He & Hp & Hn & ->).
    exists ea, pa, n. cbn [filter truthy]. cbn [app] in Hn. tauto.
  - destruct Hact as (d & kind & sev & -> & Ht & Hk & Hkin & Hs & Hsev).
    rewrite Ht in Hd. cbn [py_get bind] in Hd.
    rewrite (dict_get_found _ _ _ _ Hs) in Hd.
    destruct Hsev as [<-|[<-|[]]].
    + left. cbn in Hd. injection Hd as <-. split; [|reflexivity].
      exists d, kind, "CRITICAL". cbn [In]. tauto.
    + right. split.
      { right. exists d, kind, "HIGH". cbn [In]. tauto. }
      cbn [py_in_strs existsb py_eq_str String.eqb Ascii.eqb Bool.eqb orb] in Hd.
      apply after_safety_inv in Hd as (ea & pa & n & He & Hp & Hn & ->).
      exists ea, pa, n. cbn [filter]. rewrite Ht. cbn [app] in *. tauto.
Qed.

Lemma action_of_other_kind (kinds sevs : list string) (kind : string)
  (v : pyval) :
  action_of kinds sevs v -> ~ In kind kinds -> has_kind kind v = false.
Proof.
  intros (d & k & sev & -> & _ & Hk & Hin & _) Hnot.
  unfold has_kind, action_kind, field. rewrite Hk. cbn.
  apply String.eqb_neq. intros ->. contradiction.
Qed.

Lemma action_of_truthy (kinds sevs : list string) (v : pyval) :
  action_of kinds sevs v -> truthy v = true.
Proof. intros (d & k & sev & _ & Ht & _). exact Ht. Qed.

Lemma safety_not_performance (model_results race_context : pydict)
  (v : pyval) :
  _check_safety_constraints model_results race_context = Ok v ->
  has_kind "PERFORMANCE_OPTIMIZATION" v = false.
Proof.
  intros Hv. destruct (safety_shape _ _ _ Hv) as [->|Ha]; [reflexivity|].
  apply (action_of_other_kind _ _ _ _ Ha). cbn.
  intros [E|[E|[E|[]]]]; discriminate E.
Qed.

Lemma energy_not_performance (model_results race_context : pydict)
  (v : pyval) :
  _check_energy_constraints model_results race_context = Ok v ->
  has_kind "PERFORMANCE_OPTIMIZATION" v = false.
Proof.
  intros Hv. destruct (energy_shape _ _ _ Hv) as [->|[Ha|Ha]];
    [reflexivity| |];
    apply (action_of_other_kind _ _ _ _ Ha); cbn;
    intros [E|[]]; discriminate E.
Qed.

(** An energy entry that says the vehicle will not finish, or whose margin
    compares below 10, makes Phase 2 return an action. *)
Lemma energy_fires (model_results race_context e : pydict) :
  dict_lookup model_results "energy" = Some (VDict e) ->
  dict_get e "will_finish" VNone = VBool false \/
  py_lt (dict_get e "margin" VNone) 10 = Ok true ->
  exists energy_action,
    _check_energy_constraints model_results race_context = Ok energy_action /\
    truthy energy_action = true.
Proof.
  intros He Hcond. unfold _check_energy_constraints.
  rewrite (dict_get_found _ _ _ _ He). cbn [py_get bind].
  destruct (py_eq_num (dict_get e "will_finish" VNone) 0) eqn:Hwf.
  - eexists. split; reflexivity.
  - destruct Hcond as [Hfalse|Hlow].
    + rewrite Hfalse in Hwf. discriminate Hwf.
    + rewrite Hlow. cbn [bind]. unfold py_format_1f.
      unfold py_lt in Hlow.
      destruct (py_num (dict_get e "margin" VNone)); [|discriminate Hlow].
      cbn [bind]. eexists. split; reflexivity.
Qed.

(** C3. In every decision the cascade returns, a PERFORMANCE_OPTIMIZATION
    action is among the actions only if Phase 1 and Phase 2 both returned
    no action at all; and when the energy entry has [will_finish] false or a
    margin below 10, no action of the decision is a
    PERFORMANCE_OPTIMIZATION. *)
Theorem performance_gated_by_safety_and_energy
  (model_results race_context : pydict) (decision : pyval) :
  apply_priority_cascade model_results race_context = Ok decision ->
  ((exists act, In act (all_actions decision) /\
                has_kind "PERFORMANCE_OPTIMIZATION" act = true) ->
   _check_safety_constraints model_results race_context = Ok VNone /\
   _check_energy_constraints model_results race_context = Ok VNone) /\
  (forall e,
     dict_lookup model_results "energy" = Some (VDict e) ->
     dict_get e "will_finish" VNone = VBool false \/
     py_lt (dict_get e "margin" VNone) 10 = Ok true ->
     forall act, In act (all_actions decision) ->
                 has_kind "PERFORMANCE_OPTIMIZATION" act = false).
Proof.
  intros Hd.
  destruct (cascade_inv _ _ _ Hd) as (sa & Hsa & Hcases).
  pose proof (safety_not_performance _ _ _ Hsa) as Hsk.
  destruct Hcases as [[Hcrit ->]|[Hnon (ea & pa & n & Hea & Hpa & Hn & ->)]].
  - split.
    + intros (act & [<-|[]] & Hp). congruence.
    + intros e _ _ act [<-|[]]. exact Hsk.
  - pose proof (energy_not_performance _ _ _ Hea) as Hek.
    cbn [all_actions consolidated dict_lookup String.eqb Ascii.eqb Bool.eqb].
    split.
    + intros (act & Hin & Hp).
      apply filter_In in Hin as [Hin Htr].
      destruct Hin as [<-|[<-|[<-|[]]]]; [congruence|congruence|].
      destruct (performance_shape _ _ _ _ _ Hpa) as [->|(_ & Hs & He)];
        [discriminate Htr|].
      split.
      * destruct Hnon as [->|Ha]; [exact Hsa|].
        apply action_of_truthy in Ha. congruence.
      * destruct (energy_shape _ _ _ Hea) as [->|[Ha|Ha]]; [exact Hea| |];
          apply action_of_truthy in Ha; congruence.
    + intros e He Hcond act Hin.
      destruct (energy_fires _ race_context _ He Hcond) as (ea' & Hea' & Ht).
      assert (ea' = ea) as -> by congruence.
      apply filter_In in Hin as [Hin Htr].
      destruct Hin as [<-|[<-|[<-|[]]]]; [exact Hsk|exact Hek|].
      destruct (performance_shape _ _ _ _ _ Hpa) as [->|(_ & _ & He')];
        [reflexivity|congruence].
Qed.

(** C10. With no anomaly detected and a fatigue entry whose
    [medical_alerts] is a non-empty list, Phase 1 returns the MEDICAL_ALERT
    action built from the first alert alone: severity CRITICAL exactly when
    that alert's severity is ["CRITICAL"] and HIGH otherwise, recommendation
    and reason read from that alert.  The later alerts do not enter the
    result, so a CRITICAL alert behind a first alert that is not CRITICAL
    gives HIGH. *)
Theorem medical_alert_from_first_alert
  (model_results race_context f alert : pydict) (later : list pyval) :
  no_anomaly model_results ->
  dict_lookup model_results "fatigue" = Some (VDict f) ->
  dict_lookup f "medical_alerts" = Some (VList (VDict alert :: later)) ->
  _check_safety_constraints model_results race_context
    = Ok (medical_alert_action alert) /\
  action_kind (medical_alert_action alert) = Some (VStr "MEDICAL_ALERT") /\
  (field "severity" (medical_alert_action alert) = Some (VStr "CRITICAL")
   <-> dict_get alert "severity" VNone = VStr "CRITICAL") /\
  (dict_get alert "severity" VNone <> VStr "CRITICAL" ->
   field "severity" (medical_alert_action alert) = Some (VStr "HIGH")) /\
  field "recommendation" (medical_alert_action alert)
    = Some (dict_get alert "action" VNone) /\
  field "reason" (medical_alert_action alert)
    = Some (dict_get alert "alert" VNone).
Proof.
  intros (detected & Hget & Hfalsy) Hfat Halerts.
  assert (Hcrit : forall v, py_eq_str v "CRITICAL" = true <-> v = VStr "CRITICAL").
  { intros v. destruct v; cbn; try (split; [discriminate|discriminate]).
    rewrite String.eqb_eq. split; [intros ->; reflexivity|].
    intros E. injection E as ->. reflexivity. }
  split.
  - unfold _check_safety_constraints. rewrite Hget. cbn [bind].
    rewrite Hfalsy. rewrite (dict_get_found _ _ _ _ Hfat).
    cbn [py_get bind]. rewrite !(dict_get_found _ _ _ _ Halerts).
    reflexivity.
  - split; [reflexivity|]. cbn [medical_alert_action field dict_lookup
      String.eqb Ascii.eqb Bool.eqb].
    destruct (py_eq_str (dict_get alert "severity" VNone) "CRITICAL") eqn:E.
    + apply Hcrit in E. repeat split; auto; congruence.
    + assert (Hne : dict_get alert "severity" VNone <> VStr "CRITICAL").
      { intros E'. apply Hcrit in E'. congruence. }
      repeat split; auto; try discriminate; try contradiction.
Qed.

Lemma count_alerts_spec (actions : list pyval) (n : Z) :
  count_alerts actions = Ok n ->
  n = Z.of_nat (length (filter alerting actions)).
Proof.
  revert n. induction actions as [|a rest IH]; intros n Hn.
  - cbn in *. congruence.
  - cbn [count_alerts] in Hn.
    apply bind_Ok in Hn as (b & Hb & Hn).
    apply bind_Ok in Hn as (m & Hm & Hn).
    assert (Hnm : n = if b then (1 + m)%Z else m) by congruence.
    specialize (IH m Hm).
    unfold is_alert in Hb. apply bind_Ok in Hb as (sev & Hsev & Hb).
    assert (Hbs : b = py_in_strs sev ["CRITICAL"; "HIGH"; "WARNING"])
      by congruence.
    assert (Hal : alerting a = b).
    { destruct a; try discriminate Hsev.
      unfold py_get in Hsev. unfold alerting, field.
      unfold dict_get in Hsev.
      destruct (dict_lookup d "severity") as [sev'|].
      - congruence.
      - assert (sev = VNone) by congruence. subst sev. rewrite Hbs.
        reflexivity. }
    cbn [filter]. rewrite Hal, Hnm.
    destruct b; cbn [length]; lia.
Qed.

(** What does hold of the consolidation: the primary action is the first
    action produced, or NORMAL_OPERATION with severity NORMAL when there is
    none; and the ordinary return counts its alerts. *)
Lemma decision_primary_and_count (model_results race_context : pydict)
  (decision : pyval) :
  apply_priority_cascade model_results race_context = Ok decision ->
  field "primary_action" decision
    = Some (match all_actions decision with
            | a :: _ => a
            | [] => VDict [("action", VStr "NORMAL_OPERATION")]
            end) /\
  (all_actions decision = [] ->
   field "severity" decision = Some (VStr "NORMAL")) /\
  (field "cascade_actions" decision <> None ->
   field "count_alerts" decision
     = Some (VInt (Z.of_nat (length (filter alerting (all_actions decision)))))).
Proof.
  intros Hd.
  destruct (cascade_inv _ _ _ Hd) as (sa & Hsa & Hcases).
  destruct Hcases as [[Hcrit ->]|[Hnon (ea & pa & n & Hea & Hpa & Hn & ->)]].
  - cbn. repeat split; congruence.
  - apply count_alerts_spec in Hn. subst n.
    cbn [consolidated all_actions field dict_lookup String.eqb Ascii.eqb
         Bool.eqb].
    split; [reflexivity|]. split; [|reflexivity].
    intros Hnil. cbn [filter] in Hnil.
    destruct (truthy sa) eqn:Hs; [discriminate Hnil|].
    destruct (truthy ea) eqn:He; [discriminate Hnil|]. reflexivity.
Qed.

(** What does hold of Phase 2 and the severity: once Phase 2 returns an
    action, the ordinary return carries severity WARNING -- whatever Phase 1
    had established. *)
Lemma energy_action_sets_warning (model_results race_context : pydict)
  (decision energy_action : pyval) :
  apply_priority_cascade model_results race_context = Ok decision ->
  field "cascade_actions" decision <> None ->
  _check_energy_constraints model_results race_context = Ok energy_action ->
  truthy energy_action = true ->
  field "severity" decision = Some (VStr "WARNING").
Proof.
  intros Hd Hord Hea Ht.
  destruct (cascade_inv _ _ _ Hd) as (sa & Hsa & Hcases).
  destruct Hcases as [[Hcrit ->]|[Hnon (ea & pa & n & Hea' & Hpa & Hn & ->)]].
  - cbn in Hord. congruence.
  - assert (ea = energy_action) as -> by congruence.
    cbn. rewrite Ht. reflexivity.
Qed.

(** Phase 2 on a result set without an energy entry. *)
Lemma absent_energy_raises (model_results race_context : pydict) :
  dict_lookup model_results "energy" = None ->
  _check_energy_constraints model_results race_context = Raise TypeError.
Proof.
  intros Hnone. unfold _check_energy_constraints.
  rewrite (dict_get_missing _ _ _ Hnone). reflexivity.
Qed.

Lemma py_lt_number (v : pyval) (c : Q) :
  is_number v -> exists b, py_lt v c = Ok b.
Proof.
  intros [x Hx]. unfold py_lt. rewrite Hx.
  destruct x as [q|negative|]; eauto.
Qed.

Lemma py_gt_number (v : pyval) (c : Q) :
  is_number v -> exists b, py_gt v c = Ok b.
Proof.
  intros [x Hx]. unfold py_gt. rewrite Hx.
  destruct x as [q|negative|]; eauto.
Qed.

Lemma safety_returns (model_results race_context : pydict) :
  well_formed_results model_results ->
  exists v, _check_safety_constraints model_results race_context = Ok v.
Proof.
  intros ([a Ha] & (f & Hf & Halerts) & _).
  unfold _check_safety_constraints, entry in *. rewrite Ha, Hf.
  cbn [py_get bind].
  destruct (truthy (dict_get a "anomaly_detected" VNone)); [eauto|].
  assert (Hhf : exists v, high_fatigue_check (VDict f) = Ok v).
  { unfold high_fatigue_check. cbn [py_get bind].
    destruct (py_eq_num (dict_get f "fatigue_level" VNone) 3); eauto. }
  destruct (truthy (dict_get f "medical_alerts" VNone)) eqn:Hpresent;
    [|exact Hhf].
  destruct (Halerts eq_refl) as (alert & later & Hlist).
  assert (Hsame : dict_get f "medical_alerts" (VList [])
                  = VList (VDict alert :: later)).
  { unfold dict_get in *.
    destruct (dict_lookup f "medical_alerts"); [exact Hlist|discriminate]. }
  rewrite Hsame. cbn. eauto.
Qed.

Lemma energy_returns (model_results race_context : pydict) :
  well_formed_results model_results ->
  exists v, _check_energy_constraints model_results race_context = Ok v.
Proof.
  intros (_ & _ & (e & He & Hmargin) & _).
  unfold _check_energy_constraints, entry in *. rewrite He.
  cbn [py_get bind].
  destruct (py_eq_num (dict_get e "will_finish" VNone) 0) eqn:Hwf; [eauto|].
  destruct Hmargin as [Hf|Hnum]; [discriminate Hf|].
  destruct (py_lt_number _ 10 Hnum) as [low Hlow]. rewrite Hlow.
  cbn [bind]. destruct low; [|eauto].
  unfold py_format_1f. destruct Hnum as [x ->]. cbn [bind]. eauto.
Qed.

Lemma performance_returns (model_results race_context : pydict)
  (safety_action energy_action : pyval) :
  well_formed_results model_results ->
  exists v,
    _recommend_performance_optimization model_results race_context
      safety_action energy_action = Ok v.
Proof.
  intros (_ & _ & _ & (r & Hr & Hconf) & (g & Hg & Hgain) & (c & Hc & Hslip)).
  unfold _recommend_performance_optimization, entry in *.
  destruct (truthy safety_action || truthy energy_action); [eauto|].
  rewrite Hr, Hg, Hc. cbn [py_get bind].
  destruct (py_gt_number _ float_0_7 Hconf) as [b1 ->].
  destruct (py_gt_number _ 2 Hgain) as [b2 ->]. cbn [bind].
  assert (Hend : forall acts : list pyval,
            exists v,
              match acts with
              | [] => Ok VNone
              | _ :: _ =>
                  Ok (VDict [("action", VStr "PERFORMANCE_OPTIMIZATION");
                             ("severity", VStr "NORMAL");
                             ("phase_specific_recommendations", VList acts);
                             ("race_phase",
                              dict_get race_context "race_phase"
                                (VStr "UNKNOWN"))])
              end = Ok v)
    by (intros [|x acts]; eauto).
  destruct b1, b2; cbn [bind];
    (destruct (truthy (dict_get c "slip_detected" VNone)) eqn:Hs;
     [cbn [bind]; apply Hend|]);
    (destruct Hslip as [Hs'|Hnum]; [congruence|]);
    destruct (py_gt_number (dict_get c "optimal_coast_ratio" (VInt 0)) 50
                Hnum) as [b3 Hb3];
    rewrite Hb3; cbn [bind];
    destruct b3; cbn [bind app]; first [apply Hend | eauto].
Qed.

Lemma count_alerts_returns (actions : list pyval) :
  (forall a, In a actions -> exists d, a = VDict d) ->
  exists n, count_alerts actions = Ok n.
Proof.
  induction actions as [|a rest IH]; intros Hdicts; [cbn; eauto|].
  destruct (Hdicts a (or_introl eq_refl)) as [d ->].
  destruct IH as [n Hn]; [intros; apply Hdicts; now right|].
  cbn [count_alerts is_alert py_get bind]. rewrite Hn. cbn [bind]. eauto.
Qed.

(** What does hold of totality: on a well-formed result set -- one with an
    energy entry that carries its margin, in particular -- the cascade
    returns a decision for every race context. *)
Lemma cascade_returns (model_results race_context : pydict) :
  well_formed_results model_results ->
  exists decision,
    apply_priority_cascade model_results race_context = Ok decision.
Proof.
  intros Hwf.
  destruct (safety_returns _ race_context Hwf) as [sa Hsa].
  destruct (energy_returns _ race_context Hwf) as [ea Hea].
  destruct (performance_returns _ race_context sa ea Hwf) as [pa Hpa].
  assert (Hdict : forall v kinds sevs, action_of kinds sevs v ->
                                       exists d, v = VDict d).
  { intros v kinds sevs (d & _ & _ & -> & _). eauto. }
  assert (Hsa_d : truthy sa = true -> exists d, sa = VDict d).
  { destruct (safety_shape _ _ _ Hsa) as [->|Ha]; [discriminate|eauto]. }
  assert (Hea_d : truthy ea = true -> exists d, ea = VDict d).
  { destruct (energy_shape _ _ _ Hea) as [->|[Ha|Ha]]; [discriminate| |];
      eauto. }
  assert (Hpa_d : truthy pa = true -> exists d, pa = VDict d).
  { destruct (performance_shape _ _ _ _ _ Hpa) as [->|[Ha _]];
      [discriminate|eauto]. }
  assert (Htail : forall actions1 severity1,
            (forall a, In a actions1 -> exists d, a = VDict d) ->
            exists decision,
              cascade_after_safety model_results race_context sa
                actions1 severity1 = Ok decision).
  { intros actions1 severity1 Hacts. unfold cascade_after_safety.
    rewrite Hea. cbn [bind].
    destruct (truthy ea) eqn:Hte.
    - destruct (Hea_d eq_refl) as [d ->]. cbn [py_get bind].
      rewrite Hpa. cbn [bind].
      destruct (count_alerts_returns
                  (if truthy pa then (actions1 ++ [VDict d]) ++ [pa]
                   else actions1 ++ [VDict d])) as [n ->]; [|cbn; eauto].
      intros a Hin. destruct (truthy pa) eqn:Htp.
      + apply in_app_or in Hin as [Hin|[<-|[]]]; [|now apply Hpa_d].
        apply in_app_or in Hin as [Hin|[<-|[]]]; eauto.
      + apply in_app_or in Hin as [Hin|[<-|[]]]; eauto.
    - cbn [bind]. rewrite Hpa. cbn [bind].
      destruct (count_alerts_returns
                  (if truthy pa then actions1 ++ [pa] else actions1))
        as [n ->]; [|cbn; eauto].
      intros a Hin. destruct (truthy pa) eqn:Htp; [|eauto].
      apply in_app_or in Hin as [Hin|[<-|[]]]; eauto. }
  unfold apply_priority_cascade. rewrite Hsa. cbn [bind].
  destruct (truthy sa) eqn:Hts.
  - destruct (Hsa_d eq_refl) as [d ->]. cbn [py_get bind].
    destruct (py_in_strs (dict_get d "severity" (VStr "WARNING"))
                ["CRITICAL"; "EMERGENCY"]); [eauto|].
    apply Htail. intros a [<-|[]]. eauto.
  - apply Htail. intros a [].
Qed.

End CascadeFacts.

(** ** The cascade on concrete result sets *)

(** Scenario: a CRITICAL anomaly together with an energy entry that says the
    vehicle will not finish. *)
Example critical_anomaly_and_dnf :
  let decision :=
    apply_priority_cascade
      [("anomaly", VDict [("anomaly_detected", VBool true);
                          ("anomaly_type", VStr "OVERHEATING");
                          ("severity", VStr "CRITICAL")]);
       ("energy", VDict [("will_finish", VBool false)])]
      [("race_phase", VStr "MID")] in
  match decision with
  | Ok d =>
      field "severity" d = Some (VStr "CRITICAL") /\
      length (all_actions d) = 1%nat /\
      map action_kind (all_actions d) = [Some (VStr "ANOMALY_DETECTED")]
  | Raise _ => False
  end.
Proof. cbn. repeat split. Qed.

(** Scenario: nothing wrong, a comfortable margin, a confident racing line
    and a worthwhile efficiency gain. *)
Example all_clear_optimizes :
  let decision :=
    apply_priority_cascade
      [("energy", VDict [("will_finish", VBool true);
                         ("margin", VFloat (FFin 35))]);
       ("anomaly", VDict [("anomaly_detected", VBool false)]);
       ("fatigue", VDict [("fatigue_level", VInt 1)]);
       ("racing_line", VDict [("confidence", VFloat (FFin (79 # 100)))]);
       ("efficiency", VDict [("efficiency_gain", VFloat (FFin (23 # 10)))])]
      [("race_phase", VStr "EARLY")] in
  match decision with
  | Ok d =>
      field "severity" d = Some (VStr "NORMAL") /\
      option_map action_kind (field "primary_action" d)
        = Some (Some (VStr "PERFORMANCE_OPTIMIZATION")) /\
      field "count_alerts" d = Some (VInt 0)
  | Raise _ => False
  end.
Proof. vm_compute. repeat split. Qed.

(** ** Result sets without a usable energy entry *)

(** C2, evaluated.  The telemetry passes [validate_telemetry]; the energy
    model is not loaded, so the result set has no energy entry; Phase 2 then
    compares [None] with 10 and the [TypeError] leaves both
    [apply_priority_cascade] and [run_real_time_inference].  The same
    happens for an energy entry that lacks its margin. *)
Theorem missing_margin_raises :
  validate_telemetry minimal_telemetry = true /\
  (* energy model not loaded *)
  dict_keys (results (schedule engine_without_energy light_overhead 0 minimal_telemetry 100))
    = ["anomaly"; "fatigue"] /\
  returned (run_real_time_inference engine_without_energy light_overhead 0
              minimal_telemetry [] 100) = Raise TypeError /\
  (* energy predictor skipped by a 15 ms budget *)
  attempted (schedule steady_engine light_overhead 0 minimal_telemetry 15)
    = ["anomaly"; "fatigue"] /\
  returned (run_real_time_inference steady_engine light_overhead 0
              minimal_telemetry [] 15) = Raise TypeError /\
  (* energy predictor raises *)
  attempted (schedule failing_engine light_overhead 0 minimal_telemetry 100)
    = priority_order /\
  returned (run_real_time_inference failing_engine light_overhead 0
              minimal_telemetry [] 100) = Raise TypeError /\
  (* the cascade on an absent and on a partial energy entry *)
  apply_priority_cascade [] [] = Raise TypeError /\
  apply_priority_cascade
    [("energy", VDict [("will_finish", VBool true)])] [] = Raise TypeError.
Proof. vm_compute. repeat split. Qed.

(** ** Overall severity after an energy action *)

(** C5, evaluated.  Phase 1 establishes severity HIGH; Phase 2 produces a
    CRITICAL action; the decision ends with severity WARNING, below the HIGH
    already established. *)
Theorem energy_action_lowers_high_severity :
  exists safety_action energy_action decision,
    _check_safety_constraints high_anomaly_and_dnf [] = Ok safety_action /\
    field "severity" safety_action = Some (VStr "HIGH") /\
    _check_energy_constraints high_anomaly_and_dnf [] = Ok energy_action /\
    field "severity" energy_action = Some (VStr "CRITICAL") /\
    apply_priority_cascade high_anomaly_and_dnf [] = Ok decision /\
    all_actions decision = [safety_action; energy_action] /\
    field "severity" decision = Some (VStr "WARNING") /\
    (severity_rank (VStr "WARNING") < severity_rank (VStr "HIGH"))%Z.
Proof. do 3 eexists. vm_compute. repeat split. Qed.

(** ** The alert count *)

(** C8, evaluated.  On the early safety return one action was produced and
    it is an alert, yet the decision has no ["count_alerts"] entry (nor a
    ["cascade_actions"] one); the ordinary return carries both. *)
Theorem early_return_has_no_alert_count :
  exists decision,
    apply_priority_cascade critical_anomaly_only [] = Ok decision /\
    length (filter alerting (all_actions decision)) = 1%nat /\
    field "count_alerts" decision = None /\
    field "cascade_actions" decision = None /\
    exists ordinary,
      apply_priority_cascade high_anomaly_and_dnf [] = Ok ordinary /\
      field "count_alerts" ordinary = Some (VInt 2).
Proof. eexists. vm_compute. repeat split. eexists. repeat split. Qed.

(** ** Rounding and the budget *)

Lemma pow2_pos (k : Z) : 0 < pow2 k.
Proof.
  unfold pow2. destruct (0 <=? k)%Z eqn:Hk.
  - apply Z.leb_le in Hk.
    assert (Hp : (0 < 2 ^ k)%Z) by (apply Z.pow_pos_nonneg; lia).
    unfold Qlt, inject_Z. cbn. lia.
  - apply Z.leb_gt in Hk.
    assert (Hp : (0 < 2 ^ (- k))%Z) by (apply Z.pow_pos_nonneg; lia).
    apply Qlt_shift_div_l.
    + unfold Qlt, inject_Z. cbn. lia.
    + unfold Qlt, inject_Z. cbn. lia.
Qed.

Lemma round_half_even_nonneg (q : Q) : 0 <= q -> (0 <= round_half_even q)%Z.
Proof.
  intros Hq. unfold round_half_even.
  assert (Hn : (0 <= Qnum q)%Z) by (unfold Qle in Hq; cbn in Hq; lia).
  assert (Hfl : (0 <= Qnum q / Z.pos (Qden q))%Z)
    by (apply Z.div_pos; lia).
  repeat match goal with
         | |- context [if ?b then _ else _] => destruct b
         end; lia.
Qed.

(** Rounding keeps the sign. *)
Lemma round_to_double_sign (q : Q) :
  (0 <= q -> 0 <= round_to_double q) /\ (q <= 0 -> round_to_double q <= 0).
Proof.
  unfold round_to_double.
  destruct (Qeq_bool q 0) eqn:Hz; [split; intros _; apply Qle_refl|].
  set (ulp := pow2 (Z.max (binade (Qabs q) - 52) (-1074))).
  assert (Hulp : 0 < ulp) by apply pow2_pos.
  assert (Hm : (0 <= round_half_even (Qabs q / ulp))%Z).
  { apply round_half_even_nonneg. apply Qle_shift_div_l; [exact Hulp|].
    rewrite Qmult_0_l. apply Qabs_nonneg. }
  assert (Hr : 0 <= inject_Z (round_half_even (Qabs q / ulp)) * ulp).
  { apply Qmult_le_0_compat; [|apply Qlt_le_weak; exact Hulp].
    unfold Qle, inject_Z. cbn. lia. }
  destruct (Qlt_bool q 0) eqn:Hneg.
  - apply Qlt_bool_iff in Hneg. split; intros Hq; lra.
  - split; [intros _; exact Hr|]. intros Hq.
    destruct (Qlt_le_dec q 0) as [Hlt|Hge].
    + apply Qlt_bool_iff in Hlt. congruence.
    + assert (Heq : q == 0) by lra.
      apply Qeq_bool_iff in Heq. congruence.
Qed.

(** The budget has the sign of the timeout, zero included. *)
Lemma budget_sign (timeout_ms : Z) :
  ((0 <= timeout_ms)%Z -> 0 <= budget timeout_ms) /\
  ((timeout_ms <= 0)%Z -> budget timeout_ms <= 0).
Proof.
  unfold budget.
  set (x := round_to_double (inject_Z timeout_ms)).
  split; intros Ht.
  - assert (Hx : 0 <= x).
    { apply (proj1 (round_to_double_sign _)).
      unfold Qle, inject_Z. cbn. lia. }
    apply (proj1 (round_to_double_sign _)).
    apply Qle_shift_div_l; lra.
  - assert (Hx : x <= 0).
    { apply (proj2 (round_to_double_sign _)).
      unfold Qle, inject_Z. cbn. lia. }
    apply (proj2 (round_to_double_sign _)).
    apply Qle_shift_div_r; lra.
Qed.

(** The budgets of some timeouts, as Python computes them: [100 / 1000.0]
    is the double nearest to one tenth, and so on; [2 ** 1024] is the first
    [int] that has no double. *)
Lemma budget_values :
  budget 100 == 3602879701896397 # 36028797018963968 /\
  budget 75 == 5404319552844595 # 72057594037927936 /\
  budget 15 == 1080863910568919 # 72057594037927936 /\
  budget 1 == 1152921504606847 # 1152921504606846976 /\
  budget (-3) == - (3458764513820541 # 1152921504606846976) /\
  budget 0 == 0 /\
  float_overflows 100 = false /\
  float_overflows (2 ^ 1024 - 2 ^ 970 - 1) = false /\
  float_overflows (2 ^ 1024 - 2 ^ 970) = true.
Proof. vm_compute. repeat split; intros; discriminate. Qed.

(** The budget check is inclusive, and it is made against the double: with
    the default timeout a first call that takes the double nearest to one
    tenth of a second, more than one tenth, still leaves the second
    predictor its turn. *)
Lemma elapsed_equal_to_the_budget_goes_on :
  1 # 10 < latency tenth_engine minimal_telemetry "anomaly" /\
  latency tenth_engine minimal_telemetry "anomaly" == budget 100 /\
  attempted (schedule tenth_engine unseen_overhead 0 minimal_telemetry 100)
  = ["anomaly"; "fatigue"].
Proof. vm_compute. repeat split; intros; discriminate. Qed.

(** ** The scheduler *)

Lemma dict_keys_set (d : pydict) (k : string) (v : pyval) (n : string) :
  In n (dict_keys (dict_set d k v)) <-> n = k \/ In n (dict_keys d).
Proof.
  unfold dict_keys. induction d as [|[k' v'] d IH]; cbn.
  - intuition congruence.
  - destruct (String.eqb_spec k k') as [->|Hne]; cbn.
    + intuition congruence.
    + rewrite IH. intuition congruence.
Qed.

Lemma dispatch_snd (self : InferenceEngine) (t : telemetry) (name : string) :
  dispatch self name t = (fst (dispatch self name t), latency self t name).
Proof. unfold latency. now destruct (dispatch self name t). Qed.

(** The loop starts exactly the predictors [started] counts, and stores
    results only for predictors it started and whose result is truthy. *)
Lemma run_models_spec (self : InferenceEngine) (oh : overhead) (t : telemetry)
  (start_time inference_budget : Q) (order : list string) :
  forall st : sched,
    let st' := run_models self oh t start_time inference_budget order st in
    let k := started (map (turn_of self oh t) order) (now st) start_time
               inference_budget in
    attempted st' = attempted st ++ firstn k order /\
    (forall n, In n (dict_keys (results st')) ->
       In n (dict_keys (results st)) \/
       (In n (firstn k order) /\ truthy (fst (dispatch self n t)) = true)).
Proof.
  induction order as [|name rest IH]; intros st; cbn zeta.
  - cbn. rewrite app_nil_r. auto.
  - cbn [run_models map started turn_of wait lag call].
    destruct (Qlt_bool inference_budget
                (now st + before_check oh name - start_time)).
    + cbn. rewrite app_nil_r. auto.
    + rewrite (dispatch_snd self t name).
      destruct (truthy (fst (dispatch self name t))) eqn:Htr.
      * match goal with
        | |- context [run_models _ _ _ _ _ rest ?s] =>
            destruct (IH s) as [Hatt Hres]
        end.
        cbn [now attempted results] in Hatt, Hres.
        split.
        -- rewrite Hatt. cbn [firstn]. rewrite <- app_assoc. reflexivity.
        -- intros n Hn. apply Hres in Hn as [Hn|[Hn Ht]].
           ++ apply dict_keys_set in Hn as [->|Hn]; [right|now left].
              split; [now left|exact Htr].
           ++ right. split; [now right|exact Ht].
      * match goal with
        | |- context [run_models _ _ _ _ _ rest ?s] =>
            destruct (IH s) as [Hatt Hres]
        end.
        cbn [now attempted results] in Hatt, Hres.
        split.
        -- rewrite Hatt. cbn [firstn]. rewrite <- app_assoc. reflexivity.
        -- intros n Hn. apply Hres in Hn as [Hn|[Hn Ht]]; [now left|].
           right. split; [now right|exact Ht].
Qed.

Lemma Qlt_bool_false (a b : Q) : b <= a -> Qlt_bool a b = false.
Proof.
  intros Hle. destruct (Qlt_bool a b) eqn:E; [|reflexivity].
  apply Qlt_bool_iff in E. lra.
Qed.

Lemma Qlt_bool_false_inv (a b : Q) : Qlt_bool a b = false -> b <= a.
Proof.
  intros Hchk. destruct (Qlt_le_dec a b) as [Hlt|Hle]; [|exact Hle].
  apply Qlt_bool_iff in Hlt. congruence.
Qed.

Lemma at_last_check_one (a : turn) : at_last_check [a] == wait a.
Proof. unfold at_last_check. cbn. lra. Qed.

Lemma at_last_check_cons (a b : turn) (rest : list turn) :
  at_last_check (a :: b :: rest)
  == turn_seconds a + at_last_check (b :: rest).
Proof.
  unfold at_last_check.
  change (removelast (a :: b :: rest)) with (a :: removelast (b :: rest)).
  change (last (a :: b :: rest)) with (last (b :: rest)).
  cbn [map total fold_right].
  fold (total (map turn_seconds (removelast (b :: rest)))). lra.
Qed.

Lemma turn_seconds_nonneg (w : turn) : nonneg_turn w -> 0 <= turn_seconds w.
Proof. unfold nonneg_turn, turn_seconds. intros (? & ? & ?). lra. Qed.

Lemma at_last_check_nonneg (ws : list turn) :
  (forall w, In w ws -> nonneg_turn w) -> 0 <= at_last_check ws.
Proof.
  induction ws as [|a rest IH]; intros Hpos.
  - unfold at_last_check. cbn. lra.
  - assert (Ha : nonneg_turn a) by (apply Hpos; now left).
    destruct rest as [|b rest'].
    + rewrite at_last_check_one. apply Ha.
    + rewrite at_last_check_cons.
      pose proof (turn_seconds_nonneg a Ha).
      assert (0 <= at_last_check (b :: rest'))
        by (apply IH; intros; apply Hpos; now right).
      lra.
Qed.

(** The last budget check comes before the end of the last turn. *)
Lemma at_last_check_le_total (ws : list turn) :
  (forall w, In w ws -> nonneg_turn w) ->
  at_last_check ws <= total (map turn_seconds ws).
Proof.
  induction ws as [|a rest IH]; intros Hpos.
  - unfold at_last_check. cbn. lra.
  - assert (Ha : nonneg_turn a) by (apply Hpos; now left).
    destruct rest as [|b rest'].
    + rewrite at_last_check_one. cbn. unfold turn_seconds.
      destruct Ha as (? & ? & ?). lra.
    + rewrite at_last_check_cons.
      change (total (map turn_seconds (a :: b :: rest')))
        with (turn_seconds a + total (map turn_seconds (b :: rest'))).
      assert (at_last_check (b :: rest')
              <= total (map turn_seconds (b :: rest')))
        by (apply IH; intros; apply Hpos; now right).
      lra.
Qed.

(** Every predictor is started as soon as the budget covers the time up to
    the budget check of the last one. *)
Lemma started_all (ws : list turn) (start_time inference_budget : Q) :
  (forall w, In w ws -> nonneg_turn w) ->
  forall clock,
    (clock - start_time) + at_last_check ws <= inference_budget ->
    started ws clock start_time inference_budget = length ws.
Proof.
  induction ws as [|a rest IH]; intros Hpos clock Hfit; [reflexivity|].
  cbn [started length]. cbn zeta.
  assert (Hrest : forall w, In w rest -> nonneg_turn w)
    by (intros; apply Hpos; now right).
  assert (Ha : nonneg_turn a) by (apply Hpos; now left).
  destruct Ha as (Hw & Hl & Hc).
  destruct rest as [|b rest'].
  - rewrite at_last_check_one in Hfit.
    rewrite Qlt_bool_false by lra. reflexivity.
  - rewrite at_last_check_cons in Hfit. unfold turn_seconds in Hfit.
    pose proof (at_last_check_nonneg (b :: rest') Hrest) as Hlast.
    rewrite Qlt_bool_false by lra.
    f_equal. apply IH; [exact Hrest|]. lra.
Qed.

(** Conversely, if every predictor was started, the time up to the budget
    check of the last one fits in the budget. *)
Lemma started_all_inv (ws : list turn) (start_time inference_budget : Q) :
  forall clock,
    ws <> [] ->
    started ws clock start_time inference_budget = length ws ->
    (clock - start_time) + at_last_check ws <= inference_budget.
Proof.
  induction ws as [|a rest IH]; intros clock Hne Hall; [congruence|].
  cbn [started length] in Hall. cbn zeta in Hall.
  destruct (Qlt_bool inference_budget (clock + wait a - start_time)) eqn:Hchk;
    [discriminate Hall|].
  injection Hall as Hall.
  apply Qlt_bool_false_inv in Hchk.
  destruct rest as [|b rest'].
  - rewrite at_last_check_one. lra.
  - rewrite at_last_check_cons. unfold turn_seconds.
    specialize (IH (clock + wait a + lag a + call a) ltac:(discriminate) Hall).
    lra.
Qed.

Lemma started_le (ws : list turn) (clock start_time inference_budget : Q) :
  (started ws clock start_time inference_budget <= length ws)%nat.
Proof.
  revert clock. induction ws as [|a rest IH]; intros clock; cbn.
  - lia.
  - destruct (Qlt_bool inference_budget (clock + wait a - start_time)); [lia|].
    specialize (IH (clock + wait a + lag a + call a)). lia.
Qed.

Lemma firstn_whole {A : Type} (l : list A) (k : nat) :
  (k <= length l)%nat -> firstn k l = l -> k = length l.
Proof.
  intros Hle Heq. apply (f_equal (@length A)) in Heq.
  rewrite length_firstn in Heq. lia.
Qed.

Lemma schedule_spec (self : InferenceEngine) (oh : overhead) (clock : Q)
  (t : telemetry) (timeout_ms : Z) :
  let st := schedule self oh clock t timeout_ms in
  let k := started (turns self oh t) clock clock (budget timeout_ms) in
  attempted st = firstn k priority_order /\
  (forall n, In n (dict_keys (results st)) ->
     In n (firstn k priority_order) /\
     truthy (fst (dispatch self n t)) = true).
Proof.
  cbn zeta. unfold schedule, turns.
  match goal with
  | |- context [run_models _ _ _ _ _ _ ?s] =>
      destruct (run_models_spec self oh t clock (budget timeout_ms)
                  priority_order s) as [Hatt Hres]
  end.
  cbn [now attempted results app] in Hatt, Hres.
  split; [exact Hatt|].
  intros n Hn. destruct (Hres n Hn) as [[]|Hok]. exact Hok.
Qed.

(** For the eight predictors the last budget check is the one of the rank
    predictor: it comes after the seven turns before it and its own wait. *)
Lemma at_last_check_of_cycle (self : InferenceEngine) (oh : overhead)
  (t : telemetry) :
  at_last_check (turns self oh t)
  == total (map turn_seconds (firstn 7 (turns self oh t)))
     + before_check oh "rank".
Proof.
  unfold at_last_check, turns, priority_order.
  cbn [map removelast last firstn turn_of wait]. lra.
Qed.

(** The schedule in terms of the budget: all eight predictors are started
    exactly when the time up to the last budget check fits. *)
Lemma schedule_complete (self : InferenceEngine) (oh : overhead) (clock : Q)
  (t : telemetry) (timeout_ms : Z) :
  (forall w, In w (turns self oh t) -> nonneg_turn w) ->
  attempted (schedule self oh clock t timeout_ms) = priority_order
  <-> at_last_check (turns self oh t) <= budget timeout_ms.
Proof.
  intros Hpos.
  destruct (schedule_spec self oh clock t timeout_ms) as [Hatt _].
  cbn zeta in Hatt. rewrite Hatt.
  assert (Hlen : length (turns self oh t) = length priority_order)
    by (unfold turns; apply length_map).
  split.
  - intros Hall. apply firstn_whole in Hall.
    + assert (Hne : turns self oh t <> []) by (unfold turns; discriminate).
      pose proof (started_all_inv (turns self oh t) clock (budget timeout_ms)
                    clock Hne) as Hinv.
      rewrite Hall, Hlen in Hinv. specialize (Hinv eq_refl). lra.
    + rewrite <- Hlen. apply started_le.
  - intros Hfit.
    rewrite (started_all _ clock (budget timeout_ms) Hpos clock) by lra.
    rewrite Hlen. apply firstn_all.
Qed.

(** A wrapper whose model is missing or whose predictor raises answers
    [None] to the loop. *)
Lemma failing_dispatch (self : InferenceEngine) (t : telemetry)
  (name : string) :
  models self name = None \/
  (exists predict e,
     models self name = Some predict /\ pred_result (predict t) = Raise e) ->
  fst (run_guarded name self t) = VNone /\ fst (dispatch self name t) = VNone.
Proof.
  intros Hfail.
  assert (Hnone : fst (run_guarded name self t) = VNone).
  { unfold run_guarded.
    destruct Hfail as [->|(predict & e & -> & Hraise)]; [reflexivity|].
    rewrite Hraise. reflexivity. }
  assert (Hwith : forall evaluates,
             fst (run_guarded_with evaluates name self t) = VNone).
  { intros evaluates. unfold run_guarded_with.
    destruct (models self name); [|reflexivity].
    destruct (evaluates t); [exact Hnone|reflexivity]. }
  split; [exact Hnone|].
  unfold dispatch, _run_anomaly_inference, _run_fatigue_inference,
    _run_energy_inference, _run_h2_purge_inference,
    _run_racing_line_inference, _run_slip_coast_inference,
    _run_efficiency_inference, _run_rank_inference.
  repeat match goal with
         | |- context [String.eqb name ?s] =>
             destruct (String.eqb_spec name s) as [->|?];
               [first [exact Hnone|apply Hwith]|]
         end.
  reflexivity.
Qed.

Section SchedulerFacts.
Context `{PyFormat}.


(** C6.  A predictor whose model is not loaded, or whose call raises,
    answers [None] to the loop: nothing is raised, no entry is stored under
    its name, and the predictors invoked are the same as for any other
    outcome with the same latencies -- in particular all eight when the
    budget covers the time the eight turns take. *)
Theorem failing_predictor_is_omitted (self : InferenceEngine) (oh : overhead)
  (clock : Q) (t : telemetry) (timeout_ms : Z) (name : string) :
  models self name = None \/
  (exists predict e,
     models self name = Some predict /\ pred_result (predict t) = Raise e) ->
  let st := schedule self oh clock t timeout_ms in
  fst (run_guarded name self t) = VNone /\
  fst (dispatch self name t) = VNone /\
  ~ In name (dict_keys (results st)) /\
  attempted st
    = firstn (started (turns self oh t) clock clock (budget timeout_ms))
        priority_order /\
  ((forall w, In w (turns self oh t) -> nonneg_turn w) ->
   total (map turn_seconds (turns self oh t)) <= budget timeout_ms ->
   attempted st = priority_order).
Proof.
  intros Hfail. cbn zeta.
  destruct (failing_dispatch self t name Hfail) as [Hnone Hd].
  destruct (schedule_spec self oh clock t timeout_ms) as [Hatt Hres].
  cbn zeta in Hatt, Hres.
  split; [exact Hnone|]. split; [exact Hd|]. split.
  - intros Hin. destruct (Hres name Hin) as [Hord Htr].
    rewrite Hd in Htr. discriminate Htr.
  - split; [exact Hatt|].
    intros Hpos Hfit.
    apply (schedule_complete self oh clock t timeout_ms Hpos).
    pose proof (at_last_check_le_total _ Hpos). lra.
Qed.

End SchedulerFacts.

(** ** Telemetry validation and the fallback *)

Section FallbackFacts.
Context `{PyFormat}.

Lemma invalid_telemetry_falls_back (self : InferenceEngine) (oh : overhead)
  (clock : Q)
  (t : telemetry) (race_context : pydict) (timeout_ms : Z) :
  validate_telemetry t = false ->
  run_real_time_inference self oh clock t race_context timeout_ms
  = {| returned := Ok (_generate_fallback_response "Invalid telemetry");
       engine_after := self; invoked := [] |}.
Proof. intros Hv. unfold run_real_time_inference. now rewrite Hv. Qed.


(** What does hold of a valid cycle: when the results the scheduler
    collected are well formed, the cycle returns the decision of the cascade
    stamped with the names of the predictors that gave a result. *)
Lemma valid_cycle_returns (self : InferenceEngine) (oh : overhead) (clock : Q)
  (t : telemetry) (race_context : pydict) (timeout_ms : Z) :
  validate_telemetry t = true ->
  float_overflows timeout_ms = false ->
  let st := schedule self oh clock t timeout_ms in
  well_formed_results (results st) ->
  exists decision,
    returned (run_real_time_inference self oh clock t race_context timeout_ms)
      = Ok decision /\
    field "models_executed" decision
      = Some (VList (map VStr (dict_keys (results st)))).
Proof.
  intros Hvalid Hfin st Hwf. unfold run_real_time_inference.
  rewrite Hvalid, Hfin.
  cbn [negb returned]. fold st.
  destruct (cascade_returns _ race_context Hwf) as [d Hd]. rewrite Hd.
  assert (Hdict : exists fields, d = VDict fields).
  { destruct (cascade_inv _ _ _ Hd) as (sa & _ & Hcases).
    destruct Hcases as [[_ ->]|[_ (ea & pa & n & _ & _ & _ & ->)]];
      unfold safety_override, consolidated; eauto. }
  destruct Hdict as [fields ->]. cbn [bind py_setitem].
  eexists. split; [reflexivity|]. cbn [field].
  apply dict_lookup_set_same.
Qed.

End FallbackFacts.


(** On a frame that has no hydrogen sensor column either, the wrapper of
    the purge predictor fails to read the sensor and answers [None]: the
    predictor is invoked like the others, and seven names are reported. *)
Lemma frame_without_sensor_skips_purge :
  validate_telemetry frame_without_sensor = true /\
  answer steady_engine frame_without_sensor "h2_purge" = VNone /\
  invoked (run_real_time_inference steady_engine light_overhead 0
             frame_without_sensor [] 100) = priority_order /\
  exists decision,
    returned (run_real_time_inference steady_engine light_overhead 0
                frame_without_sensor [] 100) = Ok decision /\
    field "models_executed" decision
      = Some (VList (map VStr ["anomaly"; "fatigue"; "energy"; "racing_line";
                               "slip_coast"; "efficiency"; "rank"])).
Proof.
  split; [reflexivity|]. split; [reflexivity|].
  split; [vm_compute; reflexivity|].
  eexists. split; vm_compute; reflexivity.
Qed.

(** ** The race phase *)

(** C9, as the code derives it.  The phase returned depends on the two lap
    counts only; the five table entries hold; and the branches are:
    PRACTICE for lap 0, EARLY for every other lap up to 2 (negative laps
    included), MID for lap 3, and beyond lap 3 LATE for lap = total, FINISH
    for lap > total and UNKNOWN for lap < total. *)
Theorem race_phase_by_lap (self : ContextManager) (clock1 clock2 : Q)
  (current_lap total_laps : Z) :
  let phase :=
    fst (determine_race_phase self clock1 clock2 current_lap total_laps) in
  phase = phase_of current_lap total_laps /\
  (forall any, fst (determine_race_phase self clock1 clock2 0 any)
               = "PRACTICE") /\
  fst (determine_race_phase self clock1 clock2 2 4) = "EARLY" /\
  fst (determine_race_phase self clock1 clock2 3 4) = "MID" /\
  fst (determine_race_phase self clock1 clock2 4 4) = "LATE" /\
  fst (determine_race_phase self clock1 clock2 5 4) = "FINISH" /\
  (phase = "PRACTICE" <-> current_lap = 0)%Z /\
  (phase = "EARLY" <-> current_lap <= 2 /\ current_lap <> 0)%Z /\
  (phase = "MID" <-> current_lap = 3)%Z /\
  (phase = "LATE" <-> 3 < current_lap /\ current_lap = total_laps)%Z /\
  (phase = "FINISH" <-> 3 < current_lap /\ total_laps < current_lap)%Z /\
  (phase = "UNKNOWN" <-> 3 < current_lap /\ current_lap < total_laps)%Z.
Proof.
  cbn zeta. unfold determine_race_phase. cbn [fst].
  split; [reflexivity|]. split; [reflexivity|].
  do 4 (split; [reflexivity|]).
  destruct (Z.eqb_spec current_lap 0) as [E0|E0];
    [repeat split; intros; try discriminate; try lia|].
  destruct (Z.leb_spec current_lap 2) as [E2|E2];
    [repeat split; intros; try discriminate; try lia|].
  destruct (Z.eqb_spec current_lap 3) as [E3|E3];
    [repeat split; intros; try discriminate; try lia|].
  destruct (Z.eqb_spec current_lap total_laps) as [Et|Et];
    [repeat split; intros; try discriminate; try lia|].
  destruct (Z.ltb_spec total_laps current_lap) as [Ef|Ef];
    repeat split; intros; try discriminate; try lia.
Qed.

Lemma record_state_change_context (self : ContextManager) (clock : Q)
  (old_state new_state : pydict) :
  context (_record_state_change self clock old_state new_state)
  = context self.
Proof.
  unfold _record_state_change.
  now destruct (changed_fields old_state new_state (dict_keys old_state)).
Qed.

(** The side effect of the derivation: the phase is stored in the context
    (a [RaceContext] always has the field), with a fresh timestamp. *)
Lemma determine_race_phase_stores (self : ContextManager) (clock1 clock2 : Q)
  (current_lap total_laps : Z) :
  dict_has (context self) "race_phase" = true ->
  let after :=
    snd (determine_race_phase self clock1 clock2 current_lap total_laps) in
  dict_lookup (context after) "race_phase"
    = Some (VStr (phase_of current_lap total_laps)) /\
  dict_lookup (context after) "timestamp" = Some (VFloat (FFin clock1)).
Proof.
  intros Hhas. cbn zeta. unfold determine_race_phase. cbn [snd].
  fold (phase_of current_lap total_laps).
  unfold update_context. rewrite record_state_change_context.
  cbn [context set_fields]. rewrite Hhas. split.
  - rewrite dict_lookup_set_other by discriminate.
    apply dict_lookup_set_same.
  - apply dict_lookup_set_same.
Qed.

(** The table is not exhaustive: lap 4 of 6 is none of its branches, and a
    negative lap is EARLY. *)
Lemma lap_four_of_six_is_unknown :
  fst (determine_race_phase ContextManager_init 0 0 4 6) = "UNKNOWN" /\
  ~ listed_branch 4 6 (fst (determine_race_phase ContextManager_init 0 0 4 6)) /\
  fst (determine_race_phase ContextManager_init 0 0 (-1) 4) = "EARLY" /\
  ~ listed_branch (-1) 4
      (fst (determine_race_phase ContextManager_init 0 0 (-1) 4)) /\
  ~ phase_table_exhaustive.
Proof.
  assert (Hnot : ~ listed_branch 4 6
                     (fst (determine_race_phase ContextManager_init 0 0 4 6))).
  { cbn. unfold listed_branch.
    intros [[E _]|[[E _]|[[E _]|[[E _]|[E _]]]]]; try lia; discriminate E. }
  split; [reflexivity|]. split; [exact Hnot|].
  split; [reflexivity|]. split.
  - cbn. unfold listed_branch.
    intros [[E _]|[[E _]|[[E _]|[[_ E]|[_ E]]]]]; try lia; discriminate E.
  - intros Hall. apply Hnot. apply Hall.
Qed.

(** ** The theorems at concrete inputs *)



Lemma critical_anomaly_short_circuit_witness :
  let model_results :=
    [("anomaly", VDict [("anomaly_detected", VBool true);
                        ("anomaly_type", VStr "OVERHEATING");
                        ("severity", VStr "CRITICAL")]);
     ("energy", VDict [("will_finish", VBool false)]);
     ("racing_line", VDict [("confidence", VFloat (FFin (79 # 100)))])] in
  let a := [("anomaly_detected", VBool true);
            ("anomaly_type", VStr "OVERHEATING");
            ("severity", VStr "CRITICAL")] in
  exists decision,
    apply_priority_cascade model_results [("race_phase", VStr "MID")]
      = Ok decision /\
    all_actions decision = [anomaly_action a] /\
    length (all_actions decision) = 1%nat /\
    action_kind (anomaly_action a) = Some (VStr "ANOMALY_DETECTED") /\
    field "primary_action" decision = Some (anomaly_action a) /\
    field "severity" decision = Some (VStr "CRITICAL") /\
    (forall act, In act (all_actions decision) ->
       has_kind "DNF_RISK" act = false /\
       has_kind "LOW_ENERGY_MARGIN" act = false /\
       has_kind "PERFORMANCE_OPTIMIZATION" act = false).
Proof.
  cbn zeta. apply critical_anomaly_short_circuit; reflexivity.
Defined.

Lemma performance_gated_witness :
  let e := [("will_finish", VBool true); ("margin", VFloat (FFin 4))] in
  let model_results :=
    [("energy", VDict e);
     ("racing_line", VDict [("confidence", VFloat (FFin (79 # 100)))])] in
  let low_margin :=
    VDict [("action", VStr "LOW_ENERGY_MARGIN");
           ("severity", VStr "HIGH");
           ("predicted_final_soc", VNone);
           ("margin", VFloat (FFin 4));
           ("recommendation",
            VStr "Reduce speed 10%, increase coast ratio +15%, plan pit strategy");
           ("reason", VStr "Energy margin only 4.0%, risk of DNF")] in
  apply_priority_cascade model_results []
    = Ok (consolidated [low_margin] (VStr "WARNING") [] 1) /\
  py_lt (dict_get e "margin" VNone) 10 = Ok true /\
  has_kind "PERFORMANCE_OPTIMIZATION" low_margin = false.
Proof.
  cbn zeta.
  assert (Hrun :
    apply_priority_cascade
      [("energy", VDict [("will_finish", VBool true);
                         ("margin", VFloat (FFin 4))]);
       ("racing_line", VDict [("confidence", VFloat (FFin (79 # 100)))])] []
    = Ok (consolidated
            [VDict [("action", VStr "LOW_ENERGY_MARGIN");
                    ("severity", VStr "HIGH");
                    ("predicted_final_soc", VNone);
                    ("margin", VFloat (FFin 4));
                    ("recommendation",
                     VStr "Reduce speed 10%, increase coast ratio +15%, plan pit strategy");
                    ("reason", VStr "Energy margin only 4.0%, risk of DNF")]]
            (VStr "WARNING") [] 1)) by (vm_compute; reflexivity).
  split; [exact Hrun|]. split; [vm_compute; reflexivity|].
  apply (proj2 (performance_gated_by_safety_and_energy _ _ _ Hrun)
           [("will_finish", VBool true); ("margin", VFloat (FFin 4))]).
  - reflexivity.
  - right. vm_compute. reflexivity.
  - left. reflexivity.
Defined.

Lemma medical_alert_from_first_alert_witness :
  let first := [("severity", VStr "HIGH"); ("alert", VStr "HIGH_HR");
                ("action", VStr "MEDICAL_CONCERN: Elevated heart rate, monitor closely")] in
  let second := VDict [("severity", VStr "CRITICAL");
                       ("alert", VStr "HYPOXIA_RISK")] in
  let model_results :=
    [("anomaly", VDict [("anomaly_detected", VBool false)]);
     ("fatigue", VDict [("fatigue_level", VInt 2);
                        ("medical_alerts", VList [VDict first; second])])] in
  _check_safety_constraints model_results []
    = Ok (medical_alert_action first) /\
  field "severity" (medical_alert_action first) = Some (VStr "HIGH").
Proof.
  cbn zeta.
  match goal with
  | |- _check_safety_constraints ?mr _ = Ok (medical_alert_action ?a) /\ _ =>
      pose proof (medical_alert_from_first_alert mr []
                    [("fatigue_level", VInt 2);
                     ("medical_alerts",
                      VList [VDict a;
                             VDict [("severity", VStr "CRITICAL");
                                    ("alert", VStr "HYPOXIA_RISK")]])]
                    a
                    [VDict [("severity", VStr "CRITICAL");
                            ("alert", VStr "HYPOXIA_RISK")]]) as Hthm
  end.
  destruct Hthm as (Hret & _ & _ & Hhigh & _).
  - exists (VBool false). split; reflexivity.
  - reflexivity.
  - reflexivity.
  - split; [exact Hret|]. apply Hhigh. discriminate.
Defined.


Lemma failing_predictor_is_omitted_witness :
  models engine_without_energy "energy" = None /\
  fst (run_guarded "energy" engine_without_energy minimal_telemetry) = VNone /\
  ~ In "energy"
      (dict_keys (results (schedule engine_without_energy light_overhead 0
                             minimal_telemetry 100))).
Proof.
  split; [reflexivity|].
  destruct (failing_predictor_is_omitted engine_without_energy light_overhead
              0 minimal_telemetry 100 "energy" (or_introl eq_refl))
    as (Hnone & _ & Hout & _).
  split; [exact Hnone | exact Hout].
Defined.


(** * Further properties of the scheduler *)

(** The clock after the loop: the turns taken, and the wait of the turn at
    whose budget check the loop was left, if there is one. *)
Lemma run_models_elapsed (self : InferenceEngine) (oh : overhead)
  (t : telemetry) (start_time inference_budget : Q) (order : list string) :
  forall st : sched,
    let st' := run_models self oh t start_time inference_budget order st in
    let ws := map (turn_of self oh t) order in
    let k := started ws (now st) start_time inference_budget in
    now st'
    == now st + total (map turn_seconds (firstn k ws))
       + wait (nth k ws idle_turn).
Proof.
  induction order as [|name rest IH]; intros st; cbn zeta.
  - cbn [run_models map started firstn nth total fold_right idle_turn wait].
    lra.
  - cbn [run_models map started turn_of wait lag call].
    destruct (Qlt_bool inference_budget
                (now st + before_check oh name - start_time)).
    + cbn [now firstn nth map total fold_right turn_of wait]. lra.
    + rewrite (dispatch_snd self t name).
      destruct (truthy (fst (dispatch self name t)));
        match goal with
        | |- context [run_models _ _ _ _ _ rest ?s] =>
            pose proof (IH s) as Hnow
        end;
        cbn zeta in Hnow; cbn [now] in Hnow; rewrite Hnow;
        cbn [firstn nth map total fold_right];
        unfold turn_seconds; cbn [turn_of wait lag call];
        match goal with
        | |- context [fold_right Qplus 0 ?l] => fold (total l)
        end; lra.
Qed.

(** The last predictor started was started within the budget. *)
Lemma started_fits (ws : list turn) (start_time inference_budget : Q) :
  forall clock,
    let k := started ws clock start_time inference_budget in
    k <> 0%nat ->
    (clock - start_time) + at_last_check (firstn k ws) <= inference_budget.
Proof.
  induction ws as [|a rest IH]; intros clock; cbn zeta.
  - cbn. congruence.
  - cbn [started]. cbn zeta.
    destruct (Qlt_bool inference_budget (clock + wait a - start_time)) eqn:Hchk;
      [congruence|].
    intros _. apply Qlt_bool_false_inv in Hchk.
    specialize (IH (clock + wait a + lag a + call a)). cbn zeta in IH.
    destruct (started rest (clock + wait a + lag a + call a) start_time
                inference_budget) as [|k'] eqn:Hk.
    + cbn [firstn]. rewrite at_last_check_one. lra.
    + destruct rest as [|b rest']; [discriminate Hk|].
      cbn [firstn] in *. rewrite at_last_check_cons. unfold turn_seconds.
      specialize (IH ltac:(discriminate)). lra.
Qed.

(** A turn ends one lag and one call after its budget check. *)
Lemma total_after_last_check (ws : list turn) :
  ws <> [] ->
  total (map turn_seconds ws)
  == at_last_check ws + lag (last ws idle_turn) + call (last ws idle_turn).
Proof.
  induction ws as [|a rest IH]; intros Hne; [congruence|].
  destruct rest as [|b rest'].
  - rewrite at_last_check_one. cbn. unfold turn_seconds. lra.
  - rewrite at_last_check_cons.
    change (total (map turn_seconds (a :: b :: rest')))
      with (turn_seconds a + total (map turn_seconds (b :: rest'))).
    change (last (a :: b :: rest') idle_turn)
      with (last (b :: rest') idle_turn).
    rewrite IH by discriminate. lra.
Qed.

Lemma started_turns_le (self : InferenceEngine) (oh : overhead)
  (t : telemetry) (clock start_time inference_budget : Q) :
  (started (turns self oh t) clock start_time inference_budget
   <= length priority_order)%nat.
Proof.
  pose proof (started_le (turns self oh t) clock start_time inference_budget)
    as Hle.
  unfold turns in Hle at 2. rewrite length_map in Hle. exact Hle.
Qed.

Section CycleTiming.
Context `{PyFormat}.

(** X1.  The stamp [total_inference_ms] of a decision is the rounded
    product by 1000 of the time elapsed at the last reading of the clock:
    the turns that were taken, the wait up to the budget check at which the
    loop was left (if it was), and the time of the cascade.  When a
    predictor was started, the budget check of the last one started was
    within the budget, so that the cycle runs past its budget by no more
    than what follows that check: one start, one call, and the engine's own
    code up to the stamp. *)
Theorem cycle_overrun_within_one_call (self : InferenceEngine) (oh : overhead)
  (clock : Q) (t : telemetry) (race_context : pydict) (timeout_ms : Z)
  (decision : pyval) :
  validate_telemetry t = true ->
  let c := run_real_time_inference self oh clock t race_context timeout_ms in
  returned c = Ok decision ->
  let taken := firstn (length (invoked c)) (turns self oh t) in
  let leaving := nth (length (invoked c)) (turns self oh t) idle_turn in
  exists elapsed,
    field "total_inference_ms" decision
    = Some (VFloat (float_of_Q (elapsed * 1000))) /\
    elapsed
    == total (map turn_seconds taken) + wait leaving + before_stamp oh /\
    (invoked c <> [] ->
     at_last_check taken <= budget timeout_ms /\
     elapsed
     <= budget timeout_ms
        + lag (last taken idle_turn) + call (last taken idle_turn)
        + wait leaving + before_stamp oh).
Proof.
  intros Hvalid. cbn zeta. unfold run_real_time_inference.
  rewrite Hvalid. cbn [negb].
  destruct (float_overflows timeout_ms); [discriminate|].
  cbn [invoked returned]. intros Hret.
  destruct (schedule_spec self oh clock t timeout_ms) as [Hatt _].
  cbn zeta in Hatt.
  pose proof (started_turns_le self oh t clock clock (budget timeout_ms))
    as Hk.
  set (k := started (turns self oh t) clock clock (budget timeout_ms)) in *.
  assert (Hlen : length (attempted (schedule self oh clock t timeout_ms)) = k).
  { rewrite Hatt, length_firstn. lia. }
  rewrite Hlen.
  assert (Hnow : now (schedule self oh clock t timeout_ms)
                 == clock + total (map turn_seconds (firstn k (turns self oh t)))
                    + wait (nth k (turns self oh t) idle_turn)).
  { unfold schedule.
    match goal with
    | |- context [run_models _ _ _ _ _ _ ?s] =>
        exact (run_models_elapsed self oh t clock (budget timeout_ms)
                 priority_order s)
    end. }
  exists (now (schedule self oh clock t timeout_ms) + before_stamp oh - clock).
  split; [|split].
  - apply bind_Ok in Hret as (d0 & Hd0 & Hret).
    apply bind_Ok in Hret as (d1 & Hd1 & Hret).
    destruct d0; try discriminate Hd1. cbn [py_setitem] in Hd1.
    injection Hd1 as <-. cbn [py_setitem] in Hret. injection Hret as <-.
    cbn [field]. rewrite dict_lookup_set_other by discriminate.
    apply dict_lookup_set_same.
  - rewrite Hnow. lra.
  - intros Hne.
    assert (Hk0 : k <> 0%nat).
    { intros E. apply Hne. rewrite Hatt, E. reflexivity. }
    pose proof (started_fits (turns self oh t) clock (budget timeout_ms) clock)
      as Hfit.
    cbn zeta in Hfit. fold k in Hfit. specialize (Hfit Hk0).
    assert (Htaken : firstn k (turns self oh t) <> []).
    { destruct k; [congruence|]. unfold turns, priority_order. cbn.
      discriminate. }
    pose proof (total_after_last_check _ Htaken) as Hsplit.
    split; [lra|]. rewrite Hnow. lra.
Qed.

End CycleTiming.

Lemma dict_set_fresh (d : pydict) (k : string) (v : pyval) :
  ~ In k (dict_keys d) -> dict_set d k v = d ++ [(k, v)].
Proof.
  unfold dict_keys. induction d as [|[k' v'] d IH]; cbn; intros Hfresh.
  - reflexivity.
  - destruct (String.eqb_spec k k') as [->|Hne]; [tauto|].
    f_equal. apply IH. tauto.
Qed.

Lemma dict_keys_app (d e : pydict) :
  dict_keys (d ++ e) = dict_keys d ++ dict_keys e.
Proof. unfold dict_keys. apply map_app. Qed.

(** The loop appends to [results], in the order of the calls, the truthy
    answers of the predictors it starts, as long as their names are new. *)
Lemma run_models_results (self : InferenceEngine) (oh : overhead)
  (t : telemetry) (start_time inference_budget : Q) (order : list string) :
  NoDup order ->
  forall st : sched,
    (forall n, In n order -> ~ In n (dict_keys (results st))) ->
    let st' := run_models self oh t start_time inference_budget order st in
    exists started_now,
      attempted st' = attempted st ++ started_now /\
      results st'
      = results st
        ++ map (fun n => (n, answer self t n))
             (filter (answered self t) started_now).
Proof.
  induction order as [|name rest IH]; intros Hnd st Hfresh; cbn zeta.
  - exists []. cbn. now rewrite !app_nil_r.
  - cbn [run_models].
    destruct (Qlt_bool inference_budget
                (now st + before_check oh name - start_time)).
    + exists []. cbn. now rewrite !app_nil_r.
    + rewrite (dispatch_snd self t name).
      inversion Hnd as [|? ? Hnotin Hnd']; subst.
      fold (answer self t name).
      destruct (truthy (answer self t name)) eqn:Htr.
      * match goal with
        | |- context [run_models _ _ _ _ _ rest ?s] =>
            destruct (IH Hnd' s) as (more & Hatt & Hres)
        end.
        { cbn [results]. intros n Hn Hin.
          apply dict_keys_set in Hin as [->|Hin]; [contradiction|].
          apply (Hfresh n); [now right|exact Hin]. }
        cbn [attempted results] in Hatt, Hres.
        exists (name :: more). split.
        -- rewrite Hatt, <- app_assoc. reflexivity.
        -- rewrite Hres. cbn [filter]. unfold answered at 2. rewrite Htr.
           rewrite dict_set_fresh by (apply Hfresh; now left).
           rewrite <- app_assoc. reflexivity.
      * match goal with
        | |- context [run_models _ _ _ _ _ rest ?s] =>
            destruct (IH Hnd' s) as (more & Hatt & Hres)
        end.
        { cbn [results]. intros n Hn. apply Hfresh. now right. }
        cbn [attempted results] in Hatt, Hres.
        exists (name :: more). split.
        -- rewrite Hatt, <- app_assoc. reflexivity.
        -- rewrite Hres. cbn [filter]. unfold answered at 2. rewrite Htr.
           reflexivity.
Qed.

Lemma map_fst_pairs {A B : Type} (f : A -> B) (l : list A) :
  map fst (map (fun n => (n, f n)) l) = l.
Proof. induction l as [|x l IH]; cbn; [reflexivity|now rewrite IH]. Qed.

Lemma priority_order_NoDup : NoDup priority_order.
Proof.
  unfold priority_order.
  repeat (constructor; [cbn; intuition discriminate|]). constructor.
Qed.

Lemma schedule_results (self : InferenceEngine) (oh : overhead) (clock : Q)
  (t : telemetry) (timeout_ms : Z) :
  results (schedule self oh clock t timeout_ms)
  = map (fun n => (n, answer self t n))
      (filter (answered self t)
         (attempted (schedule self oh clock t timeout_ms))).
Proof.
  unfold schedule.
  match goal with
  | |- context [run_models _ _ _ _ _ _ ?s] =>
      destruct (run_models_results self oh t clock (budget timeout_ms)
                  priority_order priority_order_NoDup s)
        as (more & Hatt & Hres)
  end.
  { cbn. tauto. }
  cbn [attempted results app] in Hatt, Hres. rewrite Hres, Hatt.
  reflexivity.
Qed.

Lemma lookup_answers (self : InferenceEngine) (t : telemetry)
  (names : list string) (n : string) :
  dict_lookup (map (fun m => (m, answer self t m))
                 (filter (answered self t) names)) n
  = if existsb (String.eqb n) names && answered self t n
    then Some (answer self t n) else None.
Proof.
  induction names as [|m names IH]; [reflexivity|].
  cbn [filter existsb].
  destruct (answered self t m) eqn:Ha; cbn [map dict_lookup].
  - destruct (String.eqb_spec n m) as [->|Hne]; cbn [orb andb].
    + now rewrite Ha.
    + exact IH.
  - rewrite IH. destruct (String.eqb_spec n m) as [->|Hne]; cbn [orb].
    + rewrite Ha, !andb_false_r. reflexivity.
    + reflexivity.
Qed.

Section CycleResults.
Context `{PyFormat}.

(** What a valid cycle returns is the decision of the cascade with the two
    stamps set, in this order. *)
Lemma cycle_stamp (self : InferenceEngine) (oh : overhead) (clock : Q)
  (t : telemetry) (race_context : pydict) (timeout_ms : Z)
  (decision : pyval) :
  validate_telemetry t = true ->
  returned (run_real_time_inference self oh clock t race_context timeout_ms)
    = Ok decision ->
  exists d,
    float_overflows timeout_ms = false /\
    apply_priority_cascade (results (schedule self oh clock t timeout_ms))
      race_context = Ok (VDict d) /\
    decision
    = VDict (dict_set
               (dict_set d "total_inference_ms"
                  (VFloat
                     (float_of_Q
                        ((now (schedule self oh clock t timeout_ms)
                          + before_stamp oh - clock) * 1000))))
               "models_executed"
               (VList (map VStr
                         (dict_keys
                            (results (schedule self oh clock t timeout_ms)))))).
Proof.
  intros Hvalid. unfold run_real_time_inference. rewrite Hvalid.
  cbn [negb]. destruct (float_overflows timeout_ms); [discriminate|].
  cbn [returned]. intros Hret.
  apply bind_Ok in Hret as (d0 & Hd0 & Hret).
  apply bind_Ok in Hret as (d1 & Hd1 & Hret).
  destruct d0 as [| | | | | |d]; try discriminate Hd1.
  exists d. split; [reflexivity|]. split; [exact Hd0|].
  cbn [py_setitem] in Hd1. injection Hd1 as <-.
  cbn [py_setitem] in Hret. injection Hret as <-. reflexivity.
Qed.

(** X2.  The result set of a cycle holds exactly the truthy answers of the
    predictors that were started, each under its own name and in priority
    order; and that list of names is what [models_executed] reports. *)
Theorem results_are_the_truthy_answers (self : InferenceEngine)
  (oh : overhead) (clock : Q) (t : telemetry) (race_context : pydict)
  (timeout_ms : Z) :
  let st := schedule self oh clock t timeout_ms in
  results st
  = map (fun n => (n, answer self t n))
      (filter (answered self t) (attempted st)) /\
  (forall n,
     dict_lookup (results st) n
     = if existsb (String.eqb n) (attempted st) && answered self t n
       then Some (answer self t n) else None) /\
  (validate_telemetry t = true ->
   forall decision,
     returned (run_real_time_inference self oh clock t race_context timeout_ms)
       = Ok decision ->
     field "models_executed" decision
     = Some (VList (map VStr (filter (answered self t) (attempted st))))).
Proof.
  cbn zeta. split; [apply schedule_results|]. split.
  - intros n. rewrite schedule_results. apply lookup_answers.
  - intros Hvalid decision Hret.
    destruct (cycle_stamp _ _ _ _ _ _ _ Hvalid Hret) as (d & _ & _ & ->).
    cbn [field]. rewrite dict_lookup_set_same. rewrite schedule_results.
    unfold dict_keys. rewrite map_fst_pairs. reflexivity.
Qed.

End CycleResults.

Lemma In_firstn_weaken {A : Type} (k : nat) (l : list A) (x : A) :
  In x (firstn k l) -> In x l.
Proof.
  revert l. induction k as [|k IH]; intros [|y l]; cbn; try tauto.
  intros [->|Hin]; [now left|right; now apply IH].
Qed.

(** [self.inference_times] after the loop: an entry is written for every
    predictor that answered, and no other entry is touched. *)
Lemma run_models_times (self : InferenceEngine) (oh : overhead)
  (t : telemetry) (start_time inference_budget : Q) (order : list string) :
  NoDup order ->
  forall (st : sched) (n : string),
    let st' := run_models self oh t start_time inference_budget order st in
    let k := started (map (turn_of self oh t) order) (now st) start_time
               inference_budget in
    (In n (firstn k order) /\ answered self t n = true ->
     exists q, dict_lookup (times st') n = Some (VFloat (FFin q)) /\
               q == latency self t n) /\
    (~ (In n (firstn k order) /\ answered self t n = true) ->
     dict_lookup (times st') n = dict_lookup (times st) n).
Proof.
  induction order as [|name rest IH]; intros Hnd st n; cbn zeta.
  - cbn. split; [intros [[] _]|reflexivity].
  - cbn [run_models map started turn_of wait lag call].
    destruct (Qlt_bool inference_budget
                (now st + before_check oh name - start_time)).
    + cbn [firstn times]. split; [intros [[] _]|reflexivity].
    + rewrite (dispatch_snd self t name). fold (answer self t name).
      fold (answered self t name).
      inversion Hnd as [|? ? Hnotin Hnd']; subst.
      cbn [firstn].
      destruct (answered self t name) eqn:Ha;
        match goal with
        | |- context [run_models _ _ _ _ _ rest ?s] =>
            destruct (IH Hnd' s n) as [Hin Hout]
        end;
        cbn [now times] in Hin, Hout.
      * split.
        -- intros [[<-|Hrest] Hans].
           ++ rewrite Hout.
              ** rewrite dict_lookup_set_same. eexists. split; [reflexivity|].
                 lra.
              ** intros [Hrest _]. apply Hnotin.
                 exact (In_firstn_weaken _ _ _ Hrest).
           ++ apply Hin. tauto.
        -- intros Hnot. rewrite Hout.
           ++ apply dict_lookup_set_other. intros E. subst n.
              apply Hnot. split; [now left|exact Ha].
           ++ intros [Hr Hb]. apply Hnot. split; [now right|exact Hb].
      * split.
        -- intros [[<-|Hrest] Hans]; [congruence|]. apply Hin. tauto.
        -- intros Hnot. apply Hout.
           intros [Hr Hb]. apply Hnot. split; [now right|exact Hb].
Qed.

Section CycleSideEffects.
Context `{PyFormat}.

(** X3.  After a valid cycle [inference_times] holds, for every predictor
    that was started and gave a result, the time its call took; the entry of
    every other predictor -- skipped, failed, or answering nothing -- is the
    one an earlier cycle left, or none. *)
Theorem timings_follow_results (self : InferenceEngine) (oh : overhead)
  (clock : Q) (t : telemetry) (race_context : pydict) (timeout_ms : Z)
  (n : string) :
  validate_telemetry t = true ->
  let c := run_real_time_inference self oh clock t race_context timeout_ms in
  (In n (invoked c) /\ answered self t n = true ->
   exists q,
     dict_lookup (inference_times (engine_after c)) n
       = Some (VFloat (FFin q)) /\
     q == latency self t n) /\
  (~ (In n (invoked c) /\ answered self t n = true) ->
   dict_lookup (inference_times (engine_after c)) n
   = dict_lookup (inference_times self) n).
Proof.
  intros Hvalid. cbn zeta. unfold run_real_time_inference. rewrite Hvalid.
  cbn [negb]. destruct (float_overflows timeout_ms).
  - cbn [invoked engine_after]. split; [intros [[] _]|reflexivity].
  - cbn [invoked engine_after inference_times].
    destruct (schedule_spec self oh clock t timeout_ms) as [Hatt _].
    cbn zeta in Hatt. rewrite Hatt. unfold schedule, turns.
    match goal with
    | |- context [run_models _ _ _ _ _ _ ?s] =>
        exact (run_models_times self oh t clock (budget timeout_ms)
                 priority_order priority_order_NoDup s n)
    end.
Qed.

End CycleSideEffects.

(** X4.  The loop starts no predictor exactly when the time that passes
    between the start of the cycle and the first budget check -- the time of
    the validation -- exceeds the budget; otherwise the anomaly predictor is
    started first, whatever the latencies.  So a timeout of zero or less
    starts nothing once the validation takes a time the clock can see, and
    a timeout of zero or more starts the anomaly predictor when it does
    not. *)
Theorem anomaly_is_started_first (self : InferenceEngine) (oh : overhead)
  (clock : Q) (t : telemetry) (timeout_ms : Z) :
  let st := schedule self oh clock t timeout_ms in
  (attempted st = [] <-> budget timeout_ms < before_check oh "anomaly") /\
  (before_check oh "anomaly" <= budget timeout_ms ->
   exists rest, attempted st = "anomaly" :: rest) /\
  ((timeout_ms <= 0)%Z -> 0 < before_check oh "anomaly" ->
   attempted st = []) /\
  ((0 <= timeout_ms)%Z -> before_check oh "anomaly" <= 0 ->
   exists rest, attempted st = "anomaly" :: rest).
Proof.
  cbn zeta.
  destruct (schedule_spec self oh clock t timeout_ms) as [Hatt _].
  cbn zeta in Hatt. rewrite Hatt. clear Hatt.
  destruct (budget_sign timeout_ms) as [Hnonneg Hnonpos].
  assert (Hcases :
            (budget timeout_ms < before_check oh "anomaly" /\
             firstn (started (turns self oh t) clock clock (budget timeout_ms))
               priority_order = []) \/
            (before_check oh "anomaly" <= budget timeout_ms /\
             exists rest,
               firstn (started (turns self oh t) clock clock
                         (budget timeout_ms))
                 priority_order = "anomaly" :: rest)).
  { unfold turns, priority_order. cbn [map started turn_of wait lag call].
    destruct (Qlt_bool (budget timeout_ms)
                (clock + before_check oh "anomaly" - clock)) eqn:Hchk.
    - left. apply Qlt_bool_iff in Hchk. split; [lra|reflexivity].
    - right. apply Qlt_bool_false_inv in Hchk. split; [lra|].
      cbn [firstn]. eauto. }
  destruct Hcases as [[Hlt ->]|[Hle (rest & ->)]].
  - split; [split; [intros _; exact Hlt|reflexivity]|].
    split; [intros Hle; lra|].
    split; [reflexivity|].
    intros Ht Hz. specialize (Hnonneg Ht). lra.
  - split; [split; [discriminate|intros Hlt; lra]|].
    split; [eauto|].
    split; [intros Ht Hw; specialize (Hnonpos Ht); lra|eauto].
Qed.

(** * Further properties of the cascade *)

Lemma action_of_alerting (kinds sevs : list string) (v : pyval) :
  action_of kinds sevs v ->
  (forall sev, In sev sevs ->
     py_in_strs (VStr sev) ["CRITICAL"; "HIGH"; "WARNING"] = true) ->
  alerting v = true.
Proof.
  intros (d & kind & sev & -> & _ & _ & _ & Hs & Hin) Hall.
  unfold alerting, field. rewrite Hs. now apply Hall.
Qed.

Lemma action_of_severity (kinds sevs : list string) (v : pyval) :
  action_of kinds sevs v ->
  exists sev, field "severity" v = Some (VStr sev) /\ In sev sevs.
Proof.
  intros (d & kind & sev & -> & _ & _ & _ & Hs & Hin). exists sev. auto.
Qed.

Section CascadeInvariants.
Context `{PyFormat}.

(** X5.  Every decision the cascade returns has at most two actions; its
    severity is NORMAL, WARNING, HIGH or CRITICAL (the EMERGENCY test never
    fires); it is CRITICAL exactly on the safety override; and it is NORMAL
    exactly when none of its actions is an alert. *)
Theorem decision_severity_and_alerts (model_results race_context : pydict)
  (decision : pyval) :
  apply_priority_cascade model_results race_context = Ok decision ->
  (length (all_actions decision) <= 2)%nat /\
  (exists sev,
     field "severity" decision = Some (VStr sev) /\
     In sev ["NORMAL"; "WARNING"; "HIGH"; "CRITICAL"]) /\
  (field "severity" decision = Some (VStr "CRITICAL")
   <-> field "reason" decision = Some (VStr "SAFETY OVERRIDE")) /\
  (field "severity" decision = Some (VStr "NORMAL")
   <-> filter alerting (all_actions decision) = []).
Proof.
  intros Hd.
  destruct (cascade_inv _ _ _ Hd) as (sa & Hsa & Hcases).
  destruct Hcases as [[Hcrit ->]|[Hnon (ea & pa & n & Hea & Hpa & Hn & ->)]].
  - assert (Hal : alerting sa = true).
    { apply (action_of_alerting _ _ _ Hcrit). intros sev [<-|[]]. reflexivity. }
    cbn [safety_override all_actions field dict_lookup String.eqb Ascii.eqb
         Bool.eqb length filter].
    rewrite Hal. split; [lia|]. split; [exists "CRITICAL"; cbn; tauto|].
    split; split; intros; try reflexivity; discriminate.
  - cbn [consolidated all_actions field dict_lookup String.eqb Ascii.eqb
         Bool.eqb].
    assert (Hsa_al : truthy sa = true -> alerting sa = true).
    { destruct Hnon as [->|Ha]; [discriminate|]. intros _.
      apply (action_of_alerting _ _ _ Ha). intros sev [<-|[]]. reflexivity. }
    assert (Hea_al : truthy ea = true -> alerting ea = true).
    { destruct (energy_shape _ _ _ Hea) as [->|[Ha|Ha]]; [discriminate| |];
        intros _; apply (action_of_alerting _ _ _ Ha);
        intros sev [<-|[]]; reflexivity. }
    assert (Hpa_cases : pa = VNone \/
              (truthy pa = true /\ alerting pa = false /\
               truthy sa = false /\ truthy ea = false)).
    { destruct (performance_shape _ _ _ _ _ Hpa) as [->|(Ha & Hs & He)];
        [now left|right].
      split; [exact (action_of_truthy _ _ _ Ha)|]. split; [|tauto].
      destruct Ha as (d & kind & sev & -> & _ & _ & _ & Hsev & [<-|[]]).
      unfold alerting, field. rewrite Hsev. reflexivity. }
    destruct Hpa_cases as [->|(Htp & Hap & Hts & Hte)].
    + cbn [filter truthy].
      destruct (truthy sa) eqn:Hts, (truthy ea) eqn:Hte;
        cbn [length filter];
        rewrite ?(Hsa_al eq_refl), ?(Hea_al eq_refl);
        (split; [lia|]);
        (split; [eexists; split; [reflexivity|cbn; tauto]|]);
        split; split; intros; try reflexivity; discriminate.
    + cbn [filter]. rewrite Hts, Hte, Htp. cbn [length filter]. rewrite Hap.
      split; [lia|].
      split; [eexists; split; [reflexivity|cbn; tauto]|].
      split; split; intros; try reflexivity; discriminate.
Qed.

Lemma dict_get_reads (mr1 mr2 : pydict) (k : string) (dflt : pyval) :
  (forall k, In k cascade_inputs -> dict_lookup mr1 k = dict_lookup mr2 k) ->
  In k cascade_inputs ->
  dict_get mr1 k dflt = dict_get mr2 k dflt.
Proof. intros Hsame Hk. unfold dict_get. now rewrite (Hsame k Hk). Qed.

Lemma safety_reads (mr1 mr2 race_context : pydict) :
  (forall k, In k cascade_inputs -> dict_lookup mr1 k = dict_lookup mr2 k) ->
  _check_safety_constraints mr1 race_context
  = _check_safety_constraints mr2 race_context.
Proof.
  intros Hsame. unfold _check_safety_constraints.
  rewrite (dict_get_reads mr1 mr2 "anomaly" _ Hsame) by (cbn; tauto).
  rewrite (dict_get_reads mr1 mr2 "fatigue" _ Hsame) by (cbn; tauto).
  reflexivity.
Qed.

Lemma energy_reads (mr1 mr2 race_context : pydict) :
  (forall k, In k cascade_inputs -> dict_lookup mr1 k = dict_lookup mr2 k) ->
  _check_energy_constraints mr1 race_context
  = _check_energy_constraints mr2 race_context.
Proof.
  intros Hsame. unfold _check_energy_constraints.
  rewrite (dict_get_reads mr1 mr2 "energy" _ Hsame) by (cbn; tauto).
  reflexivity.
Qed.

Lemma performance_reads (mr1 mr2 race_context : pydict)
  (safety_action energy_action : pyval) :
  (forall k, In k cascade_inputs -> dict_lookup mr1 k = dict_lookup mr2 k) ->
  _recommend_performance_optimization mr1 race_context
    safety_action energy_action
  = _recommend_performance_optimization mr2 race_context
      safety_action energy_action.
Proof.
  intros Hsame. unfold _recommend_performance_optimization.
  rewrite (dict_get_reads mr1 mr2 "racing_line" _ Hsame) by (cbn; tauto).
  rewrite (dict_get_reads mr1 mr2 "efficiency" _ Hsame) by (cbn; tauto).
  rewrite (dict_get_reads mr1 mr2 "slip_coast" _ Hsame) by (cbn; tauto).
  reflexivity.
Qed.

Lemma cascade_reads (mr1 mr2 race_context : pydict) :
  (forall k, In k cascade_inputs -> dict_lookup mr1 k = dict_lookup mr2 k) ->
  apply_priority_cascade mr1 race_context
  = apply_priority_cascade mr2 race_context.
Proof.
  intros Hsame. unfold apply_priority_cascade, cascade_after_safety.
  rewrite (safety_reads _ _ _ Hsame), (energy_reads _ _ _ Hsame).
  destruct (_check_safety_constraints mr2 race_context) as [sa|e];
    [|reflexivity].
  cbn [bind].
  destruct (_check_energy_constraints mr2 race_context) as [ea|e].
  - cbn [bind]. rewrite !(performance_reads _ _ _ sa ea Hsame). reflexivity.
  - reflexivity.
Qed.

(** X6.  The decision depends on six entries of the result set only
    (anomaly, fatigue, energy, racing_line, efficiency, slip_coast): two
    result sets that agree on them get the same decision or the same
    exception.  In particular whatever the h2_purge and rank predictors
    answered -- an emergency purge included -- changes nothing. *)
Theorem cascade_ignores_purge_and_rank (model_results race_context : pydict)
  (purge rank : pyval) :
  apply_priority_cascade
    (dict_set (dict_set model_results "h2_purge" purge) "rank" rank)
    race_context
  = apply_priority_cascade model_results race_context /\
  (forall other,
     (forall k, In k cascade_inputs ->
        dict_lookup other k = dict_lookup model_results k) ->
     apply_priority_cascade other race_context
     = apply_priority_cascade model_results race_context).
Proof.
  split.
  - apply cascade_reads. intros k Hk.
    rewrite !dict_lookup_set_other; [reflexivity| |];
      intros ->; cbn in Hk; intuition discriminate.
  - intros other Hsame. now apply cascade_reads.
Qed.

End CascadeInvariants.

(** * The aggressiveness matrix *)

Lemma Qlt_bool_spec (a b : Q) : BoolSpec (a < b) (b <= a) (Qlt_bool a b).
Proof.
  destruct (Qlt_bool a b) eqn:E; constructor.
  - now apply Qlt_bool_iff.
  - destruct (Qlt_le_dec a b) as [Hlt|Hle]; [|exact Hle].
    apply Qlt_bool_iff in Hlt. congruence.
Qed.

Lemma py_eq_str_iff (v : pyval) (s : string) :
  py_eq_str v s = true <-> v = VStr s.
Proof.
  destruct v; cbn; try (split; discriminate).
  rewrite String.eqb_eq. split; [intros ->; reflexivity|].
  intros E. now injection E.
Qed.

Lemma py_gt_finite (v : pyval) (q c : Q) :
  py_num v = Some (FFin q) -> py_gt v c = Ok (Qlt_bool c q).
Proof. intros Hq. unfold py_gt. now rewrite Hq. Qed.

Lemma py_lt_finite (v : pyval) (q c : Q) :
  py_num v = Some (FFin q) -> py_lt v c = Ok (Qlt_bool q c).
Proof. intros Hq. unfold py_lt. now rewrite Hq. Qed.

(** The row of the matrix for a finite state of charge [q]. *)
Lemma aggressiveness_row_finite (race_phase soc : pyval) (q : Q) :
  py_num soc = Some (FFin q) ->
  exists agg margin threshold,
    aggressiveness_row race_phase soc = Ok (agg, margin, threshold) /\
    (agg = "SURVIVAL" <-> race_phase = VStr "LATE" /\ q <= 8) /\
    (agg = "CONSERVATIVE" \/ agg = "SURVIVAL"
     <-> (race_phase = VStr "MID" \/ race_phase = VStr "LATE") /\ q <= 15) /\
    float_1_3 <= margin <= 3 /\
    float_0_7 <= threshold <= float_0_85.
Proof.
  intros Hq. unfold aggressiveness_row.
  rewrite !(py_gt_finite _ _ _ Hq). cbn [bind].
  assert (Hc : float_1_3 <= 3 # 2 <= 3 /\ float_1_3 <= float_1_8 <= 3 /\
               float_1_3 <= 2 <= 3 /\ float_1_3 <= float_1_3 <= 3 /\
               float_1_3 <= 3 <= 3).
  { unfold float_1_3, float_1_8. repeat split; unfold Qle; cbn; lia. }
  assert (Ht : float_0_7 <= float_0_7 <= float_0_85 /\
               float_0_7 <= 3 # 4 <= float_0_85 /\
               float_0_7 <= float_0_8 <= float_0_85 /\
               float_0_7 <= float_0_85 <= float_0_85).
  { unfold float_0_7, float_0_8, float_0_85.
    repeat split; unfold Qle; cbn; lia. }
  destruct (py_in_strs race_phase ["EARLY"; "PRACTICE"]) eqn:Hearly.
  { assert (Hph : race_phase = VStr "EARLY" \/ race_phase = VStr "PRACTICE").
    { cbn in Hearly. apply orb_true_iff in Hearly as [E|E].
      - left. now apply py_eq_str_iff.
      - rewrite orb_false_r in E. right. now apply py_eq_str_iff. }
    do 3 eexists. split; [reflexivity|].
    repeat split; try tauto; try discriminate;
      intros; destruct Hph; intuition congruence. }
  destruct (py_eq_str race_phase "MID") eqn:Hmid.
  { apply py_eq_str_iff in Hmid. subst race_phase.
    destruct (Qlt_bool_spec 25 q); [|destruct (Qlt_bool_spec 15 q)];
      do 3 eexists; (split; [reflexivity|]);
      repeat split; try tauto; try discriminate;
      intros; try (intuition (try discriminate; try congruence; lra)). }
  destruct (py_eq_str race_phase "LATE") eqn:Hlate.
  { apply py_eq_str_iff in Hlate. subst race_phase.
    destruct (Qlt_bool_spec 15 q); [|destruct (Qlt_bool_spec 8 q)];
      do 3 eexists; (split; [reflexivity|]);
      repeat split; try tauto; try discriminate;
      intros; try (intuition (try discriminate; try congruence; lra)). }
  assert (Hnm : race_phase <> VStr "MID")
    by (intros E; apply py_eq_str_iff in E; congruence).
  assert (Hnl : race_phase <> VStr "LATE")
    by (intros E; apply py_eq_str_iff in E; congruence).
  do 3 eexists. split; [reflexivity|].
  repeat split; try tauto; try discriminate; intros; intuition congruence.
Qed.

(** X7.  For a numeric state of charge, [get_aggressiveness_level] returns
    and: the level is SURVIVAL, and optimization is disallowed, exactly in
    phase LATE with a charge of at most 8; a pit stop is recommended exactly
    in phase MID or LATE with a charge of at most 15 (the extra test
    [soc < 20] never decides anything); and the safety margin lies between
    1.3 and 3. *)
Theorem aggressiveness_level_by_phase_and_charge (race_context : pydict)
  (q : Q) :
  py_num (dict_get race_context "current_soc" (VInt 50)) = Some (FFin q) ->
  let phase := dict_get race_context "race_phase" (VStr "UNKNOWN") in
  exists result agg margin,
    get_aggressiveness_level race_context = Ok result /\
    field "aggressiveness" result = Some (VStr agg) /\
    field "safety_margin" result = Some (VFloat (FFin margin)) /\
    float_1_3 <= margin <= 3 /\
    (agg = "SURVIVAL" <-> phase = VStr "LATE" /\ q <= 8) /\
    (field "optimization_allowed" result = Some (VBool false)
     <-> phase = VStr "LATE" /\ q <= 8) /\
    (field "pit_recommended" result = Some (VBool true)
     <-> (phase = VStr "MID" \/ phase = VStr "LATE") /\ q <= 15).
Proof.
  intros Hq phase.
  destruct (aggressiveness_row_finite phase _ q Hq)
    as (agg & margin & threshold & Hrow & Hsurv & Hpit & Hmargin & _).
  unfold get_aggressiveness_level. fold phase. rewrite Hrow. cbn [bind].
  rewrite (py_lt_finite _ _ 20 Hq).
  assert (Hin : py_in_strs (VStr agg) ["CONSERVATIVE"; "SURVIVAL"] = true
                <-> agg = "CONSERVATIVE" \/ agg = "SURVIVAL").
  { cbn. rewrite !orb_true_iff, !String.eqb_eq. intuition discriminate. }
  assert (Hopt : negb (String.eqb agg "SURVIVAL") = false <-> agg = "SURVIVAL").
  { rewrite negb_false_iff. apply String.eqb_eq. }
  destruct (py_in_strs (VStr agg) ["CONSERVATIVE"; "SURVIVAL"]) eqn:Hcs;
    cbn [bind].
  - assert (Hle : q <= 15) by (apply Hpit, Hin; reflexivity).
    destruct (Qlt_bool_spec q 20) as [_|Hge]; [|lra].
    eexists; exists agg, margin. split; [reflexivity|].
    cbn [field dict_lookup String.eqb Ascii.eqb Bool.eqb].
    split; [reflexivity|]. split; [reflexivity|]. split; [exact Hmargin|].
    split; [exact Hsurv|]. split.
    + rewrite <- Hsurv, <- Hopt. split; [intros E; now injection E|].
      intros ->. reflexivity.
    + split; [intros _; apply Hpit, Hin; reflexivity|reflexivity].
  - eexists; exists agg, margin. split; [reflexivity|].
    cbn [field dict_lookup String.eqb Ascii.eqb Bool.eqb].
    split; [reflexivity|]. split; [reflexivity|]. split; [exact Hmargin|].
    split; [exact Hsurv|]. split.
    + rewrite <- Hsurv, <- Hopt. split; [intros E; now injection E|].
      intros ->. reflexivity.
    + split; [discriminate|].
      intros Hcond. apply Hpit, Hin in Hcond. discriminate Hcond.
Qed.

(** X8.  [get_aggressiveness_level] looks at the state of charge only in the
    phases MID and LATE.  In every other phase it returns the MODERATE row
    with no pit stop, whatever the charge is.  In MID and LATE a charge that
    is not a number raises [TypeError], and a NaN charge, which is above no
    threshold, gets the most cautious level of the phase but no pit
    recommendation. *)
Theorem aggressiveness_reads_charge_in_mid_and_late (race_context : pydict) :
  let phase := dict_get race_context "race_phase" (VStr "UNKNOWN") in
  let soc := dict_get race_context "current_soc" (VInt 50) in
  (phase <> VStr "MID" -> phase <> VStr "LATE" ->
   get_aggressiveness_level race_context =
     Ok (VDict [("aggressiveness", VStr "MODERATE");
                ("safety_margin", VFloat (FFin (3 # 2)));
                ("confidence_threshold", VFloat (FFin float_0_7));
                ("optimization_allowed", VBool true);
                ("pit_recommended", VBool false)])) /\
  (phase = VStr "MID" \/ phase = VStr "LATE" -> py_num soc = None ->
   get_aggressiveness_level race_context = Raise TypeError) /\
  (phase = VStr "MID" \/ phase = VStr "LATE" -> py_num soc = Some FNan ->
   exists result,
     get_aggressiveness_level race_context = Ok result /\
     field "aggressiveness" result =
       Some (VStr (if py_eq_str phase "MID" then "CONSERVATIVE"
                   else "SURVIVAL")) /\
     field "optimization_allowed" result =
       Some (VBool (py_eq_str phase "MID")) /\
     field "pit_recommended" result = Some (VBool false)).
Proof.
  intros phase soc. unfold get_aggressiveness_level. fold phase soc.
  split; [|split].
  - intros Hmid Hlate. unfold aggressiveness_row.
    destruct (py_in_strs phase ["EARLY"; "PRACTICE"]); [reflexivity|].
    destruct (py_eq_str phase "MID") eqn:Em.
    { apply py_eq_str_iff in Em. contradiction. }
    destruct (py_eq_str phase "LATE") eqn:El.
    { apply py_eq_str_iff in El. contradiction. }
    reflexivity.
  - intros [-> | ->] Hnum; unfold aggressiveness_row, py_gt; cbn;
      rewrite Hnum; reflexivity.
  - intros [-> | ->] Hnum; unfold aggressiveness_row, py_gt, py_lt; cbn;
      rewrite Hnum; cbn; eexists; repeat split.
Qed.

(** X9.  [get_adaptive_parameters] of the context manager agrees with the
    matrix of [get_aggressiveness_level] in the phases PRACTICE, EARLY, MID
    and LATE; every other phase (FINISH, UNKNOWN, ...) it treats as LATE.
    So, on the manager's context with the phase replaced accordingly, the two
    functions raise the same error or return the same aggressiveness and
    safety margin. *)
Theorem adaptive_parameters_follow_the_matrix (self : ContextManager)
  (p : string) (soc track_condition weather_factor : pyval) :
  dict_lookup (context self) "race_phase" = Some (VStr p) ->
  dict_lookup (context self) "current_soc" = Some soc ->
  dict_lookup (context self) "track_condition" = Some track_condition ->
  dict_lookup (context self) "weather_factor" = Some weather_factor ->
  let row_phase :=
    if existsb (String.eqb p) ["PRACTICE"; "EARLY"; "MID"] then p
    else "LATE" in
  match get_adaptive_parameters self,
        get_aggressiveness_level
          (dict_set (context self) "race_phase" (VStr row_phase)) with
  | Ok params, Ok level =>
      field "aggressiveness" params = field "aggressiveness" level /\
      field "safety_margin" params = field "safety_margin" level /\
      field "phase" params = Some (VStr p) /\
      field "soc" params = Some soc
  | Raise e, Raise e' => e = e'
  | _, _ => False
  end.
Proof.
  intros Hp Hsoc Htc Hwf row_phase.
  unfold get_adaptive_parameters, get_aggressiveness_level, dict_item.
  rewrite Hp, Hsoc, Htc, Hwf. cbn [bind].
  rewrite (dict_get_found _ "race_phase" (VStr row_phase))
    by apply dict_lookup_set_same.
  rewrite (dict_get_found _ "current_soc" soc)
    by (rewrite dict_lookup_set_other; [exact Hsoc|discriminate]).
  unfold aggressiveness_row, row_phase, py_gt, py_lt.
  destruct (String.eqb_spec p "PRACTICE") as [->|Hpr]; [cbn; auto|].
  destruct (String.eqb_spec p "EARLY") as [->|Hea]; [cbn; auto|].
  destruct (String.eqb_spec p "MID") as [->|Hmi].
  { cbn. destruct (py_num soc) as [[q| |]|]; cbn; auto.
    - destruct (Qlt_bool 25 q); cbn; auto.
      destruct (Qlt_bool 15 q) eqn:E15; cbn; auto.
    - destruct negative; cbn; auto. }
  assert (Hin : py_in_strs (VStr p) ["PRACTICE"; "EARLY"] = false).
  { cbn. apply String.eqb_neq in Hpr, Hea. now rewrite Hpr, Hea. }
  assert (Hmid : py_eq_str (VStr p) "MID" = false).
  { cbn. now apply String.eqb_neq. }
  rewrite Hin, Hmid.
  assert (Hrow : existsb (String.eqb p) ["PRACTICE"; "EARLY"; "MID"] = false).
  { cbn. apply String.eqb_neq in Hpr, Hea, Hmi. now rewrite Hpr, Hea, Hmi. }
  rewrite Hrow. cbn.
  destruct (py_num soc) as [[q| |]|]; cbn; auto.
  - destruct (Qlt_bool 15 q); cbn; auto.
    destruct (Qlt_bool 8 q); cbn; auto.
  - destruct negative; cbn; auto.
Qed.

(** * The context manager *)

Lemma dict_has_keys (d : pydict) (k : string) :
  dict_has d k = true <-> In k (dict_keys d).
Proof.
  unfold dict_has, dict_keys. induction d as [|[k' v] d IH]; cbn.
  - split; [discriminate|tauto].
  - destruct (String.eqb_spec k k') as [->|Hne].
    + split; auto.
    + rewrite IH. split; [auto|]. intros [E|Hin]; [congruence|exact Hin].
Qed.

Lemma dict_set_keys_present (d : pydict) (k : string) (v : pyval) :
  dict_has d k = true -> dict_keys (dict_set d k v) = dict_keys d.
Proof.
  unfold dict_has, dict_keys. induction d as [|[k' v'] d IH]; cbn.
  - discriminate.
  - destruct (String.eqb_spec k k') as [->|Hne]; cbn; [reflexivity|].
    intros Hhas. now rewrite IH.
Qed.

Lemma set_fields_keys (ctx kwargs : pydict) :
  dict_keys (set_fields ctx kwargs) = dict_keys ctx.
Proof.
  revert ctx. induction kwargs as [|[key value] rest IH]; intros ctx; cbn.
  - reflexivity.
  - rewrite IH. destruct (dict_has ctx key) eqn:Hhas; [|reflexivity].
    now apply dict_set_keys_present.
Qed.

(** What [update_context] leaves in a field: the keyword argument of that
    name, if there is one. *)
Lemma set_fields_lookup (ctx kwargs : pydict) (k : string) :
  NoDup (dict_keys kwargs) ->
  dict_lookup (set_fields ctx kwargs) k =
    match dict_lookup ctx k with
    | Some old => Some (dict_get kwargs k old)
    | None => None
    end.
Proof.
  revert ctx. induction kwargs as [|[key value] rest IH]; intros ctx Hnd.
  - cbn. unfold dict_get. cbn. now destruct (dict_lookup ctx k).
  - cbn [set_fields]. cbn in Hnd. inversion Hnd as [|? ? Hnotin Hnd']; subst.
    rewrite (IH _ Hnd'). unfold dict_get at 2. cbn [dict_lookup].
    destruct (String.eqb_spec k key) as [->|Hne].
    + assert (Hmiss : dict_lookup rest key = None).
      { destruct (dict_lookup rest key) eqn:E; [|reflexivity].
        exfalso. apply Hnotin. apply dict_has_keys. unfold dict_has.
        now rewrite E. }
      unfold dict_has. destruct (dict_lookup ctx key) eqn:Hold.
      * rewrite dict_lookup_set_same. unfold dict_get. now rewrite Hmiss.
      * now rewrite Hold.
    + assert (Hsame :
        dict_lookup (if dict_has ctx key then dict_set ctx key value else ctx)
          k = dict_lookup ctx k).
      { destruct (dict_has ctx key); [|reflexivity].
        now apply dict_lookup_set_other. }
      rewrite Hsame. reflexivity.
Qed.

Lemma update_context_context (self : ContextManager) (clock1 clock2 : Q)
  (kwargs : pydict) :
  context (update_context self clock1 clock2 kwargs) =
    dict_set (set_fields (context self) kwargs) "timestamp"
      (VFloat (FFin clock1)).
Proof. unfold update_context. now rewrite record_state_change_context. Qed.

Lemma update_context_keys (self : ContextManager) (clock1 clock2 : Q)
  (kwargs : pydict) :
  dict_has (context self) "timestamp" = true ->
  dict_keys (context (update_context self clock1 clock2 kwargs)) =
    dict_keys (context self).
Proof.
  intros Hts. rewrite update_context_context.
  rewrite dict_set_keys_present; [apply set_fields_keys|].
  apply dict_has_keys. rewrite set_fields_keys. now apply dict_has_keys.
Qed.

Lemma update_context_lookup (self : ContextManager) (clock1 clock2 : Q)
  (kwargs : pydict) (k : string) :
  NoDup (dict_keys kwargs) -> k <> "timestamp" ->
  dict_lookup (context (update_context self clock1 clock2 kwargs)) k =
    match dict_lookup (context self) k with
    | Some old => Some (dict_get kwargs k old)
    | None => None
    end.
Proof.
  intros Hnd Hne. rewrite update_context_context.
  rewrite dict_lookup_set_other by exact Hne.
  now apply set_fields_lookup.
Qed.

Lemma update_context_timestamp (self : ContextManager) (clock1 clock2 : Q)
  (kwargs : pydict) :
  dict_lookup (context (update_context self clock1 clock2 kwargs))
    "timestamp" = Some (VFloat (FFin clock1)).
Proof. rewrite update_context_context. apply dict_lookup_set_same. Qed.

Lemma is_race_context_has (ctx : pydict) (k : string) :
  is_race_context ctx -> In k (dict_keys RaceContext_default) ->
  exists v, dict_lookup ctx k = Some v.
Proof.
  intros Hctx Hin. rewrite <- Hctx in Hin. apply dict_has_keys in Hin.
  unfold dict_has in Hin. destruct (dict_lookup ctx k); [eauto|discriminate].
Qed.

Lemma update_context_race_context (self : ContextManager) (clock1 clock2 : Q)
  (kwargs : pydict) :
  is_race_context (context self) ->
  is_race_context (context (update_context self clock1 clock2 kwargs)).
Proof.
  intros Hctx. unfold is_race_context. rewrite update_context_keys; [exact Hctx|].
  apply dict_has_keys. rewrite Hctx. cbn. tauto.
Qed.

Lemma changed_fields_lookup (old_state new_state : pydict)
  (keys : list string) (k : string) :
  In k keys ->
  py_eq (dict_get old_state k VNone) (dict_get new_state k VNone) = false ->
  dict_lookup (changed_fields old_state new_state keys) k =
    Some (VDict [("old", dict_get old_state k VNone);
                 ("new", dict_get new_state k VNone)]).
Proof.
  intros Hin Hneq. induction keys as [|key rest IH]; [contradiction|].
  cbn [changed_fields].
  destruct (String.eqb_spec k key) as [->|Hne].
  - rewrite Hneq. cbn. now rewrite String.eqb_refl.
  - assert (Hrest : In k rest) by (destruct Hin; [congruence|assumption]).
    destruct (negb (py_eq (dict_get old_state key VNone)
                      (dict_get new_state key VNone))); [|auto].
    cbn. destruct (String.eqb_spec k key); [contradiction|auto].
Qed.

Lemma update_context_history (self : ContextManager) (clock1 clock2 : Q)
  (kwargs : pydict) :
  history (update_context self clock1 clock2 kwargs) = history self.
Proof.
  unfold update_context, _record_state_change.
  now destruct (changed_fields _ _ _).
Qed.

(** X10.  [update_context] on keyword arguments that name fields of the
    context: the key list of the context is unchanged, every field other
    than the timestamp holds its keyword argument if it has one and its old
    value otherwise, the timestamp is the clock reading, [history] is never
    written, and the log of state changes only grows, by at most one record.
    It grows by exactly one whenever the clock reading differs from the
    stored timestamp, even if no field received a new value: the record
    lists the timestamp among the changes. *)
Theorem update_context_sets_fields_and_logs (self : ContextManager)
  (clock1 clock2 t0 : Q) (kwargs : pydict) :
  NoDup (dict_keys kwargs) ->
  (forall k, In k (dict_keys kwargs) -> dict_has (context self) k = true) ->
  dict_lookup (context self) "timestamp" = Some (VFloat (FFin t0)) ->
  let after := update_context self clock1 clock2 kwargs in
  dict_keys (context after) = dict_keys (context self) /\
  (forall k, k <> "timestamp" ->
     dict_lookup (context after) k =
       match dict_lookup (context self) k with
       | Some old => Some (dict_get kwargs k old)
       | None => None
       end) /\
  dict_lookup (context after) "timestamp" = Some (VFloat (FFin clock1)) /\
  history after = history self /\
  (exists tail,
     state_changes after = state_changes self ++ tail /\
     (length tail <= 1)%nat) /\
  (~ t0 == clock1 ->
   exists changes,
     state_changes after =
       state_changes self ++
         [VDict [("timestamp", VFloat (FFin clock2));
                 ("changes", VDict changes)]] /\
     dict_lookup changes "timestamp" =
       Some (VDict [("old", VFloat (FFin t0));
                    ("new", VFloat (FFin clock1))])).
Proof.
  intros Hnd Hfields Hts after.
  assert (Hhas : dict_has (context self) "timestamp" = true).
  { unfold dict_has. now rewrite Hts. }
  split; [now apply update_context_keys|].
  split; [intros k Hne; now apply update_context_lookup|].
  split; [apply update_context_timestamp|].
  split; [apply update_context_history|].
  unfold after, update_context, _record_state_change.
  set (new_state := dict_set (set_fields (context self) kwargs) "timestamp"
                      (VFloat (FFin clock1))).
  split.
  - destruct (changed_fields (context self) new_state
                (dict_keys (context self))); cbn [state_changes].
    + exists []. rewrite app_nil_r. split; [reflexivity|cbn; lia].
    + eexists. split; [reflexivity|cbn; lia].
  - intros Hmoved.
    assert (Hlook :
      dict_lookup (changed_fields (context self) new_state
                     (dict_keys (context self))) "timestamp" =
        Some (VDict [("old", VFloat (FFin t0));
                     ("new", VFloat (FFin clock1))])).
    { rewrite changed_fields_lookup.
      - rewrite (dict_get_found _ _ _ _ Hts).
        unfold new_state.
        now rewrite (dict_get_found _ _ _ _ (dict_lookup_set_same _ _ _)).
      - now apply dict_has_keys.
      - rewrite (dict_get_found _ _ _ _ Hts).
        unfold new_state.
        rewrite (dict_get_found _ _ _ _ (dict_lookup_set_same _ _ _)).
        cbn. destruct (Qeq_bool t0 clock1) eqn:E; [|reflexivity].
        apply Qeq_bool_iff in E. contradiction. }
    destruct (changed_fields (context self) new_state
                (dict_keys (context self))) as [|c cs] eqn:Hch.
    + discriminate Hlook.
    + cbn [state_changes]. exists (c :: cs). split; [reflexivity|exact Hlook].
Qed.

(** The two keyword arguments a method passes to [update_context] end up in
    the context, and the other fields, the timestamp apart, stay. *)
Lemma update_context_two_fields (self : ContextManager) (clock1 clock2 : Q)
  (k1 k2 : string) (v1 v2 : pyval) :
  is_race_context (context self) ->
  In k1 (dict_keys RaceContext_default) ->
  In k2 (dict_keys RaceContext_default) ->
  k1 <> k2 -> k1 <> "timestamp" -> k2 <> "timestamp" ->
  let after := update_context self clock1 clock2 [(k1, v1); (k2, v2)] in
  dict_lookup (context after) k1 = Some v1 /\
  dict_lookup (context after) k2 = Some v2 /\
  (forall k, k <> k1 -> k <> k2 -> k <> "timestamp" ->
     dict_lookup (context after) k = dict_lookup (context self) k).
Proof.
  intros Hctx Hin1 Hin2 Hne Hts1 Hts2 after.
  assert (Hnd : NoDup (dict_keys [(k1, v1); (k2, v2)])).
  { cbn. constructor; [cbn; intuition congruence|].
    constructor; [cbn; tauto|constructor]. }
  destruct (is_race_context_has _ _ Hctx Hin1) as [o1 Ho1].
  destruct (is_race_context_has _ _ Hctx Hin2) as [o2 Ho2].
  unfold after. split; [|split].
  - rewrite update_context_lookup by assumption. rewrite Ho1.
    unfold dict_get. cbn. now rewrite String.eqb_refl.
  - rewrite update_context_lookup by assumption. rewrite Ho2.
    unfold dict_get. cbn.
    destruct (String.eqb_spec k2 k1); [congruence|].
    now rewrite String.eqb_refl.
  - intros k Hk1 Hk2 Hts. rewrite update_context_lookup by assumption.
    destruct (dict_lookup (context self) k); [|reflexivity].
    unfold dict_get. cbn.
    destruct (String.eqb_spec k k1); [contradiction|].
    destruct (String.eqb_spec k k2); [contradiction|reflexivity].
Qed.

Lemma In_race_context_field (k : string) :
  existsb (String.eqb k) (dict_keys RaceContext_default) = true ->
  In k (dict_keys RaceContext_default).
Proof.
  intros Hin. apply existsb_exists in Hin. destruct Hin as (x & Hx & E).
  apply String.eqb_eq in E. now subst.
Qed.

Lemma weather_rows (condition : string) (factor : Q) :
  In (condition, factor)
    [("RAIN", float_0_85); ("WET", float_0_9);
     ("STRONG_WIND", float_0_92); ("DRY", 1)] ->
  In condition ["RAIN"; "WET"; "STRONG_WIND"; "DRY"] /\
  float_0_85 <= factor <= 1 /\
  (factor == 1 <-> condition = "DRY").
Proof.
  intros [E|[E|[E|[E|[]]]]]; injection E as <- <-;
    (split; [cbn; tauto|]);
    (split; [split; unfold float_0_85, float_0_9, float_0_92, Qle; cbn; lia|]);
    (split; [|try discriminate; reflexivity]);
    unfold float_0_85, float_0_9, float_0_92, Qeq; cbn;
    try discriminate; reflexivity.
Qed.

Ltac rain_facts :=
  let r' := fresh "r" in
  let E := fresh "E" in
  let Hx := fresh "Hx" in
  intros r' E; first [discriminate E | injection E as <-];
  (split; split; intros Hx;
   first [discriminate Hx | lra | reflexivity | (destruct Hx; lra)]).

(** X11.  [assess_track_condition] decides by the rain first and by the
    wind only when the rain is at most 0.2.  A rain intensity that is not a
    number raises [TypeError]; with a rain above 0.2 the wind speed is never
    looked at, so the call returns whatever it is.  When the call returns,
    the condition is one of RAIN, WET, STRONG_WIND and DRY, it is RAIN
    exactly for a rain above 0.5 and WET exactly for a rain in (0.2, 0.5];
    the context holds the condition and a weather factor between 0.85 and 1
    that is 1 exactly for DRY, and no field other than these two and the
    timestamp changes. *)
Theorem track_condition_by_rain_then_wind (self : ContextManager)
  (clock1 clock2 : Q) (wind_speed rain_intensity track_grip : pyval) :
  is_race_context (context self) ->
  let call :=
    assess_track_condition self clock1 clock2 wind_speed rain_intensity
      track_grip in
  (py_num rain_intensity = None -> call = Raise TypeError) /\
  (forall r, py_num rain_intensity = Some (FFin r) -> float_0_2 < r ->
     exists condition after, call = Ok (condition, after)) /\
  (forall condition after, call = Ok (condition, after) ->
     In condition ["RAIN"; "WET"; "STRONG_WIND"; "DRY"] /\
     (forall r, py_num rain_intensity = Some (FFin r) ->
        (condition = "RAIN" <-> 1 # 2 < r) /\
        (condition = "WET" <-> float_0_2 < r /\ r <= 1 # 2)) /\
     dict_lookup (context after) "track_condition" = Some (VStr condition) /\
     (exists factor,
        dict_lookup (context after) "weather_factor" =
          Some (VFloat (FFin factor)) /\
        float_0_85 <= factor <= 1 /\
        (factor == 1 <-> condition = "DRY")) /\
     (forall k, k <> "track_condition" -> k <> "weather_factor" ->
        k <> "timestamp" ->
        dict_lookup (context after) k = dict_lookup (context self) k)).
Proof.
  intros Hctx call. unfold call, assess_track_condition.
  split; [|split].
  - intros Hnum. unfold py_gt. now rewrite Hnum.
  - intros r Hr Hlt. rewrite !(py_gt_finite _ r _ Hr). cbn [bind].
    destruct (Qlt_bool_spec (1 # 2) r); cbn [bind]; [eauto|].
    destruct (Qlt_bool_spec float_0_2 r); cbn [bind]; [eauto|lra].
  - intros condition after Hcall.
    assert (Hrow : exists factor,
      after = update_context self clock1 clock2
                [("track_condition", VStr condition);
                 ("weather_factor", VFloat (FFin factor))] /\
      In (condition, factor)
        [("RAIN", float_0_85); ("WET", float_0_9);
         ("STRONG_WIND", float_0_92); ("DRY", 1)] /\
      (forall r, py_num rain_intensity = Some (FFin r) ->
         (condition = "RAIN" <-> 1 # 2 < r) /\
         (condition = "WET" <-> float_0_2 < r /\ r <= 1 # 2))).
    { assert (H25 : float_0_2 < 1 # 2)
        by (unfold float_0_2, Qlt; cbn; lia).
      unfold py_gt in Hcall.
      destruct (py_num rain_intensity) as [[r| |]|] eqn:Hrain;
        cbn [bind] in Hcall; try discriminate Hcall.
      - destruct (Qlt_bool_spec (1 # 2) r) as [Hh|Hh]; cbn [bind] in Hcall.
        + injection Hcall as <- <-. eexists. split; [reflexivity|].
          split; [cbn; tauto|rain_facts].
        + destruct (Qlt_bool_spec float_0_2 r) as [Hl|Hl];
            cbn [bind] in Hcall.
          * injection Hcall as <- <-. eexists. split; [reflexivity|].
            split; [cbn; tauto|rain_facts].
          * destruct (py_num wind_speed) as [[w| |]|];
              cbn [bind] in Hcall; try discriminate Hcall;
              try destruct (Qlt_bool 8 w); try destruct negative;
              cbn [bind negb] in Hcall; injection Hcall as <- <-;
              (eexists; split; [reflexivity|]);
              (split; [cbn; tauto|rain_facts]).
      - destruct negative; cbn [bind negb] in Hcall.
        + destruct (py_num wind_speed) as [[w| |]|];
            cbn [bind] in Hcall; try discriminate Hcall;
            try destruct (Qlt_bool 8 w); try destruct negative;
            cbn [bind negb] in Hcall; injection Hcall as <- <-;
            (eexists; split; [reflexivity|]);
            (split; [cbn; tauto|rain_facts]).
        + injection Hcall as <- <-. eexists. split; [reflexivity|].
          split; [cbn; tauto|rain_facts].
      - destruct (py_num wind_speed) as [[w| |]|];
          cbn [bind] in Hcall; try discriminate Hcall;
          try destruct (Qlt_bool 8 w); try destruct negative;
          cbn [bind negb] in Hcall; injection Hcall as <- <-;
          (eexists; split; [reflexivity|]);
          (split; [cbn; tauto|rain_facts]). }
    destruct Hrow as (factor & -> & Hrow & Hrain).
    destruct (weather_rows _ _ Hrow) as (Hin & Hrange & Hdry).
    destruct (update_context_two_fields self clock1 clock2
                "track_condition" "weather_factor" (VStr condition)
                (VFloat (FFin factor)) Hctx) as (Hc & Hf & Hother);
      try (apply In_race_context_field; reflexivity); try discriminate.
    split; [exact Hin|]. split; [exact Hrain|]. split; [exact Hc|].
    split; [exists factor; auto|exact Hother].
Qed.

Lemma float_lt_finite_mono (eff : pyfloat) (q q' : Q) :
  q <= q' -> float_lt eff (FFin q) = true -> float_lt eff (FFin q') = true.
Proof.
  intros Hle. destruct eff as [a|negative|]; cbn; auto.
  intros Hlt. apply Qlt_bool_iff in Hlt. apply Qlt_bool_iff. lra.
Qed.

Lemma filter_length_mono {A : Type} (f g : A -> bool) (l : list A) :
  (forall x, f x = true -> g x = true) ->
  (length (filter f l) <= length (filter g l))%nat.
Proof.
  intros Himp. induction l as [|x l IH]; cbn; [lia|].
  destruct (f x) eqn:Ef.
  - rewrite (Himp x Ef). cbn. lia.
  - destruct (g x); cbn; lia.
Qed.

Lemma filter_nil_iff {A : Type} (f : A -> bool) (l : list A) :
  filter f l = [] <-> forall x, In x l -> f x = false.
Proof.
  induction l as [|x l IH]; cbn.
  - split; [intros _ ? []|reflexivity].
  - destruct (f x) eqn:Ef.
    + split; [discriminate|]. intros Hall.
      rewrite (Hall x (or_introl eq_refl)) in Ef. discriminate.
    + rewrite IH. split.
      * intros Hall y [<-|Hin]; auto.
      * intros Hall y Hin. apply Hall. now right.
Qed.

Lemma better_count_bounds (our : pyfloat) (l : list pyfloat) :
  (0 <= better_count our l <= Z.of_nat (length l))%Z.
Proof.
  unfold better_count.
  pose proof (filter_length_le (fun eff => float_lt eff our) l). lia.
Qed.

(** X12.  [estimate_final_rank] predicts one plus the number of competitors
    whose efficiency is strictly below ours.  The rank lies between 1 and
    the number of competitors plus one; it is 1 exactly when no competitor
    is strictly below (equal efficiencies and NaN never count); a larger
    efficiency of ours never gives a smaller rank number; the podium flag
    says the rank is at most 3; and the rank and the confidence are stored
    in the context. *)
Theorem final_rank_counts_lower_efficiencies (self : ContextManager)
  (clock1 clock2 : Q) (our_efficiency : pyfloat)
  (competitor_efficiencies : list pyfloat) (confidence : pyval) :
  is_race_context (context self) ->
  let call our :=
    estimate_final_rank self clock1 clock2 our competitor_efficiencies
      confidence in
  exists rank,
    field "predicted_rank" (fst (call our_efficiency)) = Some (VInt rank) /\
    (1 <= rank <= Z.of_nat (length competitor_efficiencies) + 1)%Z /\
    (rank = 1%Z <->
     forall eff, In eff competitor_efficiencies ->
       float_lt eff our_efficiency = false) /\
    (forall q q', our_efficiency = FFin q -> q <= q' ->
       exists rank',
         field "predicted_rank" (fst (call (FFin q'))) = Some (VInt rank') /\
         (rank <= rank')%Z) /\
    field "podium_chance" (fst (call our_efficiency)) =
      Some (VBool (Z.leb rank 3)) /\
    field "confidence" (fst (call our_efficiency)) = Some confidence /\
    dict_lookup (context (snd (call our_efficiency))) "current_rank" =
      Some (VInt rank) /\
    dict_lookup (context (snd (call our_efficiency))) "ranking_confidence" =
      Some confidence.
Proof.
  intros Hctx call.
  exists (better_count our_efficiency competitor_efficiencies + 1)%Z.
  pose proof (better_count_bounds our_efficiency competitor_efficiencies)
    as Hbounds.
  destruct (update_context_two_fields self clock1 clock2
              "current_rank" "ranking_confidence"
              (VInt (better_count our_efficiency competitor_efficiencies + 1))
              confidence Hctx) as (Hrank & Hconf & _);
    try (apply In_race_context_field; reflexivity); try discriminate.
  split; [reflexivity|]. split; [lia|]. split.
  { rewrite <- filter_nil_iff. unfold better_count.
    destruct (filter _ competitor_efficiencies) as [|x l] eqn:E.
    - cbn. split; auto.
    - cbn [length]. split; [lia|discriminate]. }
  split.
  { intros q q' -> Hle. eexists. split; [reflexivity|].
    unfold better_count.
    pose proof (filter_length_mono
                  (fun eff => float_lt eff (FFin q))
                  (fun eff => float_lt eff (FFin q'))
                  competitor_efficiencies
                  (fun eff => float_lt_finite_mono eff q q' Hle)).
    lia. }
  split; [reflexivity|]. split; [reflexivity|].
  split; [exact Hrank|exact Hconf].
Qed.

Lemma pit_actions_nonempty (reason : string) :
  exists first rest, _get_pit_actions reason = VList (VStr first :: rest).
Proof.
  unfold _get_pit_actions, dict_get, pit_actions. cbn.
  repeat match goal with
         | |- context [String.eqb reason ?s] =>
             destruct (String.eqb reason s)
         end; eauto.
Qed.

(** X13.  A pit stop that is planned and then executed: while planned, the
    context says so and holds the ETA, and the plan lists at least one
    action (an unknown reason gets the one general action); after the
    execution the context says no stop is planned and the ETA is 0, and
    every field other than these two and the timestamp is what it was
    before the plan.  The context keeps the fields of a [RaceContext]
    throughout. *)
Theorem pit_stop_round_trip (self : ContextManager)
  (clock1 clock2 clock1' clock2' clock3 : Q) (reason : string)
  (estimated_eta_seconds actions_completed : pyval) :
  is_race_context (context self) ->
  let planned :=
    plan_pit_stop self clock1 clock2 reason estimated_eta_seconds in
  let done :=
    execute_pit_stop (snd planned) clock1' clock2' clock3
      actions_completed in
  dict_lookup (context (snd planned)) "pit_stop_planned" = Some (VBool true) /\
  dict_lookup (context (snd planned)) "pit_stop_eta" =
    Some estimated_eta_seconds /\
  (exists first rest,
     field "planned_actions" (fst planned) =
       Some (VList (VStr first :: rest))) /\
  (~ In reason (dict_keys pit_actions) ->
   field "planned_actions" (fst planned) =
     Some (VList [VStr "General pit stop"])) /\
  dict_lookup (context (snd done)) "pit_stop_planned" = Some (VBool false) /\
  dict_lookup (context (snd done)) "pit_stop_eta" = Some (VInt 0) /\
  (forall k, k <> "pit_stop_planned" -> k <> "pit_stop_eta" ->
     k <> "timestamp" ->
     dict_lookup (context (snd done)) k = dict_lookup (context self) k) /\
  field "actions_completed" (fst done) = Some actions_completed /\
  is_race_context (context (snd done)).
Proof.
  intros Hctx planned done.
  unfold done, execute_pit_stop, planned, plan_pit_stop. cbn [fst snd].
  set (mid := update_context self clock1 clock2
                [("pit_stop_planned", VBool true);
                 ("pit_stop_eta", estimated_eta_seconds)]).
  assert (Hmid : is_race_context (context mid))
    by now apply update_context_race_context.
  destruct (update_context_two_fields self clock1 clock2
              "pit_stop_planned" "pit_stop_eta" (VBool true)
              estimated_eta_seconds Hctx) as (Hp1 & Hp2 & Hp3);
    try (apply In_race_context_field; reflexivity); try discriminate.
  destruct (update_context_two_fields mid clock1' clock2'
              "pit_stop_planned" "pit_stop_eta" (VBool false)
              (VInt 0) Hmid) as (Hd1 & Hd2 & Hd3);
    try (apply In_race_context_field; reflexivity); try discriminate.
  fold mid in Hp1, Hp2, Hp3.
  split; [exact Hp1|]. split; [exact Hp2|]. split.
  { destruct (pit_actions_nonempty reason) as (first & rest & E).
    exists first, rest. cbn. now rewrite E. }
  split.
  { intros Hnot. cbn. unfold _get_pit_actions.
    rewrite dict_get_missing; [reflexivity|].
    destruct (dict_lookup pit_actions reason) eqn:E; [|reflexivity].
    exfalso. apply Hnot. apply dict_has_keys. unfold dict_has.
    now rewrite E. }
  split; [exact Hd1|]. split; [exact Hd2|]. split.
  { intros k H1 H2 H3. rewrite Hd3 by assumption. now apply Hp3. }
  split; [reflexivity|]. now apply update_context_race_context.
Qed.

(** * Flattening a nested dictionary *)

Lemma dict_set_keys_nodup (d : pydict) (k : string) (v : pyval) :
  NoDup (dict_keys d) -> NoDup (dict_keys (dict_set d k v)).
Proof.
  intros Hnd. destruct (dict_has d k) eqn:Hhas.
  - now rewrite dict_set_keys_present.
  - assert (Hfresh : ~ In k (dict_keys d)).
    { intros Hin. apply dict_has_keys in Hin. congruence. }
    rewrite dict_set_fresh, dict_keys_app by exact Hfresh. cbn.
    apply NoDup_app; [exact Hnd|constructor; [tauto|constructor]|].
    intros x Hx [<-|[]]. contradiction.
Qed.

Lemma dict_set_In (d : pydict) (k k' : string) (v v' : pyval) :
  In (k, v) (dict_set d k' v') -> (k, v) = (k', v') \/ In (k, v) d.
Proof.
  induction d as [|[k0 v0] d IH]; cbn.
  - intros [E|[]]. left. now symmetry.
  - destruct (String.eqb k' k0); cbn.
    + intros [E|Hin]; [left; now symmetry|right; now right].
    + intros [E|Hin]; [right; now left|].
      destruct (IH Hin); [now left|right; now right].
Qed.

Lemma fold_set_keys_nodup (items : list (string * pyval)) (d : pydict) :
  NoDup (dict_keys d) ->
  NoDup (dict_keys
           (fold_left (fun d kv => dict_set d (fst kv) (snd kv)) items d)).
Proof.
  revert d. induction items as [|[k v] items IH]; intros d Hnd; cbn.
  - exact Hnd.
  - apply IH. now apply dict_set_keys_nodup.
Qed.

Lemma fold_set_In (items : list (string * pyval)) (d : pydict)
  (k : string) (v : pyval) :
  In (k, v) (fold_left (fun d kv => dict_set d (fst kv) (snd kv)) items d) ->
  In (k, v) d \/ In (k, v) items.
Proof.
  revert d. induction items as [|[k' v'] items IH]; intros d; cbn.
  - now left.
  - intros Hin. destruct (IH _ Hin) as [Hd|Hi]; [|right; now right].
    destruct (dict_set_In _ _ _ _ _ Hd) as [E|Hd']; [|now left].
    right. left. now symmetry.
Qed.

Lemma fold_set_distinct (items : list (string * pyval)) (d : pydict) :
  NoDup (map fst items) ->
  (forall k, In k (map fst items) -> ~ In k (dict_keys d)) ->
  fold_left (fun d kv => dict_set d (fst kv) (snd kv)) items d = d ++ items.
Proof.
  revert d. induction items as [|[k v] items IH]; intros d Hnd Hfresh; cbn.
  - now rewrite app_nil_r.
  - cbn in Hnd. inversion Hnd as [|? ? Hk Hnd']; subst.
    rewrite dict_set_fresh by (apply Hfresh; now left).
    rewrite IH; [now rewrite <- app_assoc|exact Hnd'|].
    intros k' Hin. rewrite dict_keys_app. cbn. intros Hin'.
    apply in_app_or in Hin'. destruct Hin' as [Hd|[<-|[]]].
    + apply (Hfresh k'); [now right|exact Hd].
    + contradiction.
Qed.

Lemma dict_lookup_In (d : pydict) (k : string) (v : pyval) :
  dict_lookup d k = Some v -> In (k, v) d.
Proof.
  induction d as [|[k' v'] d IH]; cbn; [discriminate|].
  destruct (String.eqb_spec k k') as [->|Hne].
  - intros E. injection E as ->. now left.
  - intros Hl. right. now apply IH.
Qed.

Lemma In_dict_lookup (d : pydict) (k : string) (v : pyval) :
  NoDup (dict_keys d) -> In (k, v) d -> dict_lookup d k = Some v.
Proof.
  induction d as [|[k' v'] d IH]; cbn; [tauto|].
  intros Hnd [E|Hin].
  - injection E as -> ->. now rewrite String.eqb_refl.
  - inversion Hnd as [|? ? Hk Hnd']; subst.
    destruct (String.eqb_spec k k') as [->|Hne].
    + exfalso. apply Hk. unfold dict_keys.
      change k' with (fst (k', v)). now apply in_map.
    + now apply IH.
Qed.

(** The defining equation of the flattening, on a dictionary. *)
Lemma flatten_value_dict (d : pydict) (parent_key sep : string) :
  flatten_value (VDict d) parent_key sep =
    dict_of_items (flatten_items parent_key sep d).
Proof.
  cbn [flatten_value]. f_equal. unfold flatten_items.
  induction d as [|[k w] d IH]; [reflexivity|].
  cbn [flat_map fst snd]. rewrite <- IH. now destruct w.
Qed.

Lemma flatten_value_leaves (v : pyval) :
  forall parent_key sep k w,
    In (k, w) (flatten_value v parent_key sep) -> is_dict w = false.
Proof.
  induction v as [v Hv|d IH] using nested_dict_ind;
    intros parent_key sep k w Hin.
  - destruct v; try discriminate Hv; contradiction.
  - rewrite flatten_value_dict in Hin. unfold dict_of_items in Hin.
    apply fold_set_In in Hin. destruct Hin as [[]|Hin].
    unfold flatten_items in Hin. apply in_flat_map in Hin.
    destruct Hin as ([k' w'] & Hkv & Hin). cbn [fst snd] in Hin.
    rewrite Forall_forall in IH. specialize (IH _ Hkv). cbn [snd] in IH.
    destruct w'; try (destruct Hin as [E|[]]; injection E as <- <-;
                      reflexivity).
    exact (IH _ _ _ _ Hin).
Qed.

Lemma flatten_items_flat (d : pydict) (sep : string) :
  (forall k v, In (k, v) d -> is_dict v = false) ->
  flatten_items "" sep d = d.
Proof.
  unfold flatten_items. induction d as [|[k w] d IH]; intros Hflat;
    [reflexivity|].
  cbn [flat_map fst snd].
  rewrite IH by (intros k' v' Hin; apply (Hflat k' v'); now right).
  pose proof (Hflat k w (or_introl eq_refl)) as Hw.
  destruct w; try discriminate Hw; reflexivity.
Qed.

(** X14.  [flatten_nested_dict] from the top level (empty parent key): the
    result has no dictionary among its values, a dictionary that is already
    flat is returned as it is, and so flattening twice gives what flattening
    once gives. *)
Theorem flatten_is_flat_and_idempotent (d : pydict) (sep : string) :
  let out := flatten_nested_dict d "" sep in
  NoDup (dict_keys out) /\
  flat out /\
  (NoDup (dict_keys d) -> flat d -> out = d) /\
  flatten_nested_dict out "" sep = out.
Proof.
  intros out.
  assert (Hnd : NoDup (dict_keys out)).
  { unfold out, flatten_nested_dict. rewrite flatten_value_dict.
    apply fold_set_keys_nodup. constructor. }
  assert (Hflat : flat out).
  { intros k v Hl. apply dict_lookup_In in Hl.
    exact (flatten_value_leaves _ _ _ _ _ Hl). }
  assert (Hid : forall e, NoDup (dict_keys e) -> flat e ->
                          flatten_nested_dict e "" sep = e).
  { intros e Hnde Hfe. unfold flatten_nested_dict.
    rewrite flatten_value_dict, flatten_items_flat.
    - unfold dict_of_items. rewrite fold_set_distinct; auto.
    - intros k v Hin. apply (Hfe k v). now apply In_dict_lookup. }
  split; [exact Hnd|]. split; [exact Hflat|].
  split; [apply Hid|now apply Hid].
Qed.

(** * The predictors' decision logic and the cascade *)

Section PredictorsAndCascade.
Context `{PyFormat}.

(** What [predict_fatigue] returns for a class the table knows. *)
Lemma predict_fatigue_returns (prediction : Z) (confidence : Q)
  (heart_rate spo2_pct : pyval) (low fast : bool) :
  (0 <= prediction <= 3)%Z ->
  known_below spo2_pct 90 = Ok low ->
  known_above heart_rate 180 = Ok fast ->
  exists pct action name,
    predict_fatigue prediction confidence heart_rate spo2_pct =
      Ok (VDict [("fatigue_level", VInt (if low then 3%Z else prediction));
                 ("fatigue_pct", VFloat (FFin pct));
                 ("action", VStr action);
                 ("confidence", VFloat (FFin confidence));
                 ("medical_alerts",
                  VList ((if low then [hypoxia_alert spo2_pct] else []) ++
                         (if fast then [high_hr_alert heart_rate] else [])));
                 ("level_names", VStr name)]).
Proof.
  intros Hclass Hlow Hfast. unfold predict_fatigue.
  rewrite Hlow, Hfast. cbn [bind].
  assert (Hcases : prediction = 0%Z \/ prediction = 1%Z \/
                   prediction = 2%Z \/ prediction = 3%Z) by lia.
  destruct Hcases as [ -> | [ -> | [ -> | -> ]]]; destruct low, fast;
    cbn [int_item Z.eqb class_to_pct bind app truthy py_item0 hypoxia_alert
         high_hr_alert dict_item dict_lookup String.eqb Ascii.eqb Bool.eqb
         fatigue_actions Pos.eqb];
    rewrite ?Hlow; cbn [bind]; do 3 eexists; reflexivity.
Qed.

(** X15.  The vital signs given to [predict_fatigue] decide Phase 1 of the
    cascade when no anomaly is detected.  For a class from 0 to 3 and vital
    signs that are absent or numbers, the predictor returns, and on a result
    set holding its answer: an oxygen saturation below 90 gives the
    MEDICAL_ALERT of severity CRITICAL with reason HYPOXIA_RISK, whatever
    the heart rate is (the hypoxia alert is always the first of the list),
    and the cascade returns the early safety decision; otherwise a heart
    rate above 180 gives the MEDICAL_ALERT of severity HIGH with reason
    HIGH_HR; otherwise the safety phase returns HIGH_FATIGUE for class 3
    and nothing for the classes below. *)
Theorem vital_signs_decide_the_safety_phase (prediction : Z) (confidence : Q)
  (heart_rate spo2_pct : pyval) (low fast : bool) :
  (0 <= prediction <= 3)%Z ->
  known_below spo2_pct 90 = Ok low ->
  known_above heart_rate 180 = Ok fast ->
  exists result,
    predict_fatigue prediction confidence heart_rate spo2_pct = Ok result /\
    forall model_results race_context,
      no_anomaly model_results ->
      dict_lookup model_results "fatigue" = Some result ->
      exists action,
        _check_safety_constraints model_results race_context = Ok action /\
        (low = true ->
         has_kind "MEDICAL_ALERT" action = true /\
         field "severity" action = Some (VStr "CRITICAL") /\
         field "reason" action = Some (VStr "HYPOXIA_RISK") /\
         apply_priority_cascade model_results race_context =
           Ok (safety_override action (VStr "CRITICAL"))) /\
        (low = false -> fast = true ->
         has_kind "MEDICAL_ALERT" action = true /\
         field "severity" action = Some (VStr "HIGH") /\
         field "reason" action = Some (VStr "HIGH_HR")) /\
        (low = false -> fast = false -> prediction = 3%Z ->
         has_kind "HIGH_FATIGUE" action = true /\
         field "severity" action = Some (VStr "HIGH")) /\
        (low = false -> fast = false -> prediction <> 3%Z ->
         action = VNone).
Proof.
  intros Hclass Hlow Hfast.
  destruct (predict_fatigue_returns prediction confidence heart_rate spo2_pct
              low fast Hclass Hlow Hfast) as (pct & advice & name & Hret).
  eexists. split; [exact Hret|].
  intros model_results race_context (detected & Hget & Hfalsy) Hfat.
  assert (Hsafety :
    _check_safety_constraints model_results race_context =
      Ok (if low then medical_alert_action
                        [("severity", VStr "CRITICAL");
                         ("alert", VStr "HYPOXIA_RISK");
                         ("value", spo2_pct);
                         ("action",
                          VStr "IMMEDIATE_ALERT: Check oxygen, open ventilation")]
          else if fast then medical_alert_action
                        [("severity", VStr "HIGH");
                         ("alert", VStr "HIGH_HR");
                         ("value", heart_rate);
                         ("action",
                          VStr "MEDICAL_CONCERN: Elevated heart rate, monitor closely")]
          else if Z.eqb prediction 3 then
            VDict [("action", VStr "HIGH_FATIGUE");
                   ("severity", VStr "HIGH");
                   ("fatigue_pct", VFloat (FFin pct));
                   ("recommendation",
                    VStr "Recommend driver rest, pit for evaluation, or abort race");
                   ("reason", VStr "Driver fatigue at critical level")]
          else VNone)).
  { unfold _check_safety_constraints. rewrite Hget. cbn [bind].
    rewrite Hfalsy. rewrite (dict_get_found _ _ _ _ Hfat).
    destruct low, fast;
      cbn [py_get bind dict_get dict_lookup String.eqb Ascii.eqb Bool.eqb
           app truthy first_alert_get py_item0 hypoxia_alert high_hr_alert];
      try reflexivity.
    unfold high_fatigue_check.
    cbn [py_get bind dict_get dict_lookup String.eqb Ascii.eqb Bool.eqb].
    assert (Hnum : py_eq_num (VInt prediction) 3 = Z.eqb prediction 3).
    { unfold py_eq_num. cbn [py_num].
      destruct (Z.eqb_spec prediction 3) as [->|Hne]; [reflexivity|].
      destruct (Qeq_bool (inject_Z prediction) 3) eqn:E; [|reflexivity].
      apply Qeq_bool_iff in E. unfold Qeq, inject_Z in E. cbn in E. lia. }
    rewrite Hnum. now destruct (Z.eqb prediction 3). }
  eexists. split; [exact Hsafety|].
  split; [|split; [|split]].
  - intros ->. split; [reflexivity|]. split; [reflexivity|].
    split; [reflexivity|].
    unfold apply_priority_cascade. rewrite Hsafety. reflexivity.
  - intros -> ->. repeat split.
  - intros -> -> ->. repeat split.
  - intros -> -> Hne. apply Z.eqb_neq in Hne. now rewrite Hne.
Qed.

(** X16.  The thresholds of [predict_energy] as Phase 2 of the cascade sees
    them.  On a result set holding the predictor's answer the energy phase
    never raises; for a predicted final charge [q] it returns DNF_RISK
    (CRITICAL) when [q <= 5], LOW_ENERGY_MARGIN (HIGH) when [5 < q < 15] and
    nothing from 15 on; a NaN prediction counts as not finishing. *)
Theorem energy_thresholds_five_and_fifteen (raw_prediction confidence : pyfloat)
  (model_results race_context : pydict) :
  dict_lookup model_results "energy" =
    Some (predict_energy raw_prediction confidence) ->
  exists action,
    _check_energy_constraints model_results race_context = Ok action /\
    (raw_prediction = FNan -> has_kind "DNF_RISK" action = true) /\
    (forall q, raw_prediction = FFin q ->
       (q <= 5 ->
        has_kind "DNF_RISK" action = true /\
        field "severity" action = Some (VStr "CRITICAL")) /\
       (5 < q -> q < 15 ->
        has_kind "LOW_ENERGY_MARGIN" action = true /\
        field "severity" action = Some (VStr "HIGH") /\
        field "margin" action = Some (VFloat (FFin (q - 5)))) /\
       (15 <= q -> action = VNone)).
Proof.
  intros Henergy. unfold _check_energy_constraints.
  rewrite (dict_get_found _ _ _ _ Henergy). unfold predict_energy.
  cbn [py_get bind dict_get dict_lookup String.eqb Ascii.eqb Bool.eqb].
  destruct raw_prediction as [q|negative|].
  - cbn [float_lt float_minus]. unfold py_eq_num. cbn [py_num].
    destruct (Qlt_bool_spec 5 q) as [Hfin|Hdnf].
    + cbn [Qeq_bool]. replace (Qeq_bool 1 0) with false by reflexivity.
      rewrite (py_lt_finite _ (q - 5) 10) by reflexivity. cbn [bind].
      destruct (Qlt_bool_spec (q - 5) 10) as [Hlow|Hhigh].
      * unfold py_format_1f. cbn [py_num bind]. eexists.
        split; [reflexivity|]. split; [discriminate|].
        intros q' E. injection E as <-.
        split; [intros; lra|]. split; [intros; repeat split|intros; lra].
      * eexists. split; [reflexivity|]. split; [discriminate|].
        intros q' E. injection E as <-.
        split; [intros; lra|]. split; [intros; lra|reflexivity].
    + replace (Qeq_bool 0 0) with true by reflexivity.
      eexists. split; [reflexivity|]. split; [discriminate|].
      intros q' E. injection E as <-.
      split; [intros; repeat split|]. split; [intros; lra|intros; lra].
  - destruct negative; cbn [float_lt float_minus andb negb];
      unfold py_eq_num; cbn [py_num].
    + replace (Qeq_bool 0 0) with true by reflexivity.
      eexists. split; [reflexivity|]. split; [discriminate|].
      intros q E. discriminate E.
    + replace (Qeq_bool 1 0) with false by reflexivity.
      unfold py_lt. cbn [py_num bind].
      eexists. split; [reflexivity|]. split; [discriminate|].
      intros q E. discriminate E.
  - cbn [float_lt float_minus]. unfold py_eq_num. cbn [py_num].
    replace (Qeq_bool 0 0) with true by reflexivity.
    eexists. split; [reflexivity|]. split; [reflexivity|].
    intros q E. discriminate E.
Qed.

End PredictorsAndCascade.

(** * Anomaly detection *)

Lemma max_by_In {A : Type} (key : A -> Z) (rest : list A) (best : A) :
  In (max_by key best rest) (best :: rest).
Proof.
  revert best. induction rest as [|x rest IH]; intros best; cbn [max_by].
  - now left.
  - destruct (IH (if Z.ltb (key best) (key x) then x else best)) as [E|Hin].
    + rewrite <- E. destruct (Z.ltb (key best) (key x)).
      * right. now left.
      * now left.
    + right. now right.
Qed.

Lemma max_by_ge {A : Type} (key : A -> Z) (rest : list A) (best x : A) :
  In x (best :: rest) -> (key x <= key (max_by key best rest))%Z.
Proof.
  revert best x. induction rest as [|y rest IH]; intros best x Hin;
    cbn [max_by].
  - destruct Hin as [<-|[]]. lia.
  - destruct (Z.ltb_spec (key best) (key y)) as [Hlt|Hge].
    + destruct Hin as [<-|[<-|Hin]].
      * pose proof (IH y y (or_introl eq_refl)). lia.
      * apply IH. now left.
      * apply IH. now right.
    + destruct Hin as [<-|[<-|Hin]].
      * apply IH. now left.
      * pose proof (IH best best (or_introl eq_refl)). lia.
      * apply IH. now right.
Qed.

Lemma finding_rank_critical (d : finding) :
  (3 <= finding_rank d)%Z <-> f_severity d = "CRITICAL".
Proof.
  unfold finding_rank.
  destruct (String.eqb_spec (f_severity d) "CRITICAL") as [E|Hne].
  - split; [auto|lia].
  - destruct (String.eqb (f_severity d) "HIGH");
      [|destruct (String.eqb (f_severity d) "MEDIUM")];
      split; try lia; contradiction.
Qed.

Lemma py_gt_above_100_above_90 (v : pyval) :
  py_gt v 100 = Ok true -> py_gt v 90 = Ok true.
Proof.
  unfold py_gt. destruct (py_num v) as [[q|negative|]|]; try discriminate.
  - intros E. injection E as E. apply Qlt_bool_iff in E. f_equal.
    apply Qlt_bool_iff. lra.
  - auto.
Qed.

Lemma known_type_not_statistical (anomaly_type : string) :
  String.prefix "STATISTICAL_" anomaly_type = true ->
  known_type anomaly_type = false.
Proof.
  intros Hprefix. unfold known_type, dict_has, recommendations.
  cbn [dict_lookup].
  repeat match goal with
         | |- context [String.eqb anomaly_type ?s] =>
             destruct (String.eqb_spec anomaly_type s) as [->|_];
             [discriminate Hprefix|]
         end.
  reflexivity.
Qed.

Lemma generate_unknown_type (anomaly_type severity : string)
  (evidence : list string) :
  known_type anomaly_type = false ->
  exists action,
    _generate_anomaly_action anomaly_type severity evidence = Ok action.
Proof.
  unfold known_type, dict_has, _generate_anomaly_action.
  destruct (dict_lookup recommendations anomaly_type); [discriminate|].
  eauto.
Qed.

Lemma generate_known_type (anomaly_type severity : string)
  (evidence : list string) :
  known_type anomaly_type = true ->
  (In severity ["CRITICAL"; "HIGH"; "MEDIUM"] ->
   exists action,
     _generate_anomaly_action anomaly_type severity evidence = Ok action) /\
  (~ In severity ["CRITICAL"; "HIGH"; "MEDIUM"] ->
   _generate_anomaly_action anomaly_type severity evidence = Raise KeyError).
Proof.
  unfold known_type, dict_has, _generate_anomaly_action.
  destruct (dict_lookup recommendations anomaly_type) as [by_severity|] eqn:E;
    [intros _|discriminate].
  assert (Hdict : exists d, by_severity = VDict d).
  { unfold recommendations in E. cbn [dict_lookup] in E.
    repeat match type of E with
           | context [String.eqb anomaly_type ?s] =>
               destruct (String.eqb anomaly_type s);
               [inversion E; eauto|]
           end.
    discriminate E. }
  destruct Hdict as [d ->]. split.
  - intros [<-|[<-|[<-|[]]]]; cbn; eauto.
  - intros Hnot. unfold dict_item, default_actions. cbn [dict_lookup].
    destruct (String.eqb_spec severity "CRITICAL") as [->|_];
      [exfalso; apply Hnot; cbn; tauto|].
    destruct (String.eqb_spec severity "HIGH") as [->|_];
      [exfalso; apply Hnot; cbn; tauto|].
    destruct (String.eqb_spec severity "MEDIUM") as [->|_];
      [exfalso; apply Hnot; cbn; tauto|].
    reflexivity.
Qed.

Section AnomalyFacts.
Context `{PyFormat}.

(** What one threshold block contributes. *)
Lemma pattern_check_inv (row : pydict) (col : string) (threshold : Q)
  (build : pyval -> res finding) (found : list finding) :
  pattern_check row col threshold build = Ok found ->
  (found = [] /\
   forall v, dict_lookup row col = Some v -> py_gt v threshold = Ok false) \/
  (exists v d,
     dict_lookup row col = Some v /\ py_gt v threshold = Ok true /\
     build v = Ok d /\ found = [d]).
Proof.
  unfold pattern_check. destruct (dict_lookup row col) as [v|].
  - intros Hret. peel Hret. destruct v0.
    + peel Hret. injection Hret as <-. right. eauto 8.
    + injection Hret as <-. left. split; [reflexivity|].
      intros v' E'. injection E' as <-. exact E.
  - intros E. injection E as <-. left. split; [reflexivity|discriminate].
Qed.

Lemma specific_patterns_spec (row : pydict) (found : option finding) :
  _detect_specific_patterns row = Ok found ->
  (forall d, found = Some d -> threshold_detection row d) /\
  (motor_above_100 row ->
   exists d, found = Some d /\ f_severity d = "CRITICAL").
Proof.
  unfold _detect_specific_patterns. intros Hret.
  peel Hret. rename v into bearing. peel Hret. rename v into motor.
  peel Hret. rename v into battery. peel Hret. rename v into wheel.
  peel Hret. rename v into current.
  assert (Hall : Forall (threshold_detection row)
                   (bearing ++ motor ++ battery ++ wheel ++ current)).
  { apply Forall_app; split;
      [|apply Forall_app; split;
        [|apply Forall_app; split; [|apply Forall_app; split]]].
    all: match goal with
         | Hc : pattern_check _ _ _ _ = Ok ?l |- Forall _ ?l =>
             destruct (pattern_check_inv _ _ _ _ _ Hc)
               as [[-> _]|(v & d & Hv & Habove & Hbuild & ->)];
             [constructor|]
         end.
    all: constructor; [|constructor].
    all: try (peel Hbuild; injection Hbuild as <-;
              split; [reflexivity|]; split; [cbn; tauto|];
              cbn [f_severity]; discriminate).
    peel Hbuild. peel Hbuild. injection Hbuild as <-.
    split; [reflexivity|]. cbn [f_severity f_type].
    destruct v0.
    - split; [cbn; tauto|]. intros _. split; [reflexivity|].
      exists v. auto.
    - split; [cbn; tauto|discriminate]. }
  split.
  - intros d ->.
    destruct (bearing ++ motor ++ battery ++ wheel ++ current)
      as [|first rest] eqn:Hdet; [discriminate Hret|].
    injection Hret as Hmain. rewrite Forall_forall in Hall.
    apply Hall. rewrite <- Hmain. apply max_by_In.
  - intros (temp & Htemp & Hhot).
    assert (Hmotor : exists d, motor = [d] /\ f_severity d = "CRITICAL").
    { match goal with
      | Hc : pattern_check row "motor_temp" _ _ = Ok motor |- _ =>
          destruct (pattern_check_inv _ _ _ _ _ Hc)
            as [[_ Hbelow]|(v & d & Hv & Habove & Hbuild & ->)]
      end.
      - specialize (Hbelow _ Htemp).
        rewrite (py_gt_above_100_above_90 _ Hhot) in Hbelow.
        discriminate Hbelow.
      - rewrite Htemp in Hv. injection Hv as <-.
        rewrite Hhot in Hbuild. cbn [bind] in Hbuild.
        peel Hbuild. injection Hbuild as <-. eauto. }
    destruct Hmotor as (d & -> & Hcrit).
    assert (Hin : In d (bearing ++ [d] ++ battery ++ wheel ++ current)).
    { apply in_or_app. right. now left. }
    destruct (bearing ++ [d] ++ battery ++ wheel ++ current)
      as [|first rest] eqn:Hdet; [contradiction|].
    injection Hret as <-. eexists. split; [reflexivity|].
    apply finding_rank_critical.
    pose proof (max_by_ge finding_rank rest first d Hin) as Hge.
    apply finding_rank_critical in Hcrit. lia.
Qed.

(** [predict_anomaly] once the threshold detector returned: the choice of
    the recommendation is all that can still fail. *)
Lemma predict_anomaly_shape (svm_pred iso_pred : Z) (iso_score : Q)
  (z_score_anomalies specific_anomalies : option finding) (row : pydict) :
  _detect_specific_patterns row = Ok specific_anomalies ->
  exists confidence evidence,
    predict_anomaly svm_pred iso_pred iso_score z_score_anomalies row =
      (action_recommend <-
         _generate_anomaly_action
           (final_type svm_pred iso_pred z_score_anomalies specific_anomalies)
           (final_severity svm_pred z_score_anomalies specific_anomalies)
           evidence ;;
       Ok (VDict
             [("anomaly_detected",
               VBool (final_detected svm_pred iso_pred z_score_anomalies
                        specific_anomalies));
              ("anomaly_type",
               VStr (final_type svm_pred iso_pred z_score_anomalies
                       specific_anomalies));
              ("severity",
               VStr (final_severity svm_pred z_score_anomalies
                       specific_anomalies));
              ("confidence", VFloat (FFin confidence));
              ("action_recommend", action_recommend);
              ("evidence", VList (map VStr evidence));
              ("lead_time_estimate_seconds",
               VInt (if final_detected svm_pred iso_pred z_score_anomalies
                          specific_anomalies then 60 else 0))])).
Proof.
  intros Hspecific. unfold predict_anomaly. rewrite Hspecific.
  cbn [bind]. unfold final_type, final_severity, final_detected.
  destruct (Z.eqb svm_pred (-1)), (Z.eqb iso_pred (-1)),
    z_score_anomalies as [z|], specific_anomalies as [s|];
    cbn [take_finding String.eqb Ascii.eqb Bool.eqb orb];
    do 2 eexists; reflexivity.
Qed.

(** X17.  An anomaly that only the isolation forest sees is lost.  With the
    SVM silent and no finding of the z-score and threshold helpers,
    [predict_anomaly] ends with the type MULTI_DIMENSIONAL and the severity
    LOW, for which [_generate_anomaly_action] evaluates
    [default_actions["LOW"]] and raises [KeyError]; the engine's wrapper
    turns that into [None], so the cycle keeps no anomaly entry.  In every
    other case (the threshold detector having returned, the z-score helper
    answering as it does) [predict_anomaly] returns, with
    [anomaly_detected] set as soon as one detector found something. *)
Theorem isolation_forest_alone_is_dropped (svm_pred iso_pred : Z)
  (iso_score : Q) (z_score_anomalies specific_anomalies : option finding)
  (row : pydict) :
  _detect_specific_patterns row = Ok specific_anomalies ->
  (forall f, z_score_anomalies = Some f -> z_score_finding f) ->
  let call :=
    predict_anomaly svm_pred iso_pred iso_score z_score_anomalies row in
  let alone :=
    isolation_forest_alone svm_pred iso_pred z_score_anomalies
      specific_anomalies in
  (alone ->
   call = Raise KeyError /\
   forall (self : InferenceEngine) (t : telemetry) (p : predictor),
     models self "anomaly" = Some p -> pred_result (p t) = call ->
     answer self t "anomaly" = VNone) /\
  (~ alone ->
   exists result,
     call = Ok result /\
     field "anomaly_detected" result =
       Some (VBool (final_detected svm_pred iso_pred z_score_anomalies
                      specific_anomalies)) /\
     (final_detected svm_pred iso_pred z_score_anomalies
        specific_anomalies = false <->
      svm_pred <> (-1)%Z /\ iso_pred <> (-1)%Z /\
      z_score_anomalies = None /\ specific_anomalies = None)).
Proof.
  intros Hspecific Hz call alone.
  destruct (predict_anomaly_shape svm_pred iso_pred iso_score
              z_score_anomalies specific_anomalies row Hspecific)
    as (confidence & evidence & Hshape).
  unfold call. rewrite Hshape. clear Hshape.
  destruct (specific_patterns_spec row _ Hspecific) as [Hsound _].
  split.
  - intros (Hiso & Hsvm & -> & ->).
    assert (Hraise :
      _generate_anomaly_action (final_type svm_pred iso_pred None None)
        (final_severity svm_pred None None) evidence = Raise KeyError).
    { unfold final_type, final_severity. apply Z.eqb_neq in Hsvm.
      rewrite Hsvm. subst iso_pred. reflexivity. }
    rewrite Hraise. split; [reflexivity|].
    intros self t p Hmodel Hresult.
    unfold answer, dispatch, _run_anomaly_inference, run_guarded.
    cbn [String.eqb Ascii.eqb Bool.eqb]. rewrite Hmodel. cbn [fst].
    now rewrite Hresult.
  - intros Hnot.
    assert (Hdetected :
      final_detected svm_pred iso_pred z_score_anomalies specific_anomalies
        = false <->
      svm_pred <> (-1)%Z /\ iso_pred <> (-1)%Z /\
      z_score_anomalies = None /\ specific_anomalies = None).
    { unfold final_detected.
      destruct specific_anomalies, z_score_anomalies;
        try (split; [discriminate|intros (_ & _ & E1 & E2); discriminate]).
      rewrite orb_false_iff, !Z.eqb_neq. tauto. }
    assert (Haction : exists action,
      _generate_anomaly_action
        (final_type svm_pred iso_pred z_score_anomalies specific_anomalies)
        (final_severity svm_pred z_score_anomalies specific_anomalies)
        evidence = Ok action).
    { unfold final_type, final_severity.
      destruct specific_anomalies as [s|].
      - destruct (Hsound s eq_refl) as (Hknown & Hsev & _).
        now apply (generate_known_type _ _ evidence Hknown).
      - destruct z_score_anomalies as [z|].
        + apply generate_unknown_type, known_type_not_statistical.
          now destruct (Hz z eq_refl).
        + destruct (Z.eqb_spec svm_pred (-1)) as [Hsvm|Hsvm];
            [apply generate_unknown_type; reflexivity|].
          destruct (Z.eqb_spec iso_pred (-1)) as [Hiso|Hiso];
            [|apply generate_unknown_type; reflexivity].
          exfalso. apply Hnot. repeat split; assumption. }
    destruct Haction as [action ->]. cbn [bind]. eexists.
    split; [reflexivity|]. split; [reflexivity|exact Hdetected].
Qed.

(** X18.  [predict_anomaly] reports the severity CRITICAL exactly when the
    motor temperature of the sample is above 100: the threshold detector is
    the only source of CRITICAL, and its motor finding then outranks every
    other finding and overrides what the earlier detectors said.  In that
    case the type is MOTOR_OVERHEAT, and a result set holding this answer
    makes the cascade return the early safety decision with the
    ANOMALY_DETECTED action. *)
Theorem critical_anomaly_is_a_motor_above_100 (svm_pred iso_pred : Z)
  (iso_score : Q) (z_score_anomalies : option finding) (row : pydict)
  (result : pyval) :
  (forall f, z_score_anomalies = Some f -> z_score_finding f) ->
  predict_anomaly svm_pred iso_pred iso_score z_score_anomalies row =
    Ok result ->
  (field "severity" result = Some (VStr "CRITICAL") <-> motor_above_100 row) /\
  (motor_above_100 row ->
   field "anomaly_type" result = Some (VStr "MOTOR_OVERHEAT") /\
   field "anomaly_detected" result = Some (VBool true) /\
   forall model_results race_context,
     dict_lookup model_results "anomaly" = Some result ->
     exists action,
       apply_priority_cascade model_results race_context =
         Ok (safety_override action (VStr "CRITICAL")) /\
       has_kind "ANOMALY_DETECTED" action = true /\
       field "type" action = Some (VStr "MOTOR_OVERHEAT")).
Proof.
  intros Hz Hret.
  assert (Hspecific : exists specific_anomalies,
            _detect_specific_patterns row = Ok specific_anomalies).
  { unfold predict_anomaly in Hret.
    destruct (_detect_specific_patterns row); [eauto|discriminate Hret]. }
  destruct Hspecific as [specific_anomalies Hspecific].
  destruct (predict_anomaly_shape svm_pred iso_pred iso_score
              z_score_anomalies specific_anomalies row Hspecific)
    as (confidence & evidence & Hshape).
  rewrite Hshape in Hret. clear Hshape. peel Hret.
  injection Hret as <-.
  destruct (specific_patterns_spec row _ Hspecific) as [Hsound Hhot].
  assert (Hsev :
    final_severity svm_pred z_score_anomalies specific_anomalies = "CRITICAL"
    <-> motor_above_100 row).
  { split.
    - unfold final_severity. destruct specific_anomalies as [s|].
      + intros Hcrit. now destruct (Hsound s eq_refl) as (_ & _ & Hm);
          destruct (Hm Hcrit).
      + destruct z_score_anomalies as [z|].
        * intros Hcrit. destruct (Hz z eq_refl) as [_ Hin].
          rewrite Hcrit in Hin. cbn in Hin. intuition discriminate.
        * destruct (Z.eqb svm_pred (-1)); discriminate.
    - intros Hmotor. destruct (Hhot Hmotor) as (d & -> & Hcrit). exact Hcrit. }
  split.
  - cbn [field dict_lookup String.eqb Ascii.eqb Bool.eqb]. rewrite <- Hsev.
    split; [intros Eq; now injection Eq|intros ->; reflexivity].
  - intros Hmotor. destruct (Hhot Hmotor) as (d & -> & Hcrit).
    destruct (Hsound d eq_refl) as (_ & _ & Hm).
    destruct (Hm Hcrit) as [Htype _].
    unfold final_type, final_severity, final_detected.
    rewrite Htype, Hcrit.
    split; [reflexivity|]. split; [reflexivity|].
    intros model_results race_context Hanomaly.
    unfold apply_priority_cascade.
    rewrite (safety_anomaly _ _ _ Hanomaly) by reflexivity.
    eexists. split; [reflexivity|]. split; reflexivity.
Qed.

End AnomalyFacts.

(** * The properties above on concrete inputs *)

Lemma cycle_overrun_within_one_call_witness :
  validate_telemetry minimal_telemetry = true /\
  exists decision elapsed,
    returned (run_real_time_inference steady_engine light_overhead 0
                minimal_telemetry [] 75) = Ok decision /\
    field "total_inference_ms" decision
    = Some (VFloat (float_of_Q (elapsed * 1000))) /\
    elapsed
    <= budget 75 + before_start light_overhead "rank"
       + latency steady_engine minimal_telemetry "rank"
       + before_stamp light_overhead.
Proof.
  split; [reflexivity|].
  assert (Hrun :
    { decision |
      returned (run_real_time_inference steady_engine light_overhead 0
                  minimal_telemetry [] 75) = Ok decision })
    by (eexists; vm_compute; reflexivity).
  destruct Hrun as [decision Hrun]. exists decision.
  destruct (cycle_overrun_within_one_call steady_engine light_overhead 0
              minimal_telemetry [] 75 decision eq_refl Hrun)
    as (elapsed & Hstamp & _ & Hbound).
  exists elapsed. split; [exact Hrun|]. split; [exact Hstamp|].
  destruct Hbound as [_ Hle]; [vm_compute; discriminate|].
  eapply Qle_trans; [exact Hle|]. vm_compute. discriminate.
Defined.

Lemma timings_follow_results_witness :
  validate_telemetry minimal_telemetry = true /\
  (let c := run_real_time_inference steady_engine light_overhead 0
              minimal_telemetry [] 75 in
   In "anomaly" (invoked c) /\
   answered steady_engine minimal_telemetry "anomaly" = true ->
   exists q,
     dict_lookup (inference_times (engine_after c)) "anomaly"
       = Some (VFloat (FFin q)) /\
     q == latency steady_engine minimal_telemetry "anomaly").
Proof.
  split; [reflexivity|].
  exact (proj1 (timings_follow_results steady_engine light_overhead 0
                  minimal_telemetry [] 75 "anomaly" eq_refl)).
Defined.

Lemma decision_severity_and_alerts_witness :
  exists decision,
    apply_priority_cascade critical_anomaly_only [] = Ok decision /\
    (field "severity" decision = Some (VStr "CRITICAL")
     <-> field "reason" decision = Some (VStr "SAFETY OVERRIDE")).
Proof.
  assert (Hrun :
    { decision | apply_priority_cascade critical_anomaly_only [] = Ok decision })
    by (eexists; vm_compute; reflexivity).
  destruct Hrun as [decision Hrun]. exists decision. split; [exact Hrun|].
  exact (proj1 (proj2 (proj2
           (decision_severity_and_alerts critical_anomaly_only [] decision
              Hrun)))).
Defined.

Lemma aggressiveness_level_by_phase_and_charge_witness :
  let race_context := [("race_phase", VStr "LATE"); ("current_soc", VInt 5)] in
  py_num (dict_get race_context "current_soc" (VInt 50))
    = Some (FFin (inject_Z 5)) /\
  exists result,
    get_aggressiveness_level race_context = Ok result /\
    field "pit_recommended" result = Some (VBool true).
Proof.
  cbn zeta. split; [reflexivity|].
  destruct (aggressiveness_level_by_phase_and_charge
              [("race_phase", VStr "LATE"); ("current_soc", VInt 5)]
              (inject_Z 5) eq_refl)
    as (result & agg & margin & Hret & _ & _ & _ & _ & _ & Hpit).
  exists result. split; [exact Hret|]. apply Hpit.
  split; [right; reflexivity|unfold Qle; cbn; lia].
Defined.

Lemma adaptive_parameters_follow_the_matrix_witness :
  dict_lookup (context ContextManager_init) "race_phase"
    = Some (VStr "UNKNOWN") /\
  match get_adaptive_parameters ContextManager_init,
        get_aggressiveness_level
          (dict_set (context ContextManager_init) "race_phase" (VStr "LATE"))
  with
  | Ok params, Ok level =>
      field "aggressiveness" params = field "aggressiveness" level /\
      field "safety_margin" params = field "safety_margin" level /\
      field "phase" params = Some (VStr "UNKNOWN") /\
      field "soc" params = Some (VFloat (FFin 100))
  | Raise e, Raise e' => e = e'
  | _, _ => False
  end.
Proof.
  split; [reflexivity|].
  exact (adaptive_parameters_follow_the_matrix ContextManager_init "UNKNOWN"
           (VFloat (FFin 100)) (VStr "UNKNOWN") (VFloat (FFin 1))
           eq_refl eq_refl eq_refl eq_refl).
Defined.

Lemma update_context_sets_fields_and_logs_witness :
  let kwargs := [("current_lap", VInt 2)] in
  NoDup (dict_keys kwargs) /\
  dict_lookup (context ContextManager_init) "timestamp"
    = Some (VFloat (FFin 0)) /\
  dict_lookup (context (update_context ContextManager_init 5 6 kwargs))
    "timestamp" = Some (VFloat (FFin 5)).
Proof.
  cbn zeta.
  assert (Hnd : NoDup (dict_keys [("current_lap", VInt 2)]))
    by (constructor; [cbn; tauto|constructor]).
  split; [exact Hnd|]. split; [reflexivity|].
  refine (proj1 (proj2 (proj2
            (update_context_sets_fields_and_logs ContextManager_init 5 6 0
               [("current_lap", VInt 2)] Hnd _ eq_refl)))).
  intros k [<-|[]]. reflexivity.
Defined.

Lemma track_condition_by_rain_then_wind_witness :
  is_race_context (context ContextManager_init) /\
  assess_track_condition ContextManager_init 5 6 (VInt 3) VNone
    (VFloat (FFin 1)) = Raise TypeError.
Proof.
  split; [reflexivity|].
  exact (proj1 (track_condition_by_rain_then_wind ContextManager_init 5 6
                  (VInt 3) VNone (VFloat (FFin 1)) eq_refl) eq_refl).
Defined.

Lemma final_rank_counts_lower_efficiencies_witness :
  is_race_context (context ContextManager_init) /\
  exists rank,
    field "predicted_rank"
      (fst (estimate_final_rank ContextManager_init 1 2 (FFin 40)
              [FFin 30; FFin 50] (VFloat (FFin float_0_7))))
      = Some (VInt rank) /\
    (1 <= rank <= 3)%Z.
Proof.
  split; [reflexivity|].
  destruct (final_rank_counts_lower_efficiencies ContextManager_init 1 2
              (FFin 40) [FFin 30; FFin 50] (VFloat (FFin float_0_7)) eq_refl)
    as (rank & Hrank & Hbounds & _).
  exists rank. split; [exact Hrank|exact Hbounds].
Defined.

Lemma pit_stop_round_trip_witness :
  is_race_context (context ContextManager_init) /\
  dict_lookup
    (context
       (snd (execute_pit_stop
               (snd (plan_pit_stop ContextManager_init 1 2 "MECHANICAL"
                       (VInt 90)))
               3 4 5 (VList []))))
    "pit_stop_planned" = Some (VBool false).
Proof.
  split; [reflexivity|].
  exact (proj1 (proj2 (proj2 (proj2 (proj2
           (pit_stop_round_trip ContextManager_init 1 2 3 4 5 "MECHANICAL"
              (VInt 90) (VList []) eq_refl)))))).
Defined.

Lemma vital_signs_decide_the_safety_phase_witness :
  known_below (VInt 85) 90 = Ok true /\
  known_above (VInt 150) 180 = Ok false /\
  exists result,
    predict_fatigue 1 (4 # 5) (VInt 150) (VInt 85) = Ok result.
Proof.
  split; [reflexivity|]. split; [reflexivity|].
  destruct (vital_signs_decide_the_safety_phase 1 (4 # 5) (VInt 150)
              (VInt 85) true false ltac:(lia) eq_refl eq_refl)
    as (result & Hret & _).
  exists result. exact Hret.
Defined.

Lemma energy_thresholds_five_and_fifteen_witness :
  let model_results :=
    [("energy", predict_energy (FFin 12) (FFin (9 # 10)))] in
  dict_lookup model_results "energy"
    = Some (predict_energy (FFin 12) (FFin (9 # 10))) /\
  exists action,
    _check_energy_constraints model_results [] = Ok action /\
    has_kind "LOW_ENERGY_MARGIN" action = true.
Proof.
  cbn zeta. split; [reflexivity|].
  destruct (energy_thresholds_five_and_fifteen (FFin 12) (FFin (9 # 10))
              [("energy", predict_energy (FFin 12) (FFin (9 # 10)))] []
              eq_refl) as (action & Hret & _ & Hfinite).
  exists action. split; [exact Hret|].
  destruct (Hfinite 12 eq_refl) as (_ & Hlow & _).
  apply Hlow; unfold Qlt; cbn; lia.
Defined.

Lemma isolation_forest_alone_is_dropped_witness :
  _detect_specific_patterns [] = Ok None /\
  predict_anomaly 1 (-1) (- (3 # 5)) None [] = Raise KeyError.
Proof.
  split; [reflexivity|].
  refine (proj1 (proj1 (isolation_forest_alone_is_dropped 1 (-1) (- (3 # 5))
                          None None [] eq_refl _) _)).
  - intros f E. discriminate E.
  - repeat split. discriminate.
Defined.

Lemma critical_anomaly_is_a_motor_above_100_witness :
  let row := [("motor_temp", VFloat (FFin 105))] in
  exists result,
    predict_anomaly 1 1 (3 # 5) None row = Ok result /\
    field "severity" result = Some (VStr "CRITICAL").
Proof.
  cbn zeta.
  assert (Hrun :
    { result |
      predict_anomaly 1 1 (3 # 5) None [("motor_temp", VFloat (FFin 105))]
        = Ok result })
    by (eexists; vm_compute; reflexivity).
  destruct Hrun as [result Hrun]. exists result. split; [exact Hrun|].
  refine (proj2 (proj1 (critical_anomaly_is_a_motor_above_100 1 1 (3 # 5)
                          None [("motor_temp", VFloat (FFin 105))] result
                          _ Hrun)) _).
  - intros f E. discriminate E.
  - exists (VFloat (FFin 105)). split; reflexivity.
Defined.

(** * The API server's helpers *)

Section DashboardFacts.
Context `{PyFormat}.

(** X19.  A cycle on invalid telemetry reaches the dashboard as an ordinary
    engine answer.  The engine returns its FALLBACK response, which has no
    primary action, severity or timing; [_engine_to_dashboard_payload] then
    reports the source [kerangka_ml_engine], the severity NORMAL, an empty
    primary action, 0 ms, the anomaly text "No critical events", the racing
    line text "Line stable, continue current trajectory", and, the engine's
    list being empty, the heuristic's list of executed models.  The
    FALLBACK status, its reason and its recommendations are not in the
    payload. *)
Theorem engine_fallback_is_shown_as_normal (self : InferenceEngine)
  (oh : overhead) (clock : Q) (t : telemetry) (race_context : pydict)
  (timeout_ms : Z)
  (fallback ph2_energy ucbe_energy fatigue catalog : pyval) :
  validate_telemetry t = false ->
  py_path fallback ["insights"; "ph2"; "energy"] = Ok ph2_energy ->
  py_path fallback ["insights"; "ucbe"; "energy"] = Ok ucbe_energy ->
  py_path fallback ["insights"; "ucbe"; "fatigue"] = Ok fatigue ->
  py_path fallback ["models_executed"] = Ok catalog ->
  exists decision payload,
    returned (run_real_time_inference self oh clock t race_context timeout_ms)
      = Ok decision /\
    field "status" decision = Some (VStr "FALLBACK") /\
    _engine_to_dashboard_payload decision fallback = Ok payload /\
    py_path payload ["source"] = Ok (VStr "kerangka_ml_engine") /\
    py_path payload ["engine"; "severity"] = Ok (VStr "NORMAL") /\
    py_path payload ["engine"; "primary_action"] = Ok (VDict []) /\
    py_path payload ["engine"; "total_inference_ms"] = Ok (VInt 0) /\
    py_path payload ["insights"; "ph2"; "anomaly"]
      = Ok (VStr "No critical events") /\
    py_path payload ["insights"; "racingLine"]
      = Ok (VStr "Line stable, continue current trajectory") /\
    py_path payload ["models_executed"] = Ok catalog /\
    (forall k, In k ["status"; "reason"; "recommendations"] ->
       field k payload = None).
Proof.
  intros Hinvalid Hph2 Hucbe Hfatigue Hcatalog.
  rewrite (invalid_telemetry_falls_back _ _ _ _ _ _ Hinvalid).
  cbn [returned]. do 2 eexists. split; [reflexivity|].
  split; [reflexivity|].
  unfold _engine_to_dashboard_payload, _generate_fallback_response.
  cbn [py_get bind dict_get dict_lookup String.eqb Ascii.eqb Bool.eqb
       py_or truthy].
  rewrite Hph2, Hucbe, Hcatalog, Hfatigue. cbn [bind].
  split; [reflexivity|]. repeat (split; [reflexivity|]).
  intros k [<-|[<-|[<-|[]]]]; reflexivity.
Qed.

End DashboardFacts.

Lemma dict_lookup_absent (d : pydict) (k : string) :
  ~ In k (dict_keys d) -> dict_lookup d k = None.
Proof.
  intros Hnot. destruct (dict_lookup d k) eqn:E; [|reflexivity].
  exfalso. apply Hnot, dict_has_keys. unfold dict_has. now rewrite E.
Qed.

(** Two dictionaries with the same keys in the same order and the same
    values are the same dictionary. *)
Lemma dict_ext (d e : pydict) :
  dict_keys d = dict_keys e -> NoDup (dict_keys d) ->
  (forall k, dict_lookup d k = dict_lookup e k) -> d = e.
Proof.
  revert e. induction d as [|[k v] d IH]; intros [|[k' w] e] Hkeys Hnd Hlook;
    try discriminate Hkeys; [reflexivity|].
  cbn in Hkeys. injection Hkeys as <- Hkeys.
  cbn in Hnd. inversion Hnd as [|? ? Hk Hnd']; subst.
  pose proof (Hlook k) as Hv. cbn in Hv. rewrite String.eqb_refl in Hv.
  injection Hv as <-. f_equal. apply IH; [exact Hkeys|exact Hnd'|].
  intros k'. destruct (String.eqb_spec k' k) as [->|Hne].
  - rewrite !dict_lookup_absent; [reflexivity| |exact Hk].
    unfold dict_keys in *. now rewrite <- Hkeys.
  - specialize (Hlook k'). cbn in Hlook.
    destruct (String.eqb_spec k' k); [contradiction|exact Hlook].
Qed.

Lemma override_flags_spec (model_flags : pydict) (keys : list string)
  (default : pydict) :
  NoDup keys ->
  (forall k, In k keys -> dict_has default k = true) ->
  dict_keys (override_flags model_flags keys default) = dict_keys default /\
  forall k,
    dict_lookup (override_flags model_flags keys default) k =
      if existsb (String.eqb k) keys && dict_has model_flags k then
        Some (VBool (truthy (dict_get model_flags k VNone)))
      else dict_lookup default k.
Proof.
  unfold override_flags. revert default.
  induction keys as [|key keys IH]; intros default Hnd Hhas;
    cbn [fold_left existsb].
  - split; [reflexivity|]. intros k. reflexivity.
  - inversion Hnd as [|? ? Hkey Hnd']; subst.
    set (default' :=
           if dict_has model_flags key then
             dict_set default key
               (VBool (truthy (dict_get model_flags key VNone)))
           else default).
    assert (Hkeys' : dict_keys default' = dict_keys default).
    { unfold default'. destruct (dict_has model_flags key); [|reflexivity].
      apply dict_set_keys_present, Hhas. now left. }
    assert (Hhas' : forall k, In k keys -> dict_has default' k = true).
    { intros k Hin. apply dict_has_keys. rewrite Hkeys'.
      apply dict_has_keys, Hhas. now right. }
    destruct (IH default' Hnd' Hhas') as [IHkeys IHlook].
    split; [now rewrite IHkeys|].
    intros k. rewrite IHlook.
    destruct (String.eqb_spec k key) as [->|Hne].
    + assert (Hout : existsb (String.eqb key) keys = false).
      { destruct (existsb (String.eqb key) keys) eqn:E; [|reflexivity].
        apply existsb_exists in E. destruct E as (x & Hx & Ex).
        apply String.eqb_eq in Ex. subst x. contradiction. }
      rewrite Hout. cbn [orb andb]. unfold default'.
      destruct (dict_has model_flags key); [|reflexivity].
      apply dict_lookup_set_same.
    + cbn [orb]. assert (Hsame : dict_lookup default' k = dict_lookup default k).
      { unfold default'. destruct (dict_has model_flags key); [|reflexivity].
        now apply dict_lookup_set_other. }
      now rewrite Hsame.
Qed.

Lemma training_default_NoDup : NoDup (dict_keys training_default).
Proof.
  cbn. repeat (constructor; [cbn; intuition discriminate|]). constructor.
Qed.

(** What [_normalize_training_models] leaves under each of the eight
    names. *)
Lemma normalize_lookup (model_flags : pydict) (k : string) :
  dict_keys (_normalize_training_models model_flags)
    = dict_keys training_default /\
  dict_lookup (_normalize_training_models model_flags) k =
    if existsb (String.eqb k) (dict_keys training_default) then
      Some (VBool match dict_lookup model_flags k with
                  | Some v => truthy v
                  | None => true
                  end)
    else None.
Proof.
  assert (Hdefault : forall k',
    dict_lookup training_default k' =
      if existsb (String.eqb k') (dict_keys training_default)
      then Some (VBool true) else None).
  { intros k'. cbn.
    repeat match goal with
           | |- context [String.eqb k' ?s] => destruct (String.eqb k' s)
           end; reflexivity. }
  unfold _normalize_training_models. cbn zeta.
  destruct model_flags as [|kv flags].
  - cbn [truthy negb]. split; [reflexivity|]. rewrite Hdefault.
    now destruct (existsb _ _).
  - cbn [truthy negb].
    destruct (override_flags_spec (kv :: flags) (dict_keys training_default)
                training_default training_default_NoDup) as [Hkeys Hlook].
    { intros k' Hin. now apply dict_has_keys. }
    split; [exact Hkeys|]. rewrite Hlook, Hdefault.
    unfold dict_has, dict_get.
    destruct (existsb (String.eqb k) (dict_keys training_default));
      [|reflexivity].
    cbn [andb]. now destruct (dict_lookup (kv :: flags) k).
Qed.

(** X20.  [_normalize_training_models] always returns the eight model names
    in their fixed order, each with a boolean: the truth value of the flag
    given under that name, or True when none is given; names outside the
    eight are dropped; an empty flag set turns every model on; and
    normalizing a normalized set changes nothing. *)
Theorem training_flags_normalized (model_flags : pydict) :
  let out := _normalize_training_models model_flags in
  dict_keys out = training_model_names /\
  (forall k, In k training_model_names ->
     dict_lookup out k =
       Some (VBool match dict_lookup model_flags k with
                   | Some v => truthy v
                   | None => true
                   end)) /\
  (forall k, ~ In k training_model_names -> dict_lookup out k = None) /\
  (model_flags = [] -> out = training_default) /\
  _normalize_training_models out = out.
Proof.
  intros out. unfold training_model_names.
  assert (Hin : forall k,
    existsb (String.eqb k) (dict_keys training_default) = true
    <-> In k (dict_keys training_default)).
  { intros k. rewrite existsb_exists. split.
    - intros (x & Hx & E). apply String.eqb_eq in E. now subst.
    - intros Hk. exists k. split; [exact Hk|apply String.eqb_refl]. }
  split; [apply (normalize_lookup model_flags "")|].
  split.
  { intros k Hk. destruct (normalize_lookup model_flags k) as [_ Hlook].
    apply Hin in Hk. unfold out. now rewrite Hlook, Hk. }
  split.
  { intros k Hk. destruct (normalize_lookup model_flags k) as [_ Hlook].
    unfold out. rewrite Hlook.
    destruct (existsb (String.eqb k) (dict_keys training_default)) eqn:E;
      [|reflexivity].
    apply Hin in E. contradiction. }
  split; [intros ->; reflexivity|].
  apply dict_ext.
  - destruct (normalize_lookup out "") as [-> _].
    destruct (normalize_lookup model_flags "") as [Hk _]. unfold out.
    now rewrite Hk.
  - destruct (normalize_lookup out "") as [-> _]. apply training_default_NoDup.
  - intros k. destruct (normalize_lookup out k) as [_ ->].
    destruct (normalize_lookup model_flags k) as [_ Hlook]. fold out in Hlook.
    rewrite Hlook.
    destruct (existsb (String.eqb k) (dict_keys training_default));
      [|reflexivity].
    now destruct (dict_lookup model_flags k) as [v|]; [destruct (truthy v)|].
Qed.

Lemma engine_fallback_is_shown_as_normal_witness :
  validate_telemetry frame_without_null_free_column = false /\
  exists decision payload,
    returned (run_real_time_inference steady_engine light_overhead 0
                frame_without_null_free_column [] 100) = Ok decision /\
    _engine_to_dashboard_payload decision heuristic_sample = Ok payload /\
    py_path payload ["engine"; "severity"] = Ok (VStr "NORMAL").
Proof.
  split; [reflexivity|].
  destruct (engine_fallback_is_shown_as_normal steady_engine light_overhead 0
              frame_without_null_free_column [] 100 heuristic_sample
              (VStr "42.0 km remaining fuel")
              (VStr "36.4 km remaining charge")
              (VStr "Driver alert level: LOW")
              (VList [VStr "energy"; VStr "anomaly"])
              eq_refl eq_refl eq_refl eq_refl eq_refl)
    as (decision & payload & Hret & _ & Hpay & _ & Hsev & _).
  exists decision, payload. split; [exact Hret|]. split; [exact Hpay|].
  exact Hsev.
Defined.

(** * Ranking the results *)

Lemma insert_descending_In (x y : scored) (l : list scored) :
  In y (insert_descending x l) <-> y = x \/ In y l.
Proof.
  induction l as [|z l IH]; cbn.
  - intuition.
  - destruct (float_lt (score_of z) (score_of x)); cbn; [intuition|].
    rewrite IH. intuition.
Qed.

Lemma insert_descending_length (x : scored) (l : list scored) :
  length (insert_descending x l) = S (length l).
Proof.
  induction l as [|z l IH]; cbn; [reflexivity|].
  destruct (float_lt (score_of z) (score_of x)); cbn; [reflexivity|].
  now rewrite IH.
Qed.

Lemma fold_insert_In (l acc : list scored) (y : scored) :
  In y (fold_left (fun sorted x => insert_descending x sorted) l acc)
  <-> In y l \/ In y acc.
Proof.
  revert acc. induction l as [|x l IH]; intros acc; cbn.
  - intuition.
  - rewrite IH, insert_descending_In. intuition.
Qed.

Lemma fold_insert_length (l acc : list scored) :
  length (fold_left (fun sorted x => insert_descending x sorted) l acc)
  = (length l + length acc)%nat.
Proof.
  revert acc. induction l as [|x l IH]; intros acc; cbn; [reflexivity|].
  rewrite IH, insert_descending_length. lia.
Qed.

Lemma insert_keeps_head_largest (x : scored) (l : list scored) :
  (exists q, finite_score x q) ->
  Forall (fun y => exists q, finite_score y q) l ->
  head_is_largest l -> head_is_largest (insert_descending x l).
Proof.
  intros [qx Hx] Hfin Hhead. destruct l as [|y l]; cbn; [intros ? ? ? []|].
  inversion Hfin as [|? ? [qy Hy] Hfin']; subst.
  unfold finite_score in *. rewrite Hy, Hx. cbn [float_lt].
  destruct (Qlt_bool_spec qy qx) as [Hlt|Hge]; cbn.
  - intros z qz qh [<-|Hin] Hz Hh; unfold finite_score in *.
    + rewrite Hy in Hz. rewrite Hx in Hh.
      injection Hz as <-. injection Hh as <-. lra.
    + rewrite Hx in Hh. injection Hh as <-.
      pose proof (Hhead z qz qy Hin Hz Hy). lra.
  - intros z qz qh Hin Hz Hh; unfold finite_score in *.
    rewrite Hy in Hh. injection Hh as <-.
    apply insert_descending_In in Hin. destruct Hin as [->|Hin].
    + rewrite Hx in Hz. injection Hz as <-. exact Hge.
    + exact (Hhead z qz qy Hin Hz Hy).
Qed.

Lemma fold_insert_head_largest (l acc : list scored) :
  Forall (fun y => exists q, finite_score y q) l ->
  Forall (fun y => exists q, finite_score y q) acc ->
  head_is_largest acc ->
  head_is_largest
    (fold_left (fun sorted x => insert_descending x sorted) l acc).
Proof.
  revert acc. induction l as [|x l IH]; intros acc Hl Hacc Hhead; cbn;
    [exact Hhead|].
  inversion Hl as [|? ? Hx Hl']; subst.
  apply IH; [exact Hl'| |now apply insert_keeps_head_largest].
  apply Forall_forall. intros y Hin. apply insert_descending_In in Hin.
  destruct Hin as [->|Hin]; [exact Hx|].
  rewrite Forall_forall in Hacc. now apply Hacc.
Qed.

Lemma score_results_spec (model_results : pydict) (scored_results : list scored) :
  score_results model_results = Ok scored_results ->
  (forall item, In item scored_results ->
     In (fst (fst item), result_of item) model_results /\
     truthy (result_of item) = true /\
     priority_score (fst (fst item)) (result_of item) = Ok (score_of item)) /\
  (forall model_name result,
     In (model_name, result) model_results -> truthy result = true ->
     exists score, In (model_name, score, result) scored_results) /\
  length scored_results
    = length (filter (fun kv => truthy (snd kv)) model_results).
Proof.
  revert scored_results.
  induction model_results as [|[name result] rest IH]; intros scored_results;
    cbn [score_results].
  - intros E. injection E as <-. repeat split; try contradiction.
  - cbn [filter snd]. destruct (truthy result) eqn:Htruthy; cbn [negb].
    + intros Hret. peel Hret. peel Hret. injection Hret as <-.
      destruct (IH _ E0) as (Hfrom & Hto & Hlen). split; [|split].
      * intros item [<-|Hin]; cbn [fst snd result_of score_of].
        -- split; [now left|]. split; [exact Htruthy|exact E].
        -- destruct (Hfrom item Hin) as (H1 & H2 & H3).
           split; [now right|]. split; assumption.
      * intros model_name r [Epair|Hin] Hr.
        -- injection Epair as <- <-. eexists. now left.
        -- destruct (Hto _ _ Hin Hr) as [score Hs]. exists score. now right.
      * cbn [length]. now rewrite Hlen.
    + intros Hret. destruct (IH _ Hret) as (Hfrom & Hto & Hlen).
      split; [|split].
      * intros item Hin. destruct (Hfrom item Hin) as (H1 & H2 & H3).
        split; [now right|]. split; assumption.
      * intros model_name r [Epair|Hin] Hr.
        -- injection Epair as <- <-. congruence.
        -- exact (Hto _ _ Hin Hr).
      * exact Hlen.
Qed.

(** With a confidence between 0 and 1 the score is finite: at least 80 with
    a safety flag, at most 15 without. *)
Lemma priority_score_bounds (model_name : string) (result : pyval)
  (score : pyfloat) :
  unit_confidence result ->
  priority_score model_name result = Ok score ->
  exists q,
    score = FFin q /\
    (flagged model_name result = true -> 80 <= q) /\
    (flagged model_name result = false -> q <= 15).
Proof.
  intros (d & c & -> & Hconf & Hrange) Hscore.
  unfold priority_score, flag_test in Hscore.
  cbn [py_get bind] in Hscore. rewrite Hconf in Hscore.
  cbn [bind float_times float_add] in Hscore. unfold flagged.
  destruct (String.eqb model_name "anomaly");
    [destruct (truthy (dict_get d "anomaly_detected" VNone))|];
    cbn [bind andb orb] in Hscore |- *.
  all: destruct (String.eqb model_name "fatigue");
    [destruct (truthy (dict_get d "medical_alerts" VNone))|];
    cbn [bind andb orb] in Hscore |- *.
  all: destruct (String.eqb model_name "energy");
    [destruct (truthy (dict_get d "will_finish" VNone))|];
    cbn [bind andb orb negb] in Hscore |- *.
  all: destruct (truthy (dict_get d "recommendation" VNone));
    cbn [float_add] in Hscore; injection Hscore as <-;
    eexists; (split; [reflexivity|]);
    split; intros Hflag; try discriminate Hflag; lra.
Qed.

Lemma slice_to_incl {A : Type} (l : list A) (n : Z) (x : A) :
  In x (slice_to l n) -> In x l.
Proof.
  unfold slice_to. destruct (Z.ltb n 0); apply In_firstn_weaken.
Qed.

(** X21.  [prioritize_model_outputs], when it returns: every recommendation
    is a truthy result of the result set (falsy results are skipped), there
    are at most as many as there are truthy results and, for a limit of 0 or
    more, at most the limit.  When the confidences are absent or between 0
    and 1 and the limit is at least 1, a result with a safety flag (a
    detected anomaly, medical alerts, an energy result that does not say the
    vehicle will finish) comes first as soon as there is one: any flagged
    result scores at least 80 and any other at most 15. *)
Theorem flagged_results_come_first (model_results : pydict)
  (max_recommendations : Z) (recommended : list pyval) :
  prioritize_model_outputs model_results max_recommendations
    = Ok recommended ->
  (forall result, In result recommended ->
     truthy result = true /\
     exists model_name, In (model_name, result) model_results) /\
  (length recommended
   <= length (filter (fun kv => truthy (snd kv)) model_results))%nat /\
  ((0 <= max_recommendations)%Z ->
   (length recommended <= Z.to_nat max_recommendations)%nat) /\
  ((forall model_name result,
      In (model_name, result) model_results -> truthy result = true ->
      unit_confidence result) ->
   (1 <= max_recommendations)%Z ->
   (exists model_name result,
      In (model_name, result) model_results /\ truthy result = true /\
      flagged model_name result = true) ->
   exists first rest model_name,
     recommended = first :: rest /\
     In (model_name, first) model_results /\
     flagged model_name first = true).
Proof.
  unfold prioritize_model_outputs. intros Hret. peel Hret.
  rename v into scored_results. injection Hret as <-.
  destruct (score_results_spec _ _ E) as (Hfrom & Hto & Hlen).
  assert (Hsorted_in : forall item,
            In item (sort_descending scored_results)
            <-> In item scored_results).
  { intros item. unfold sort_descending. rewrite fold_insert_In. cbn. tauto. }
  assert (Hsorted_len :
            length (sort_descending scored_results) = length scored_results).
  { unfold sort_descending. rewrite fold_insert_length. cbn. lia. }
  split; [|split; [|split]].
  - intros result Hin. apply in_map_iff in Hin.
    destruct Hin as (item & <- & Hin). apply slice_to_incl in Hin.
    apply Hsorted_in in Hin. destruct (Hfrom item Hin) as (H1 & H2 & _).
    split; [exact H2|]. eexists. exact H1.
  - rewrite length_map, <- Hlen, <- Hsorted_len. unfold slice_to.
    destruct (Z.ltb max_recommendations 0); rewrite length_firstn; lia.
  - intros Hn. rewrite length_map. unfold slice_to.
    destruct (Z.ltb_spec max_recommendations 0) as [Hneg|_]; [lia|].
    rewrite length_firstn. lia.
  - intros Hunit Hn (name & result & Hin & Htruthy & Hflag).
    assert (Hfinite : Forall (fun y => exists q, finite_score y q)
                        scored_results).
    { apply Forall_forall. intros item Hitem.
      destruct (Hfrom item Hitem) as (H1 & H2 & H3).
      destruct (priority_score_bounds _ _ _ (Hunit _ _ H1 H2) H3)
        as (q & Hq & _).
      now exists q. }
    assert (Hhead : head_is_largest (sort_descending scored_results)).
    { unfold sort_descending. apply fold_insert_head_largest;
        [exact Hfinite|constructor|exact I]. }
    destruct (Hto _ _ Hin Htruthy) as [score Hscored].
    destruct (sort_descending scored_results) as [|h t] eqn:Hsort.
    { apply Hsorted_in in Hscored. contradiction. }
    assert (Hh : In h scored_results) by (apply Hsorted_in; now left).
    destruct (Hfrom h Hh) as (Hh1 & Hh2 & Hh3).
    destruct (priority_score_bounds _ _ _ (Hunit _ _ Hh1 Hh2) Hh3)
      as (qh & Hqh & _ & Hlow).
    destruct (Hfrom _ Hscored) as (_ & _ & Hx3).
    cbn [fst snd result_of score_of] in Hx3.
    destruct (priority_score_bounds _ _ _ (Hunit _ _ Hin Htruthy) Hx3)
      as (qx & Hqx & Hhigh & _).
    assert (Hle : qx <= qh).
    { apply Hsorted_in in Hscored. destruct Hscored as [->|Hint].
      - unfold score_of in Hqh. cbn in Hqh. rewrite Hqx in Hqh.
        injection Hqh as <-. lra.
      - exact (Hhead _ qx qh Hint Hqx Hqh). }
    assert (Hflagged : flagged (fst (fst h)) (result_of h) = true).
    { destruct (flagged (fst (fst h)) (result_of h)) eqn:Ef; [reflexivity|].
      specialize (Hhigh Hflag). specialize (Hlow eq_refl). lra. }
    unfold slice_to.
    destruct (Z.ltb_spec max_recommendations 0) as [Hneg|_]; [lia|].
    destruct (Z.to_nat max_recommendations) as [|m] eqn:Hm; [lia|].
    cbn [firstn map]. do 3 eexists. split; [reflexivity|].
    split; [exact Hh1|exact Hflagged].
Qed.

Lemma flagged_results_come_first_witness :
  let model_results :=
    [("racing_line",
      VDict [("confidence", VFloat (FFin (9 # 10)));
             ("recommendation", VStr "Late apex")]);
     ("energy", VDict [("will_finish", VBool false)])] in
  exists recommended,
    prioritize_model_outputs model_results 3 = Ok recommended /\
    (length recommended <= 3)%nat.
Proof.
  cbn zeta.
  assert (Hrun :
    { recommended |
      prioritize_model_outputs
        [("racing_line",
          VDict [("confidence", VFloat (FFin (9 # 10)));
                 ("recommendation", VStr "Late apex")]);
         ("energy", VDict [("will_finish", VBool false)])] 3
      = Ok recommended })
    by (eexists; vm_compute; reflexivity).
  destruct Hrun as [recommended Hrun]. exists recommended.
  split; [exact Hrun|].
  refine (proj1 (proj2 (proj2 (flagged_results_come_first _ 3 recommended
                                 Hrun))) _).
  lia.
Defined.
